(** * Review extraction and relevance ranking: a shallow embedding

    The development embeds the review analyzer
    ([src/utils/review_analyzer.py]) and the extraction loop of the
    universal scraper ([src/scrapers/universal_scraper.py]), with the
    functions around them on the path of a search request (the platform
    table, [create_filter_from_params], and [sanitize_text] and
    [clean_review_data] of [src/utils/helpers.py]), and proves properties
    of the embedded functions.

    Modelling conventions.
    - A Python [str] is a [string] whose characters are the code points
      below 256; [str.lower], the regular-expression classes [\w], [\d] and
      the whitespace of [str.split]/[str.strip] are Python's on these code
      points.
    - A Python [float] is an exact rational ([Q]); [==] on floats is [Qeq].
    - A review dictionary is a record of optional, typed keys: an absent key
      is [None], and [d.get(k, default)] is [default] on [None].
    - Mutable objects (lists and dictionaries) live in a store of objects
      addressed by locations when aliasing matters (module [Store]). *)

From Stdlib Require Import Ascii String QArith Qminmax Qround Lqa.
From stdpp Require Import gmap strings list sorting pretty.

(** ** Python string primitives *)

Module PyStr.

Definition ord (c : ascii) : N := N_of_ascii c.

Definition in_range (lo hi : N) (c : ascii) : bool :=
  ((lo <=? ord c) && (ord c <=? hi))%N.

(** the characters that [str.lower] changes: A-Z and the capital letters of
    Latin-1 *)
Definition is_upper (c : ascii) : bool :=
  in_range 65 90 c || in_range 192 214 c || in_range 216 222 c.

(** [\d] *)
Definition is_digit (c : ascii) : bool := in_range 48 57 c.

(** [\w]: the underscore and the alphanumeric characters, which below 256
    are the ASCII letters and digits, the letters of Latin-1, the ordinal
    indicators, the micro sign, the superscript digits and the fractions *)
Definition is_word (c : ascii) : bool :=
  in_range 48 57 c || in_range 65 90 c || (ord c =? 95)%N || in_range 97 122 c
  || (ord c =? 170)%N || in_range 178 179 c || (ord c =? 181)%N
  || in_range 185 186 c || in_range 188 190 c
  || in_range 192 214 c || in_range 216 246 c || in_range 248 255 c.

(** Whitespace of [str.split()] and [str.strip()]: TAB, LF, VT, FF, CR,
    FS, GS, RS, US, the space, NEL and the no-break space. *)
Definition is_space (c : ascii) : bool :=
  in_range 9 13 c || in_range 28 32 c || (ord c =? 133)%N || (ord c =? 160)%N.

Definition lower_char (c : ascii) : ascii :=
  if is_upper c then ascii_of_N (ord c + 32) else c.

(** [s.lower()] *)
Fixpoint lower (s : string) : string :=
  match s with
  | EmptyString => EmptyString
  | String c s' => String (lower_char c) (lower s')
  end.

(** [s[n:]] *)
Fixpoint drop (n : nat) (s : string) : string :=
  match n, s with
  | O, _ => s
  | S n', String _ s' => drop n' s'
  | S _, EmptyString => EmptyString
  end.

(** the last character of [s], or [d] when [s] is empty *)
Fixpoint last_char (d : option ascii) (s : string) : option ascii :=
  match s with
  | EmptyString => d
  | String c s' => last_char (Some c) s'
  end.

(** [sub in s] *)
Fixpoint contains (sub s : string) : bool :=
  String.prefix sub s ||
  match s with
  | EmptyString => false
  | String _ s' => contains sub s'
  end.

(** Left-to-right scan for non-overlapping matches of a pattern of fixed
    width: [hit prev rest] says whether the pattern matches at the current
    position, where [prev] is the character before it and [rest] the text
    from it on. After a match the scan resumes [step] characters further
    (the width of the match, and one character after an empty match);
    [skip] counts the characters still to be passed over. *)
Fixpoint scan (hit : option ascii -> string -> bool) (step skip : nat)
         (prev : option ascii) (s : string) : nat :=
  match skip, s with
  | S k, String c s' => scan hit step k (Some c) s'
  | S _, EmptyString => 0
  | O, String c s' =>
      if hit prev s then S (scan hit step (step - 1) (Some c) s')
      else scan hit step 0 (Some c) s'
  | O, EmptyString => if hit prev s then 1 else 0
  end.

Definition width (sub : string) : nat := Nat.max 1 (String.length sub).

(** [s.count(sub)]: the number of non-overlapping occurrences of [sub];
    for the empty [sub] this is [len(s) + 1]. *)
Definition count (sub s : string) : nat :=
  scan (fun _ rest => String.prefix sub rest) (width sub) 0 None s.

Definition opt_word (c : option ascii) : bool :=
  match c with Some c => is_word c | None => false end.

Definition head_char (s : string) : option ascii :=
  match s with EmptyString => None | String c _ => Some c end.

(** [\b] between the character [prev] and the text [rest]: exactly one
    side is a word character (the ends of the text count as non-word). *)
Definition boundary (prev : option ascii) (rest : string) : bool :=
  xorb (opt_word prev) (opt_word (head_char rest)).

(** whether [\b + re.escape(kw) + \b] matches at the current position *)
Definition exact_at (kw : string) (prev : option ascii) (rest : string) : bool :=
  boundary prev rest && String.prefix kw rest &&
  boundary (last_char prev kw) (drop (String.length kw) rest).

(** [len(re.findall(r'\b' + re.escape(kw) + r'\b', s))] *)
Definition findall_exact (kw s : string) : nat :=
  scan (exact_at kw) (width kw) 0 None s.

Definition flush (cur : string) : list string :=
  match cur with EmptyString => [] | _ => [cur] end.

(** the maximal runs of characters satisfying [keep], left to right;
    [cur] is the run being read *)
Fixpoint runs (keep : ascii -> bool) (cur : string) (s : string) : list string :=
  match s with
  | EmptyString => flush cur
  | String c s' =>
      if keep c then runs keep (cur +:+ String c EmptyString) s'
      else flush cur ++ runs keep EmptyString s'
  end.

(** [re.findall(r'\b\w+\b', s)]: the maximal runs of word characters *)
Definition findall_words (s : string) : list string := runs is_word EmptyString s.

(** [s.split()]: the maximal runs of non-whitespace characters *)
Definition split (s : string) : list string :=
  runs (fun c => negb (is_space c)) EmptyString s.

Fixpoint lstrip (s : string) : string :=
  match s with
  | EmptyString => EmptyString
  | String c s' => if is_space c then lstrip s' else s
  end.

(** [s.strip()] *)
Definition strip (s : string) : string :=
  String.rev (lstrip (String.rev (lstrip s))).

(** truthiness of a string: [bool(s)] *)
Definition truthy (s : string) : bool :=
  match s with EmptyString => false | _ => true end.

End PyStr.

(** ** Python numbers and sequences *)

(** [x < y] on floats *)
Definition Qltb (x y : Q) : bool :=
  (Qnum x * QDen y <? Qnum y * QDen x)%Z.

(** [l[:n]]: a negative [n] counts from the end of the list. *)
Definition slice_to {A : Type} (l : list A) (n : Z) : list A :=
  if (0 <=? n)%Z then take (Z.to_nat n) l
  else take (length l - Z.to_nat (- n)) l.

(** [sorted(l, key=key, reverse=True)]: the stable sort in descending order
    of the keys, [key_lt] being [<] on keys. Elements are inserted from the
    right, each one before the first element whose key is not greater. *)
Section Sorted.
Context {A K : Type} (key_lt : K -> K -> bool) (key : A -> K).

Fixpoint insert_desc (x : A) (l : list A) : list A :=
  match l with
  | [] => [x]
  | y :: l' =>
      if key_lt (key x) (key y) then y :: insert_desc x l' else x :: l
  end.

Definition sorted_desc (l : list A) : list A := foldr insert_desc [] l.

(** [key x >= key y] *)
Definition key_ge (x y : A) : Prop := key_lt (key x) (key y) = false.

End Sorted.

(** [f"{x:.1f}"] for [x >= 0]: one decimal, ties to the even tenth. *)
Definition round_half_even (x : Q) : Z :=
  let fl := Qfloor x in
  match ((x - inject_Z fl) ?= (1 # 2))%Q with
  | Lt => fl
  | Gt => (fl + 1)%Z
  | Eq => if Z.even fl then fl else (fl + 1)%Z
  end.

Definition format_1f (x : Q) : string :=
  let tenths := round_half_even (x * 10)%Q in
  pretty (tenths / 10)%Z +:+ "." +:+ pretty (tenths mod 10)%Z.

(** ** The review analyzer ([ReviewAnalyzer]) *)

(** A review dictionary, raw or annotated: the seven keys written by the
    scraper and the four added by [filter_reviews]. *)
Record review : Type := mk_review {
  reviewer_name : option string;
  rating : option Q;
  review_text : option string;
  date : option string;
  review_url : option string;
  source : option string;
  platform : option string;
  sentiment : option string;
  categories : option (list string);
  keyword_relevance : option Q;
  relevance_percentage : option string
}.

(** [d['sentiment'] = v] and the other three assignments *)
Definition set_sentiment (v : string) (d : review) : review :=
  mk_review (reviewer_name d) (rating d) (review_text d) (date d)
    (review_url d) (source d) (platform d)
    (Some v) (categories d) (keyword_relevance d) (relevance_percentage d).

Definition set_categories (v : list string) (d : review) : review :=
  mk_review (reviewer_name d) (rating d) (review_text d) (date d)
    (review_url d) (source d) (platform d)
    (sentiment d) (Some v) (keyword_relevance d) (relevance_percentage d).

Definition set_keyword_relevance (v : Q) (d : review) : review :=
  mk_review (reviewer_name d) (rating d) (review_text d) (date d)
    (review_url d) (source d) (platform d)
    (sentiment d) (categories d) (Some v) (relevance_percentage d).

Definition set_relevance_percentage (v : string) (d : review) : review :=
  mk_review (reviewer_name d) (rating d) (review_text d) (date d)
    (review_url d) (source d) (platform d)
    (sentiment d) (categories d) (keyword_relevance d) (Some v).

(** [float(review.get('rating', 0))] *)
Definition get_rating (d : review) : Q := default 0%Q (rating d).

(** [str(review.get('review_text', ''))] *)
Definition get_review_text (d : review) : string := default "" (review_text d).

(** The filtering configuration ([ReviewFilter]); [None] is Python's. *)
Module ReviewFilter.
Record t : Type := mk {
  keywords : option (list string);
  categories : option (list string);
  min_rating : Q;
  max_rating : Q;
  sentiment : option string;
  sort_by : string;
  limit : Z
}.
End ReviewFilter.

(** truthiness of an optional list and of an optional string *)
Definition some_list {A : Type} (o : option (list A)) : list A := default [] o.
Definition list_truthy {A : Type} (o : option (list A)) : bool :=
  match some_list o with [] => false | _ => true end.
Definition str_truthy (o : option string) : bool :=
  match o with Some s => PyStr.truthy s | None => false end.

Definition criteria_keywords : list (string * list string) :=
  [ ("assembly",
      ["assembly"; "assemble"; "put together"; "setup"; "installation";
       "install"; "build"; "construction"; "instructions"; "manual";
       "easy to assemble"; "hard to assemble"; "difficult assembly"]);
    ("quality",
      ["quality"; "build quality"; "material"; "sturdy"; "durable";
       "solid"; "cheap"; "flimsy"; "well made"; "construction";
       "materials"; "finish"; "craftsmanship"]);
    ("value",
      ["value"; "price"; "worth"; "expensive"; "cheap"; "affordable";
       "money"; "cost"; "budget"; "overpriced"; "good deal";
       "bang for buck"; "value for money"]);
    ("size",
      ["size"; "big"; "small"; "large"; "compact"; "spacious";
       "dimensions"; "fit"; "space"; "room"; "tiny"; "huge";
       "perfect size"; "too big"; "too small"]);
    ("comfort",
      ["comfort"; "comfortable"; "ergonomic"; "soft"; "firm";
       "cushion"; "support"; "padding"; "cozy"; "uncomfortable"]);
    ("delivery",
      ["delivery"; "shipping"; "arrived"; "package"; "packaging";
       "fast shipping"; "slow delivery"; "damaged"; "box";
       "delivered"; "received"]);
    ("customer_service",
      ["customer service"; "support"; "help"; "response"; "staff";
       "representative"; "helpful"; "rude"; "friendly"; "contact"]);
    ("durability",
      ["durability"; "durable"; "last"; "lasting"; "wear"; "tear";
       "broke"; "broken"; "sturdy"; "reliable"; "falls apart"]) ].

Definition positive_list : list string :=
  ["excellent"; "amazing"; "great"; "love"; "perfect"; "awesome";
   "fantastic"; "wonderful"; "brilliant"; "outstanding"; "superb";
   "recommend"; "happy"; "satisfied"; "pleased"; "impressed"].

Definition negative_list : list string :=
  ["terrible"; "awful"; "hate"; "horrible"; "worst"; "bad";
   "disappointed"; "poor"; "useless"; "waste"; "regret";
   "broken"; "defective"; "faulty"; "cheap"; "flimsy"].

Definition positive_words : gset string := list_to_set positive_list.
Definition negative_words : gset string := list_to_set negative_list.

Definition analyze_sentiment (text : string) : string :=
  if negb (PyStr.truthy text) then "neutral"
  else
    let text_lower := PyStr.lower text in
    let words : gset string := list_to_set (PyStr.findall_words text_lower) in
    let positive_count := size (words ∩ positive_words) in
    let negative_count := size (words ∩ negative_words) in
    if (negative_count <? positive_count)%nat then "positive"
    else if (positive_count <? negative_count)%nat then "negative"
    else "neutral".

(** one turn of the loop over the keywords *)
Definition add_matches (text_lower : string) (total_matches : Z) (keyword : string) : Z :=
  let keyword_lower := PyStr.lower keyword in
  let exact_matches := Z.of_nat (PyStr.findall_exact keyword_lower text_lower) in
  let partial_matches :=
    (Z.of_nat (PyStr.count keyword_lower text_lower) - exact_matches)%Z in
  (total_matches + (exact_matches * 2 + partial_matches))%Z.

Definition calculate_keyword_relevance (text : string) (keywords : list string) : Q :=
  if negb (PyStr.truthy text) || negb (list_truthy (Some keywords)) then 0%Q
  else
    let text_lower := PyStr.lower text in
    let total_matches := fold_left (add_matches text_lower) keywords 0%Z in
    let text_length := length (PyStr.split text) in
    let max_possible_score := (Z.of_nat (length keywords) * 2)%Z in
    if (text_length =? 0)%nat || (max_possible_score =? 0)%Z then 0%Q
    else Qmin (inject_Z total_matches / inject_Z max_possible_score)%Q 1%Q.

Definition categorize_review (text : string) : list string :=
  if negb (PyStr.truthy text) then []
  else
    let text_lower := PyStr.lower text in
    fold_left
      (fun matching_categories '(category, keywords) =>
         if existsb (fun keyword => PyStr.contains (PyStr.lower keyword) text_lower)
                    keywords
         then matching_categories ++ [category]
         else matching_categories)
      criteria_keywords [].

(** The annotation of a review that passed the rating and sentiment
    filters: the copy of the dictionary with [sentiment] and [categories]
    set. *)
Definition enhance (review_text : string) (d : review) : review :=
  set_categories (categorize_review review_text)
    (set_sentiment (analyze_sentiment review_text) d).

(** the two assignments of the keyword branch *)
Definition with_relevance (relevance : Q) (d : review) : review :=
  set_relevance_percentage (format_1f (relevance * 100)%Q +:+ "%")
    (set_keyword_relevance relevance d).

(** the two assignments of the branch without keywords *)
Definition with_full_relevance (d : review) : review :=
  set_relevance_percentage "100%" (set_keyword_relevance 1%Q d).

(** [not review_categories.intersection(filter_categories)] *)
Definition no_common_category (review_categories filter_categories : list string) : bool :=
  let review_set : gset string := list_to_set review_categories in
  let filter_set : gset string := list_to_set filter_categories in
  (size (review_set ∩ filter_set) =? 0)%nat.

(** One turn of the loop of [filter_reviews]: the list [filtered_reviews]
    after the body has run on [d]. Each [continue] ends the turn with the
    list as it is at that point. *)
Definition filter_step (filter_config : ReviewFilter.t)
           (filtered_reviews : list review) (d : review) : list review :=
  let rating := get_rating d in
  if Qltb rating (ReviewFilter.min_rating filter_config)
     || Qltb (ReviewFilter.max_rating filter_config) rating
  then filtered_reviews
  else
    let review_text := get_review_text d in
    if str_truthy (ReviewFilter.sentiment filter_config)
       && negb (String.eqb (analyze_sentiment review_text)
                  (default "" (ReviewFilter.sentiment filter_config)))
    then filtered_reviews
    else
      let enhanced_review := enhance review_text d in
      let '(enhanced_review, filtered_reviews) :=
        if list_truthy (ReviewFilter.keywords filter_config) then
          let relevance :=
            calculate_keyword_relevance review_text
              (some_list (ReviewFilter.keywords filter_config)) in
          let enhanced_review := with_relevance relevance enhanced_review in
          if Qltb (1 # 10) relevance
          then (enhanced_review, filtered_reviews ++ [enhanced_review])
          else (enhanced_review, filtered_reviews)
        else
          let enhanced_review := with_full_relevance enhanced_review in
          (enhanced_review, filtered_reviews ++ [enhanced_review]) in
      if list_truthy (ReviewFilter.categories filter_config) then
        if no_common_category (some_list (categories enhanced_review))
             (some_list (ReviewFilter.categories filter_config))
        then filtered_reviews
        else filtered_reviews
      else filtered_reviews.

(** the sort keys of [_sort_reviews] *)
Definition key_relevance (d : review) : Q := default 0%Q (keyword_relevance d).
Definition key_rating (d : review) : Q := get_rating d.
Definition key_date (d : review) : string := default "" (date d).
Definition key_length (d : review) : nat := String.length (get_review_text d).

Definition _sort_reviews (reviews : list review) (sort_by : string) : list review :=
  if String.eqb sort_by "relevance" then sorted_desc Qltb key_relevance reviews
  else if String.eqb sort_by "rating" then sorted_desc Qltb key_rating reviews
  else if String.eqb sort_by "date" then sorted_desc String.ltb key_date reviews
  else if String.eqb sort_by "length" then sorted_desc Nat.ltb key_length reviews
  else reviews.

(** the list [filtered_reviews] when the loop ends *)
Definition filter_loop (reviews : list review) (filter_config : ReviewFilter.t) : list review :=
  fold_left (filter_step filter_config) reviews [].

Definition filter_reviews (reviews : list review) (filter_config : ReviewFilter.t) : list review :=
  match reviews with
  | [] => []
  | _ =>
      let filtered_reviews := filter_loop reviews filter_config in
      let filtered_reviews :=
        _sort_reviews filtered_reviews (ReviewFilter.sort_by filter_config) in
      slice_to filtered_reviews (ReviewFilter.limit filter_config)
  end.

(** *** Insights *)

(** The values of the insights dictionary. A [Counter] and the dictionaries
    built from it are association lists in insertion order. *)
Inductive insight : Type :=
  | IInt (n : Z)
  | IFloat (q : Q)
  | ICounts (d : list (string * nat))
  | INames (l : list string).

(** [Counter.update] for one element: the count of a known key grows, a new
    key goes to the end. *)
Fixpoint counter_add (x : string) (c : list (string * nat)) : list (string * nat) :=
  match c with
  | [] => [(x, 1)]
  | (k, n) :: c' =>
      if String.eqb k x then (k, S n) :: c' else (k, n) :: counter_add x c'
  end.

(** [Counter(l)] *)
Definition Counter (l : list string) : list (string * nat) :=
  fold_left (fun c x => counter_add x c) l [].

(** [c.most_common()]: by count, largest first, ties in insertion order *)
Definition most_common (c : list (string * nat)) : list (string * nat) :=
  sorted_desc Nat.ltb snd c.

(** [sum(ratings)] *)
Definition Qsum (l : list Q) : Q := fold_left Qplus l 0%Q.

Definition count_if (p : Q -> bool) (l : list Q) : nat := length (filter (fun r => p r = true) l).

Definition rating_distribution (ratings : list Q) : list (string * nat) :=
  [ ("5_star", count_if (fun r => Qle_bool (45 # 10) r) ratings);
    ("4_star", count_if (fun r => Qle_bool (35 # 10) r && Qltb r (45 # 10)) ratings);
    ("3_star", count_if (fun r => Qle_bool (25 # 10) r && Qltb r (35 # 10)) ratings);
    ("2_star", count_if (fun r => Qle_bool (15 # 10) r && Qltb r (25 # 10)) ratings);
    ("1_star", count_if (fun r => Qltb r (15 # 10)) ratings) ].

Definition get_review_insights (reviews : list review) : gmap string insight :=
  match reviews with
  | [] => ∅
  | _ =>
      let all_categories := flat_map (fun d => some_list (categories d)) reviews in
      let sentiments := map (fun d => default "neutral" (sentiment d)) reviews in
      let ratings := map get_rating reviews in
      let category_counts := Counter all_categories in
      let sentiment_counts := Counter sentiments in
      <["total_reviews" := IInt (Z.of_nat (length reviews))]>
      (<["average_rating" :=
           match ratings with
           | [] => IInt 0
           | _ => IFloat (Qsum ratings / inject_Z (Z.of_nat (length ratings)))%Q
           end]>
      (<["category_breakdown" := ICounts (most_common category_counts)]>
      (<["sentiment_breakdown" := ICounts sentiment_counts]>
      (<["top_categories" := INames (map fst (take 5 (most_common category_counts)))]>
      (<["rating_distribution" := ICounts (rating_distribution ratings)]> ∅)))))
  end.

(** ** The analyzer over a store of objects

    [filter_reviews] receives a list object whose items are dictionary
    objects, and works on copies. Here lists and dictionaries are objects
    of a store; a computation threads the store and fails on a location
    that does not hold the expected kind of object. *)

Module Store.

Definition loc : Type := positive.

Inductive obj : Type :=
  | ODict (d : review)
  | OList (items : list loc).

Definition M (A : Type) : Type := gmap loc obj -> option (A * gmap loc obj).

#[global] Instance M_ret : MRet M := fun A a h => Some (a, h).
#[global] Instance M_bind : MBind M := fun A B f m h =>
  match m h with
  | Some (a, h') => f a h'
  | None => None
  end.

(** a new object, at a location that is not in use *)
Definition alloc (o : obj) : M loc := fun h =>
  let l := fresh (dom h) in Some (l, <[l := o]> h).

Definition read_list (l : loc) : M (list loc) := fun h =>
  match h !! l with
  | Some (OList items) => Some (items, h)
  | _ => None
  end.

Definition read_dict (l : loc) : M review := fun h =>
  match h !! l with
  | Some (ODict d) => Some (d, h)
  | _ => None
  end.

(** [l.append(x)] *)
Definition append (l x : loc) : M unit := fun h =>
  match h !! l with
  | Some (OList items) => Some (tt, <[l := OList (items ++ [x])]> h)
  | _ => None
  end.

(** [d[k] = v], the assignment being given by its effect on the record *)
Definition setitem (l : loc) (assign : review -> review) : M unit := fun h =>
  match h !! l with
  | Some (ODict d) => Some (tt, <[l := ODict (assign d)]> h)
  | _ => None
  end.

(** [d.copy()] *)
Definition copy (l : loc) : M loc :=
  d ← read_dict l; alloc (ODict d).

(** [for x in items: body(x)] *)
Fixpoint for_each (body : loc -> M unit) (items : list loc) : M unit :=
  match items with
  | [] => mret tt
  | x :: items' => body x ;; for_each body items'
  end.

Fixpoint read_dicts (items : list loc) : M (list review) :=
  match items with
  | [] => mret []
  | x :: items' => d ← read_dict x; ds ← read_dicts items'; mret (d :: ds)
  end.

(** the body of the loop of [filter_reviews]; [mret tt] where the source
    has [continue] or reaches the end of the body *)
Definition filter_body (filter_config : ReviewFilter.t)
           (filtered_reviews : loc) (review : loc) : M unit :=
  d ← read_dict review;
  let rating := get_rating d in
  if Qltb rating (ReviewFilter.min_rating filter_config)
     || Qltb (ReviewFilter.max_rating filter_config) rating
  then mret tt
  else
    let review_text := get_review_text d in
    if str_truthy (ReviewFilter.sentiment filter_config)
       && negb (String.eqb (analyze_sentiment review_text)
                  (default "" (ReviewFilter.sentiment filter_config)))
    then mret tt
    else
      enhanced_review ← copy review;
      setitem enhanced_review (set_sentiment (analyze_sentiment review_text)) ;;
      setitem enhanced_review (set_categories (categorize_review review_text)) ;;
      (if list_truthy (ReviewFilter.keywords filter_config) then
         let relevance :=
           calculate_keyword_relevance review_text
             (some_list (ReviewFilter.keywords filter_config)) in
         setitem enhanced_review (set_keyword_relevance relevance) ;;
         setitem enhanced_review
           (set_relevance_percentage (format_1f (relevance * 100)%Q +:+ "%")) ;;
         if Qltb (1 # 10) relevance
         then append filtered_reviews enhanced_review
         else mret tt
       else
         setitem enhanced_review (set_keyword_relevance 1%Q) ;;
         setitem enhanced_review (set_relevance_percentage "100%") ;;
         append filtered_reviews enhanced_review) ;;
      if list_truthy (ReviewFilter.categories filter_config) then
        e ← read_dict enhanced_review;
        if no_common_category (some_list (categories e))
             (some_list (ReviewFilter.categories filter_config))
        then mret tt
        else mret tt
      else mret tt.

(** [sorted(reviews, key=..., reverse=True)] as a new list object *)
Definition sorted_by {K : Type} (key_lt : K -> K -> bool) (key : review -> K)
           (reviews : loc) : M loc :=
  items ← read_list reviews;
  ds ← read_dicts items;
  alloc (OList (map fst (sorted_desc key_lt (fun x => key (snd x)) (zip items ds)))).

Definition _sort_reviews (reviews : loc) (sort_by : string) : M loc :=
  if String.eqb sort_by "relevance" then sorted_by Qltb key_relevance reviews
  else if String.eqb sort_by "rating" then sorted_by Qltb key_rating reviews
  else if String.eqb sort_by "date" then sorted_by String.ltb key_date reviews
  else if String.eqb sort_by "length" then sorted_by Nat.ltb key_length reviews
  else mret reviews.

(** The loop runs over the items that [reviews] holds when the call starts;
    the body appends to the new list [filtered_reviews] only. *)
Definition filter_reviews (reviews : loc) (filter_config : ReviewFilter.t) : M loc :=
  items ← read_list reviews;
  match items with
  | [] => alloc (OList [])
  | _ =>
      filtered_reviews ← alloc (OList []);
      for_each (filter_body filter_config filtered_reviews) items ;;
      filtered_reviews ←
        _sort_reviews filtered_reviews (ReviewFilter.sort_by filter_config);
      sorted_items ← read_list filtered_reviews;
      alloc (OList (slice_to sorted_items (ReviewFilter.limit filter_config)))
  end.

End Store.

(** ** The universal scraper ([UniversalScraper]) *)

(** The parsed page. An element carries the selectors it matches (the
    selector engine itself is the parser's), its attributes and its children;
    a text node carries its string. *)
Module Dom.

#[local] Set Warnings "-register-all".

Inductive node : Type :=
  | Text (s : string)
  | Tag (matched : list string) (attrs : list (string * string))
        (children : list node).

(** the elements and text nodes below [n], in document order *)
Fixpoint descendants (n : node) : list node :=
  match n with
  | Text _ => []
  | Tag _ _ children => flat_map (fun c => c :: descendants c) children
  end.

Definition matches (selector : string) (n : node) : bool :=
  match n with
  | Text _ => false
  | Tag matched _ _ => existsb (String.eqb selector) matched
  end.

(** [n.select(selector)] *)
Definition select (n : node) (selector : string) : list node :=
  filter (fun c => matches selector c = true) (descendants n).

(** [n.select_one(selector)] *)
Definition select_one (n : node) (selector : string) : option node :=
  head (select n selector).

Fixpoint assoc (k : string) (l : list (string * string)) : option string :=
  match l with
  | [] => None
  | (k', v) :: l' => if String.eqb k' k then Some v else assoc k l'
  end.

(** [n.get(attr, d)] *)
Definition get (n : node) (attr : string) (d : string) : string :=
  match n with
  | Text _ => d
  | Tag _ attrs _ => default d (assoc attr attrs)
  end.

(** the strings below [n], in document order *)
Fixpoint strings (n : node) : list string :=
  match n with
  | Text s => [s]
  | Tag _ _ children => flat_map strings children
  end.

Definition join (l : list string) : string := foldr String.append "" l.

(** [n.get_text()] *)
Definition get_text (n : node) : string := join (strings n).

(** [n.get_text(strip=True)]: every string is stripped, and the strings
    that are empty after that are left out *)
Definition get_text_strip (n : node) : string :=
  join (filter (fun s => PyStr.truthy s = true) (map PyStr.strip (strings n))).

End Dom.

(** [re.search(r'(\d+(?:\.\d+)?)', s)] and [float] of its group *)
Module Number.

(** the digits at the start of [s], and what follows them *)
Fixpoint span_digits (s : string) : string * string :=
  match s with
  | EmptyString => (EmptyString, EmptyString)
  | String c s' =>
      if PyStr.is_digit c
      then let '(ds, rest) := span_digits s' in (String c ds, rest)
      else (EmptyString, s)
  end.

(** the match that starts at a digit: the digits, then a dot and digits
    when at least one digit follows the dot *)
Definition number_at (s : string) : string :=
  let '(int_part, rest) := span_digits s in
  match rest with
  | String "." rest' =>
      let '(frac_part, _) := span_digits rest' in
      match frac_part with
      | EmptyString => int_part
      | _ => int_part +:+ "." +:+ frac_part
      end
  | _ => int_part
  end.

Fixpoint search (s : string) : option string :=
  match s with
  | EmptyString => None
  | String c s' => if PyStr.is_digit c then Some (number_at s) else search s'
  end.

Definition digit_value (c : ascii) : Z := Z.of_N (PyStr.ord c - 48).

(** the value of a string of digits read after [acc] *)
Fixpoint digits_value (acc : Z) (s : string) : Z :=
  match s with
  | EmptyString => acc
  | String c s' => digits_value (acc * 10 + digit_value c) s'
  end.

(** [float(m)] for a match [m] of the pattern *)
Definition to_float (m : string) : Q :=
  let '(int_part, rest) := span_digits m in
  match rest with
  | String "." frac_part =>
      (inject_Z (digits_value 0 (int_part +:+ frac_part))
       / inject_Z (10 ^ Z.of_nat (String.length frac_part)))%Q
  | _ => inject_Z (digits_value 0 int_part)
  end.

End Number.

Module ScrapeConfig.
Record t : Type := mk {
  name : string;
  domain : string;
  review_container : string;
  reviewer_name : string;
  rating : string;
  review_text : string;
  date : string;
  rating_scale : Z;
  max_reviews : Z;
  headers : option (list (string * string))
}.
End ScrapeConfig.

(** an entry of the table, with the defaults of the other fields *)
Definition site (name domain review_container reviewer_name rating review_text date : string)
  : ScrapeConfig.t :=
  ScrapeConfig.mk name domain review_container reviewer_name rating review_text
    date 5 10 None.

(** [_load_site_configs]: the dictionary of the platforms, in insertion
    order *)
Definition _load_site_configs : list (string * ScrapeConfig.t) :=
  [
    ("walmart", site "Walmart" "walmart.com"
       "[data-automation-id='reviews-section'] [data-testid='reviews-section-review']"
       "[data-automation-id='review-author-name']"
       "[data-automation-id='review-star-rating']"
       "[data-automation-id='review-text']"
       "[data-automation-id='review-date']");
    ("target", site "Target" "target.com"
       "[data-test='review-content']"
       "[data-test='review-author']"
       "[data-test='review-stars']"
       "[data-test='review-text']"
       "[data-test='review-date']");
    ("costco", site "Costco" "costco.com"
       ".review-item"
       ".review-author"
       ".review-rating"
       ".review-text"
       ".review-date");
    ("bestbuy", site "Best Buy" "bestbuy.com"
       ".review-item-content"
       ".sr-only"
       ".sr-only"
       ".review-text"
       ".review-date");
    ("homedepot", site "Home Depot" "homedepot.com"
       "[data-testid='review']"
       "[data-testid='review-author']"
       "[data-testid='review-rating']"
       "[data-testid='review-text']"
       "[data-testid='review-date']");
    ("lowes", site "Lowe's" "lowes.com"
       ".review-item"
       ".review-author"
       ".review-rating"
       ".review-content"
       ".review-date");
    ("macys", site "Macy's" "macys.com"
       ".review-item"
       ".review-author"
       ".review-rating"
       ".review-text"
       ".review-date");
    ("kohls", site "Kohl's" "kohls.com"
       "[data-testid='review-item']"
       "[data-testid='reviewer-name']"
       "[data-testid='review-rating']"
       "[data-testid='review-text']"
       "[data-testid='review-date']");
    ("jcpenney", site "JCPenney" "jcpenney.com"
       ".review-content"
       ".review-author"
       ".review-rating"
       ".review-text"
       ".review-date");
    ("sears", site "Sears" "sears.com"
       ".review-item"
       ".reviewer-name"
       ".rating-stars"
       ".review-text"
       ".review-date");
    ("nordstrom", site "Nordstrom" "nordstrom.com"
       "[data-testid='review']"
       "[data-testid='reviewer-name']"
       "[data-testid='review-rating']"
       "[data-testid='review-text']"
       "[data-testid='review-date']");
    ("bloomingdales", site "Bloomingdale's" "bloomingdales.com"
       ".review-item"
       ".review-author"
       ".review-rating"
       ".review-text"
       ".review-date");
    ("saksoff5th", site "Saks OFF 5TH" "saksoff5th.com"
       ".review-content"
       ".reviewer-name"
       ".rating-display"
       ".review-text"
       ".review-date");
    ("newegg", site "Newegg" "newegg.com"
       ".review-item"
       ".review-author"
       ".review-rating"
       ".review-text"
       ".review-date");
    ("microcenter", site "Micro Center" "microcenter.com"
       ".review-content"
       ".reviewer-name"
       ".star-rating"
       ".review-text"
       ".review-date");
    ("tigerdirect", site "TigerDirect" "tigerdirect.com"
       ".review-item"
       ".review-author"
       ".review-rating"
       ".review-text"
       ".review-date");
    ("bhphotovideo", site "B&H Photo Video" "bhphotovideo.com"
       "[data-selenium='reviewItem']"
       "[data-selenium='reviewerName']"
       "[data-selenium='reviewRating']"
       "[data-selenium='reviewText']"
       "[data-selenium='reviewDate']");
    ("adorama", site "Adorama" "adorama.com"
       ".review-item"
       ".reviewer-name"
       ".rating-stars"
       ".review-text"
       ".review-date");
    ("ebay", site "eBay" "ebay.com"
       ".reviews .review-item-content"
       ".review-item-author"
       ".star-rating"
       ".review-item-text"
       ".review-item-date");
    ("etsy", site "Etsy" "etsy.com"
       "[data-region='review']"
       "[data-region='review-author']"
       "[data-region='review-rating']"
       "[data-region='review-text']"
       "[data-region='review-date']");
    ("facebook", site "Facebook Marketplace" "facebook.com"
       "[data-testid='review-item']"
       "[data-testid='reviewer-name']"
       "[data-testid='review-rating']"
       "[data-testid='review-text']"
       "[data-testid='review-date']");
    ("mercari", site "Mercari" "mercari.com"
       ".review-item"
       ".reviewer-name"
       ".rating-display"
       ".review-text"
       ".review-date");
    ("poshmark", site "Poshmark" "poshmark.com"
       ".review-content"
       ".reviewer-name"
       ".star-rating"
       ".review-text"
       ".review-date");
    ("wayfair", site "Wayfair" "wayfair.com"
       "[data-enzyme-id='ReviewListItem']"
       "[data-enzyme-id='ReviewAuthor']"
       "[data-enzyme-id='ReviewRating']"
       "[data-enzyme-id='ReviewText']"
       "[data-enzyme-id='ReviewDate']");
    ("overstock", site "Overstock" "overstock.com"
       ".review-item"
       ".review-author"
       ".review-rating"
       ".review-text"
       ".review-date");
    ("ikea", site "IKEA" "ikea.com"
       ".review-item"
       ".reviewer-name"
       ".rating-stars"
       ".review-text"
       ".review-date");
    ("ashleyfurniture", site "Ashley Furniture" "ashleyfurniture.com"
       ".review-content"
       ".reviewer-name"
       ".star-rating"
       ".review-text"
       ".review-date");
    ("potterybarn", site "Pottery Barn" "potterybarn.com"
       ".review-item"
       ".review-author"
       ".review-rating"
       ".review-text"
       ".review-date");
    ("crateandbarrel", site "Crate & Barrel" "crateandbarrel.com"
       ".review-content"
       ".reviewer-name"
       ".rating-display"
       ".review-text"
       ".review-date");
    ("nike", site "Nike" "nike.com"
       ".review-item"
       ".reviewer-name"
       ".star-rating"
       ".review-text"
       ".review-date");
    ("adidas", site "Adidas" "adidas.com"
       "[data-testid='review']"
       "[data-testid='reviewer-name']"
       "[data-testid='review-rating']"
       "[data-testid='review-text']"
       "[data-testid='review-date']");
    ("gap", site "Gap" "gap.com"
       ".review-content"
       ".reviewer-name"
       ".rating-stars"
       ".review-text"
       ".review-date");
    ("hm", site "H&M" "hm.com"
       ".review-item"
       ".review-author"
       ".review-rating"
       ".review-text"
       ".review-date");
    ("zara", site "Zara" "zara.com"
       ".review-content"
       ".reviewer-name"
       ".star-rating"
       ".review-text"
       ".review-date");
    ("forever21", site "Forever 21" "forever21.com"
       ".review-item"
       ".reviewer-name"
       ".rating-display"
       ".review-text"
       ".review-date");
    ("uniqlo", site "Uniqlo" "uniqlo.com"
       ".review-content"
       ".reviewer-name"
       ".rating-stars"
       ".review-text"
       ".review-date");
    ("wholefoods", site "Whole Foods" "wholefoodsmarket.com"
       ".review-item"
       ".reviewer-name"
       ".star-rating"
       ".review-text"
       ".review-date");
    ("kroger", site "Kroger" "kroger.com"
       ".review-content"
       ".reviewer-name"
       ".rating-display"
       ".review-text"
       ".review-date");
    ("safeway", site "Safeway" "safeway.com"
       ".review-item"
       ".review-author"
       ".review-rating"
       ".review-text"
       ".review-date");
    ("publix", site "Publix" "publix.com"
       ".review-content"
       ".reviewer-name"
       ".star-rating"
       ".review-text"
       ".review-date");
    ("autozone", site "AutoZone" "autozone.com"
       ".review-content"
       ".reviewer-name"
       ".star-rating"
       ".review-text"
       ".review-date");
    ("gamestop", site "GameStop" "gamestop.com"
       ".review-item"
       ".review-author"
       ".review-rating"
       ".review-text"
       ".review-date");
    ("petsmart", site "PetSmart" "petsmart.com"
       ".review-item"
       ".reviewer-name"
       ".rating-stars"
       ".review-text"
       ".review-date");
    ("tripadvisor", site "TripAdvisor" "tripadvisor.com"
       "[data-test-target='review-card']"
       "[data-test-target='reviewer-name']"
       "[data-test-target='review-rating']"
       "[data-test-target='review-text']"
       "[data-test-target='review-date']");
    ("trustpilot", site "Trustpilot" "trustpilot.com"
       "[data-service-review-card-paper]"
       "[data-consumer-name-typography]"
       "[data-service-review-rating]"
       "[data-service-review-text-typography]"
       "[data-service-review-date-time-ago]");
    ("glassdoor", site "Glassdoor" "glassdoor.com"
       "[data-test='review-item']"
       "[data-test='reviewer-name']"
       "[data-test='review-rating']"
       "[data-test='review-text']"
       "[data-test='review-date']")
  ].

Inductive error : Type :=
  | UnsupportedPlatform
  | RequestException.

Inductive outcome (A : Type) : Type :=
  | Ok (a : A)
  | Raise (e : error).
Arguments Ok {A} a.
Arguments Raise {A} e.

(** [self.configs.get(platform)] *)
Fixpoint configs_get (platform : string) (configs : list (string * ScrapeConfig.t))
  : option ScrapeConfig.t :=
  match configs with
  | [] => None
  | (k, config) :: configs' =>
      if String.eqb k platform then Some config else configs_get platform configs'
  end.

(** The four extraction blocks of the loop body. *)

(** [# Extract reviewer name] *)
Definition extract_reviewer_name (config : ScrapeConfig.t) (container : Dom.node) : string :=
  match Dom.select_one container (ScrapeConfig.reviewer_name config) with
  | Some name_elem => Dom.get_text_strip name_elem
  | None => "Anonymous"
  end.

(** [# Extract rating] *)
Definition extract_rating (config : ScrapeConfig.t) (container : Dom.node) : Q :=
  match Dom.select_one container (ScrapeConfig.rating config) with
  | Some rating_elem =>
      let rating_text :=
        if PyStr.truthy (Dom.get rating_elem "aria-label" "")
        then Dom.get rating_elem "aria-label" ""
        else Dom.get_text rating_elem in
      match Number.search rating_text with
      | Some rating_match => Number.to_float rating_match
      | None => 0%Q
      end
  | None => 0%Q
  end.

(** [# Extract review text] *)
Definition extract_review_text (config : ScrapeConfig.t) (container : Dom.node) : string :=
  match Dom.select_one container (ScrapeConfig.review_text config) with
  | Some text_elem => Dom.get_text_strip text_elem
  | None => ""
  end.

(** [# Extract date]: [get_text(strip=True) or get('datetime', '')] *)
Definition extract_date (config : ScrapeConfig.t) (container : Dom.node) : string :=
  match Dom.select_one container (ScrapeConfig.date config) with
  | Some date_elem =>
      if PyStr.truthy (Dom.get_text_strip date_elem)
      then Dom.get_text_strip date_elem
      else Dom.get date_elem "datetime" ""
  | None => ""
  end.

(** One turn of the loop over the containers: the list [reviews] after the
    body has run on [container]. No operation of the body raises on this
    model of the page, so the handler of the body is never entered. *)
Definition scrape_step (config : ScrapeConfig.t) (url platform : string)
           (reviews : list review) (container : Dom.node) : list review :=
  let reviewer_name := extract_reviewer_name config container in
  let rating := extract_rating config container in
  let review_text := extract_review_text config container in
  let date := extract_date config container in
  if negb (PyStr.truthy review_text) && Qeq_bool rating 0
  then reviews
  else
    reviews ++
      [ mk_review (Some reviewer_name) (Some rating) (Some review_text)
          (Some date) (Some url) (Some (platform +:+ "_scraping"))
          (Some (ScrapeConfig.name config)) None None None None ].

Section Scraper.

(** [urlparse(url).netloc], which may raise *)
Variable urlparse_netloc : string -> option string.

(** the request and the parser: [session.get], [raise_for_status] and
    [BeautifulSoup(response.content, 'html.parser')] *)
Variable fetch : string -> outcome Dom.node.

Definition configs : list (string * ScrapeConfig.t) := _load_site_configs.

Definition detect_platform (url : string) : option string :=
  match urlparse_netloc url with
  | Some netloc =>
      let domain := PyStr.lower netloc in
      fst <$> List.find
        (fun '(platform, config) => PyStr.contains (ScrapeConfig.domain config) domain)
        configs
  | None => None
  end.

Definition scrape_reviews (url : string) (platform : option string)
  : outcome (list review) :=
  let platform :=
    if negb (str_truthy platform) then detect_platform url else platform in
  match (if str_truthy platform then configs_get (default "" platform) configs
         else None) with
  | None => Raise UnsupportedPlatform
  | Some config =>
      match fetch url with
      | Raise e => Raise e
      | Ok soup =>
          let review_containers :=
            Dom.select soup (ScrapeConfig.review_container config) in
          Ok (fold_left (scrape_step config url (default "" platform))
                (slice_to review_containers (ScrapeConfig.max_reviews config)) [])
      end
  end.

End Scraper.

(** ** Specification-level definitions

    The definitions below follow the wording of the specification; the
    theorems relate them to the functions above. *)

#[local] Instance Qlt_decision (x y : Q) : Decision (x < y)%Q :=
  match Qlt_le_dec x y with
  | left H => left H
  | right H => right (Qle_not_lt _ _ H)
  end.

(** *** Sentiment *)

(** the number of words of the lexicon that occur among the words of the
    lowercased text *)
Definition lexicon_hits (lexicon : list string) (text : string) : nat :=
  length (filter (fun w => w ∈ PyStr.findall_words (PyStr.lower text)) lexicon).

(** *** Relevance *)

(** weight 2 for every word-boundary match of the keyword, weight 1 for
    every occurrence beyond those *)
Definition keyword_score (text_lower keyword_lower : string) : Z :=
  let exact := Z.of_nat (PyStr.findall_exact keyword_lower text_lower) in
  let occurrences := Z.of_nat (PyStr.count keyword_lower text_lower) in
  (2 * exact + (occurrences - exact))%Z.

Definition total_matches (text : string) (keywords : list string) : Z :=
  foldr Z.add 0%Z
    (map (fun keyword => keyword_score (PyStr.lower text) (PyStr.lower keyword)) keywords).

(** [min(totalMatches / (2 * len(keywords)), 1.0)] *)
Definition relevance_formula (text : string) (keywords : list string) : Q :=
  Qmin (inject_Z (total_matches text keywords)
        / inject_Z (2 * Z.of_nat (length keywords)))%Q 1%Q.

(** *** Filtering *)

(** [min_rating <= rating <= max_rating] *)
Definition passes_rating (filter_config : ReviewFilter.t) (d : review) : bool :=
  Qle_bool (ReviewFilter.min_rating filter_config) (get_rating d)
  && Qle_bool (get_rating d) (ReviewFilter.max_rating filter_config).

(** no sentiment is asked for, or it is the sentiment of the text *)
Definition passes_sentiment (filter_config : ReviewFilter.t) (d : review) : bool :=
  match ReviewFilter.sentiment filter_config with
  | Some wanted =>
      if PyStr.truthy wanted
      then String.eqb (analyze_sentiment (get_review_text d)) wanted
      else true
  | None => true
  end.

(** the relevance of a review to the keywords of the query *)
Definition relevance_of (filter_config : ReviewFilter.t) (d : review) : Q :=
  calculate_keyword_relevance (get_review_text d)
    (some_list (ReviewFilter.keywords filter_config)).

(** the review passes the keyword stage *)
Definition passes_keywords (filter_config : ReviewFilter.t) (d : review) : bool :=
  if list_truthy (ReviewFilter.keywords filter_config)
  then Qltb (1 # 10) (relevance_of filter_config d)
  else true.

(** the review is in the list when the loop ends *)
Definition survives (filter_config : ReviewFilter.t) (d : review) : bool :=
  passes_rating filter_config d && passes_sentiment filter_config d
  && passes_keywords filter_config d.

(** the annotated copy of a review *)
Definition annotate (filter_config : ReviewFilter.t) (d : review) : review :=
  if list_truthy (ReviewFilter.keywords filter_config)
  then with_relevance (relevance_of filter_config d) (enhance (get_review_text d) d)
  else with_full_relevance (enhance (get_review_text d) d).

(** *** Sorting *)



(** *** The store *)

Definition holds_dict (h : gmap Store.loc Store.obj) (l : Store.loc) (d : review) : Prop :=
  h !! l = Some (Store.ODict d).

(** the store after the loop body has run on a review that holds [d], the
    list [filtered] holding [fs] before *)
Definition after_body (filter_config : ReviewFilter.t) (filtered : Store.loc)
           (fs : list Store.loc) (d : review) (h : gmap Store.loc Store.obj)
  : gmap Store.loc Store.obj :=
  if passes_rating filter_config d && passes_sentiment filter_config d then
    let e := fresh (dom h) in
    let h' := <[e := Store.ODict (annotate filter_config d)]> h in
    if passes_keywords filter_config d
    then <[filtered := Store.OList (fs ++ [e])]> h'
    else h'
  else h.

(** the invariant of the loop: the objects of the initial store [h0] are
    as they were, and [filtered], which is not one of them, lists
    dictionaries that hold [acc] *)
Record loop_inv (h0 : gmap Store.loc Store.obj) (filtered : Store.loc)
       (h : gmap Store.loc Store.obj) (fs : list Store.loc) (acc : list review)
  : Prop := {
  inv_frame : h0 ⊆ h;
  inv_fresh : h0 !! filtered = None;
  inv_list : h !! filtered = Some (Store.OList fs);
  inv_dicts : Forall2 (holds_dict h) fs acc
}.

(** *** Extraction *)

(** a review with some content: a text, or a rating that is not zero *)
Definition meaningful (r : review) : Prop :=
  get_review_text r <> "" \/ ~ (get_rating r == 0)%Q.

(** ** Sample data *)

Definition two_star : review :=
  mk_review (Some "Ann") (Some 2%Q) (Some "Not durable at all, broke in a week")
    (Some "2024-01-05") None None None None None None None.

Definition five_star : review :=
  mk_review (Some "Bob") (Some 5%Q) (Some "Arrived on time")
    (Some "2024-02-01") None None None None None None None.

Definition four_star : review :=
  mk_review (Some "Cy") (Some 4%Q) (Some "Great quality, great price")
    (Some "2024-03-01") None None None None None None None.

Definition by_keyword : ReviewFilter.t :=
  ReviewFilter.mk (Some ["great"]) None 0 5 None "relevance" 50.

Definition by_rating : ReviewFilter.t :=
  ReviewFilter.mk None None 0 5 None "rating" 2.

Definition unsorted : ReviewFilter.t :=
  ReviewFilter.mk None None 0 5 None "newest" 50.

Definition sample_store : gmap Store.loc Store.obj :=
  <[1%positive := Store.ODict two_star]>
    (<[2%positive := Store.ODict four_star]>
       (<[3%positive := Store.OList [1%positive; 2%positive; 1%positive]]> ∅)).

Definition dated_element : Dom.node :=
  Dom.Tag [".review-date"] [("datetime", "2024-03-03")] [Dom.Text " March 3, 2024 "].

Definition dated_container : Dom.node :=
  Dom.Tag [".review-item"] []
    [ Dom.Tag [".review-text"] [] [Dom.Text "Great value"];
      dated_element ].

Definition empty_container : Dom.node :=
  Dom.Tag [".review-item"] [] [Dom.Tag [".review-rating"] [] [Dom.Text "0.0 stars"]].

Definition sample_page : Dom.node :=
  Dom.Tag [] [] [dated_container; empty_container].

Definition gamestop : ScrapeConfig.t :=
  site "GameStop" "gamestop.com" ".review-item" ".review-author" ".review-rating"
    ".review-text" ".review-date".

Definition sample_fetch (url : string) : outcome Dom.node := Ok sample_page.

Definition sample_netloc (url : string) : option string := Some "www.gamestop.com".

(** ** Further functions of the analyzer, the scraper and the helpers *)

(** More string primitives. *)
Module PyStrMore.

(** [s.split(sep)] for a separator of one character; [cur] is the piece
    being read *)
Fixpoint split_on (sep : ascii) (cur : string) (s : string) : list string :=
  match s with
  | EmptyString => [cur]
  | String c s' =>
      if Ascii.eqb c sep then cur :: split_on sep EmptyString s'
      else split_on sep (cur +:+ String c EmptyString) s'
  end.

(** [sep.join(l)] *)
Fixpoint join_with (sep : string) (l : list string) : string :=
  match l with
  | [] => EmptyString
  | [x] => x
  | x :: l' => x +:+ sep +:+ join_with sep l'
  end.

(** [s.replace(c, '')] for a string [c] of one character *)
Fixpoint remove_char (c : ascii) (s : string) : string :=
  match s with
  | EmptyString => EmptyString
  | String x s' =>
      if Ascii.eqb x c then remove_char c s' else String x (remove_char c s')
  end.

(** [s[:n]] *)
Fixpoint take (n : nat) (s : string) : string :=
  match n, s with
  | S n', String c s' => String c (take n' s')
  | _, _ => EmptyString
  end.

(** [s * n] *)
Fixpoint repeat (s : string) (n : nat) : string :=
  match n with
  | O => EmptyString
  | S n' => s +:+ repeat s n'
  end.

End PyStrMore.

(** *** [get_supported_platforms] *)

Module PlatformInfo.
Record t : Type := mk {
  platform : string;
  name : string;
  domain : string
}.
End PlatformInfo.

Definition get_supported_platforms : list PlatformInfo.t :=
  map (fun '(key, config) =>
         PlatformInfo.mk key (ScrapeConfig.name config) (ScrapeConfig.domain config))
    configs.

(** *** [create_filter_from_params] *)

Section CreateFilter.

(** [float(s)] and [int(s)] on a string, [None] when they raise
    [ValueError] *)
Variable float_of_str : string -> option Q.
Variable int_of_str : string -> option Z.

(** the pieces of a comma-separated parameter, stripped; no piece when the
    parameter is absent or empty *)
Definition comma_list (param : option string) : list string :=
  if str_truthy param
  then map PyStr.strip (PyStrMore.split_on "," EmptyString (default "" param))
  else [].

(** The request arguments map a name to the string given for it. The result
    is [None] when [float] or [int] raises. *)
Definition create_filter_from_params (request_args : gmap string string)
  : option ReviewFilter.t :=
  let keywords := comma_list (request_args !! "keywords") in
  let categories := comma_list (request_args !! "categories") in
  min_rating ← match request_args !! "min_rating" with
               | Some s => float_of_str s
               | None => Some 0%Q
               end;
  max_rating ← match request_args !! "max_rating" with
               | Some s => float_of_str s
               | None => Some 5%Q
               end;
  limit ← match request_args !! "limit" with
          | Some s => int_of_str s
          | None => Some 50%Z
          end;
  Some (ReviewFilter.mk (Some keywords) (Some categories) min_rating max_rating
          (request_args !! "sentiment")
          (default "relevance" (request_args !! "sort_by"))
          limit).

End CreateFilter.

(** *** [sanitize_text] *)

Definition dangerous_chars : list ascii :=
  ["<"; ">"; ascii_of_nat 34; "'"; "&"]%char.

Definition sanitize_text (text : string) : string :=
  let text := PyStrMore.join_with " " (PyStr.split text) in
  let text := fold_left (fun t char => PyStrMore.remove_char char t) dangerous_chars text in
  let max_length := 5000%Z in
  let text :=
    if (max_length <? Z.of_nat (String.length text))%Z
    then PyStrMore.take (Z.to_nat max_length) text +:+ "..."
    else text in
  PyStr.strip text.

(** *** [clean_review_data] *)

(** a number that is an [int] or a [float] *)
Inductive pynum : Type :=
  | PInt (z : Z)
  | PFloat (q : Q).

Definition num_value (n : pynum) : Q :=
  match n with
  | PInt z => inject_Z z
  | PFloat q => q
  end.

(** [int(n)]: towards zero *)
Definition num_int (n : pynum) : Z :=
  match n with
  | PInt z => z
  | PFloat q => Z.quot (Qnum q) (Zpos (Qden q))
  end.

(** [max(0, min(5, x))]: [min] and [max] return their first argument unless
    the second is smaller, respectively greater *)
Definition clamp_rating (x : Q) : pynum :=
  let m := if Qltb x 5 then PFloat x else PInt 5 in
  if Qltb 0 (num_value m) then m else PInt 0.

Module Cleaned.
Record t : Type := mk {
  reviewer_name : string;
  rating : pynum;
  review_text : string;
  date : string;
  review_url : string;
  review_link : string;
  source : string;
  platform : string;
  star_display : string
}.
End Cleaned.

Section CleanReviewData.

(** the pictographs of the link and of the stars, which are not code points
    below 256 *)
Variable link_mark : string.
Variable star_full : string.
Variable star_empty : string.

(** [str(x)] for a float *)
Variable float_str : Q -> string.

Definition num_str (n : pynum) : string :=
  match n with
  | PInt z => pretty z
  | PFloat q => float_str q
  end.

(** [str(review.get('platform', review.get('source', 'unknown')))] *)
Definition platform_or_source (d : review) : string :=
  default (default "unknown" (source d)) (platform d).

Definition link_text_of (platform review_url : string) : string :=
  if PyStr.contains "yelp" platform then link_mark +:+ " View on Yelp: " +:+ review_url
  else if PyStr.contains "amazon" platform then link_mark +:+ " View on Amazon: " +:+ review_url
  else if PyStr.contains "walmart" platform then link_mark +:+ " View on Walmart: " +:+ review_url
  else if PyStr.contains "target" platform then link_mark +:+ " View on Target: " +:+ review_url
  else link_mark +:+ " View Review: " +:+ review_url.

(** One turn of the loop of [clean_review_data]. The review record has no
    key [helpful_votes], so the branch that copies it is not taken. *)
Definition clean_step (cleaned_reviews : list Cleaned.t) (d : review) : list Cleaned.t :=
  let review_url := default "" (review_url d) in
  let platform := PyStr.lower (platform_or_source d) in
  let link_text := link_text_of platform review_url in
  let rating := clamp_rating (get_rating d) in
  let review_text := sanitize_text (get_review_text d) in
  let star_count := num_int rating in
  let stars :=
    PyStrMore.repeat star_full (Z.to_nat star_count)
    +:+ PyStrMore.repeat star_empty (Z.to_nat (5 - star_count)) in
  let cleaned_review :=
    Cleaned.mk
      (sanitize_text (default "Anonymous" (reviewer_name d)))
      rating
      review_text
      (sanitize_text (default "" (date d)))
      review_url
      link_text
      (default "unknown" (source d))
      (platform_or_source d)
      (stars +:+ " (" +:+ num_str rating +:+ "/5)") in
  if PyStr.truthy review_text || Qltb 0 (num_value rating)
  then cleaned_reviews ++ [cleaned_review]
  else cleaned_reviews.

Definition clean_review_data (reviews : list review) : list Cleaned.t :=
  fold_left clean_step reviews [].

End CleanReviewData.

(** ** Specification-level definitions of the further functions *)

(** some keyword of the list occurs in the lowercased text *)
Definition mentions (text_lower : string) (keywords : list string) : bool :=
  existsb (fun keyword => PyStr.contains (PyStr.lower keyword) text_lower) keywords.

(** the query with another limit *)
Definition with_limit (limit : Z) (filter_config : ReviewFilter.t) : ReviewFilter.t :=
  ReviewFilter.mk (ReviewFilter.keywords filter_config)
    (ReviewFilter.categories filter_config)
    (ReviewFilter.min_rating filter_config) (ReviewFilter.max_rating filter_config)
    (ReviewFilter.sentiment filter_config) (ReviewFilter.sort_by filter_config) limit.

(** the seven keys written by the scraper *)
Definition scraped_keys (d : review)
  : option string * option Q * option string * option string
    * option string * option string * option string :=
  (reviewer_name d, rating d, review_text d, date d, review_url d, source d, platform d).

(** the number of elements equal to [x] *)
Definition occurrences (x : string) (l : list string) : nat :=
  length (filter (fun y => y = x) l).

(** the sum of the counts of a counter *)
Definition counts_total (c : list (string * nat)) : nat := sum_list (map snd c).

(** the count of [x] in a counter, 0 when it has no entry *)
Fixpoint counter_get (x : string) (c : list (string * nat)) : nat :=
  match c with
  | [] => 0
  | (k, n) :: c' => if String.eqb k x then n else counter_get x c'
  end.

(** the values that [get_review_insights] collects from the reviews *)
Definition all_categories_of (reviews : list review) : list string :=
  flat_map (fun d => some_list (categories d)) reviews.
Definition sentiment_of (d : review) : string := default "neutral" (sentiment d).

(** the locations of [fs] are distinct objects of [h] that are not objects
    of [h0] *)
Definition new_objects (h0 h : gmap Store.loc Store.obj) (fs : list Store.loc) : Prop :=
  NoDup fs /\ Forall (fun l => h0 !! l = None /\ is_Some (h !! l)) fs.

(** the domain of the configuration occurs in the host *)
Definition domain_in (host : string) (entry : string * ScrapeConfig.t) : bool :=
  PyStr.contains (ScrapeConfig.domain entry.2) host.



(** the characters of a string *)
Definition chars (s : string) : list ascii := list_ascii_of_string s.

(** the list without its leading whitespace *)
Fixpoint lstrip_chars (l : list ascii) : list ascii :=
  match l with
  | [] => []
  | c :: l' => if PyStr.is_space c then lstrip_chars l' else l
  end.

(** the list without its leading and trailing whitespace *)
Definition strip_chars (l : list ascii) : list ascii :=
  rev (lstrip_chars (rev (lstrip_chars l))).

(** the list is empty or starts with a character that is not whitespace *)
Definition clean_head (l : list ascii) : Prop :=
  match l with
  | [] => True
  | c :: _ => PyStr.is_space c = false
  end.

(** the number of occurrences of a character *)
Definition count_char (c : ascii) (s : string) : nat :=
  length (filter (fun x => x = c) (chars s)).

#[local] Instance Qle_decision (x y : Q) : Decision (x <= y)%Q :=
  match Qlt_le_dec y x with
  | left H => right (Qlt_not_le _ _ H)
  | right H => left H
  end.

(** the names of the parameters that [create_filter_from_params] reads *)
Definition filter_params : list string :=
  ["keywords"; "categories"; "min_rating"; "max_rating"; "sentiment"; "sort_by"; "limit"].

(** the review is kept by [clean_review_data] *)
Definition clean_kept (d : review) : bool :=
  PyStr.truthy (sanitize_text (get_review_text d))
  || Qltb 0 (num_value (clamp_rating (get_rating d))).

Section CleanOne.
Variable link_mark : string.
Variable star_full : string.
Variable star_empty : string.
Variable float_str : Q -> string.

(** the cleaned dictionary built from a review *)
Definition clean_one (d : review) : Cleaned.t :=
  let rating := clamp_rating (get_rating d) in
  Cleaned.mk
    (sanitize_text (default "Anonymous" (reviewer_name d)))
    rating
    (sanitize_text (get_review_text d))
    (sanitize_text (default "" (date d)))
    (default "" (review_url d))
    (link_text_of link_mark (PyStr.lower (platform_or_source d)) (default "" (review_url d)))
    (default "unknown" (source d))
    (platform_or_source d)
    ((PyStrMore.repeat star_full (Z.to_nat (num_int rating))
      +:+ PyStrMore.repeat star_empty (Z.to_nat (5 - num_int rating)))
     +:+ " (" +:+ num_str float_str rating +:+ "/5)").
End CleanOne.

(** ** Sample data of the request handlers *)

Definition by_mixed : ReviewFilter.t :=
  ReviewFilter.mk None None 0 5 (Some "mixed") "relevance" 50.

Definition sample_url : string := "https://www.gamestop.com/p".


Definition sample_float_of_str (s : string) : option Q :=
  if String.eqb s "3" then Some 3%Q
  else if String.eqb s "4.5" then Some (45 # 10)%Q
  else None.

Definition sample_int_of_str (s : string) : option Z :=
  if String.eqb s "2" then Some 2%Z
  else if String.eqb s "50" then Some 50%Z
  else None.

Definition keyword_args : gmap string string :=
  <["url" := sample_url]> (<["keywords" := "great, value"]> ∅).

Definition by_keyword_args : ReviewFilter.t :=
  ReviewFilter.mk (Some ["great"; "value"]) (Some []) 0 5 None "relevance" 50.

Definition limit_args : gmap string string := <["limit" := "many"]> ∅.

Definition url_args : gmap string string := <["url" := sample_url]> ∅.

(** * Properties *)

(** ** Sorting *)

Section SortedFacts.
Context {A K : Type} (key_lt : K -> K -> bool) (key : A -> K).

Hypothesis key_lt_asym : forall a b, key_lt a b = true -> key_lt b a = false.
Hypothesis key_lt_negtrans :
  forall a b c, key_lt a b = false -> key_lt b c = false -> key_lt a c = false.

Lemma insert_desc_perm (x : A) (l : list A) :
  insert_desc key_lt key x l ≡ₚ x :: l.
Proof.
  induction l as [|y l IH]; simpl; [done|].
  destruct (key_lt (key x) (key y)); [|done].
  rewrite IH. apply Permutation_swap.
Qed.

Lemma sorted_desc_perm (l : list A) : sorted_desc key_lt key l ≡ₚ l.
Proof.
  induction l as [|x l IH]; simpl; [done|].
  rewrite insert_desc_perm. by rewrite IH.
Qed.

Lemma insert_desc_sorted (x : A) (l : list A) :
  StronglySorted (key_ge key_lt key) l -> StronglySorted (key_ge key_lt key) (insert_desc key_lt key x l).
Proof.
  induction 1 as [|y l Hs IH Hy]; simpl.
  - repeat constructor.
  - destruct (key_lt (key x) (key y)) eqn:Hxy.
    + constructor; [done|].
      rewrite insert_desc_perm. constructor; [|done].
      by apply key_lt_asym.
    + constructor; [by constructor|].
      constructor; [done|].
      eapply Forall_impl; [exact Hy|].
      intros z Hz. by eapply key_lt_negtrans.
Qed.

Lemma sorted_desc_sorted (l : list A) :
  StronglySorted (key_ge key_lt key) (sorted_desc key_lt key l).
Proof.
  induction l as [|x l IH]; simpl; [constructor|].
  by apply insert_desc_sorted.
Qed.


End SortedFacts.

Lemma Qltb_lt (x y : Q) : Qltb x y = true <-> (x < y)%Q.
Proof. unfold Qltb, Qlt. apply Z.ltb_lt. Qed.

Lemma Qltb_ge (x y : Q) : Qltb x y = false <-> (y <= x)%Q.
Proof. unfold Qltb, Qle. apply Z.ltb_ge. Qed.

Lemma Qltb_asym (a b : Q) : Qltb a b = true -> Qltb b a = false.
Proof. rewrite Qltb_lt, Qltb_ge. apply Qlt_le_weak. Qed.

Lemma Qltb_negtrans (a b c : Q) :
  Qltb a b = false -> Qltb b c = false -> Qltb a c = false.
Proof. rewrite !Qltb_ge. intros H1 H2. by eapply Qle_trans. Qed.

Lemma nat_ltb_asym (a b : nat) : Nat.ltb a b = true -> Nat.ltb b a = false.
Proof. rewrite Nat.ltb_lt, Nat.ltb_ge. lia. Qed.

Lemma nat_ltb_negtrans (a b c : nat) :
  Nat.ltb a b = false -> Nat.ltb b c = false -> Nat.ltb a c = false.
Proof. rewrite !Nat.ltb_ge. lia. Qed.

Lemma string_compare_negtrans (a b c : string) :
  String.compare a b <> Lt -> String.compare b c <> Lt -> String.compare a c <> Lt.
Proof.
  revert b c. induction a as [|x a IH]; intros [|y b] [|z c]; simpl; try done.
  unfold Ascii.compare.
  destruct (N.compare_spec (N_of_ascii x) (N_of_ascii y)) as [Hxy|Hxy|Hxy];
    destruct (N.compare_spec (N_of_ascii y) (N_of_ascii z)) as [Hyz|Hyz|Hyz];
    destruct (N.compare_spec (N_of_ascii x) (N_of_ascii z)) as [Hxz|Hxz|Hxz];
    try done; try lia.
  apply IH.
Qed.

Lemma string_ltb_asym (a b : string) : String.ltb a b = true -> String.ltb b a = false.
Proof.
  unfold String.ltb. rewrite (String.compare_antisym b a).
  by destruct (String.compare a b).
Qed.

Lemma string_ltb_negtrans (a b c : string) :
  String.ltb a b = false -> String.ltb b c = false -> String.ltb a c = false.
Proof.
  unfold String.ltb. intros H1 H2.
  pose proof (string_compare_negtrans a b c) as H.
  destruct (String.compare a b), (String.compare b c), (String.compare a c);
    try done; exfalso; by apply H.
Qed.


(** ** Sentiment *)

Lemma size_inter_list_to_set (tokens lexicon : list string) :
  NoDup lexicon ->
  size ((list_to_set tokens : gset string) ∩ list_to_set lexicon)
  = length (filter (fun w => w ∈ tokens) lexicon).
Proof.
  intros Hnd.
  assert (Heq : (list_to_set tokens : gset string) ∩ list_to_set lexicon
                = list_to_set (filter (fun w => w ∈ tokens) lexicon)).
  { apply set_eq. intros w.
    rewrite elem_of_intersection, !elem_of_list_to_set, list_elem_of_filter.
    tauto. }
  rewrite Heq. apply size_list_to_set. by apply NoDup_filter.
Qed.

Lemma positive_list_NoDup : NoDup positive_list.
Proof. apply (bool_decide_unpack _). by vm_compute. Qed.

Lemma negative_list_NoDup : NoDup negative_list.
Proof. apply (bool_decide_unpack _). by vm_compute. Qed.

Lemma lower_truthy (s t : string) :
  PyStr.lower s = PyStr.lower t -> PyStr.truthy s = PyStr.truthy t.
Proof. destruct s, t; simpl; intros H; try reflexivity; discriminate. Qed.

Lemma analyze_sentiment_counts (text : string) :
  analyze_sentiment text =
    if (lexicon_hits negative_list text <? lexicon_hits positive_list text)%nat then "positive"
    else if (lexicon_hits positive_list text <? lexicon_hits negative_list text)%nat then "negative"
    else "neutral".
Proof.
  unfold analyze_sentiment, lexicon_hits, positive_words, negative_words.
  destruct text as [|c text]; [reflexivity|].
  cbn [PyStr.truthy negb].
  rewrite !size_inter_list_to_set by (apply positive_list_NoDup || apply negative_list_NoDup).
  reflexivity.
Qed.

(** C7. [analyze_sentiment] compares how many words of the positive lexicon
    and how many of the negative lexicon occur among the words of the
    lowercased text: it answers positive when the positive count is strictly
    larger, negative when the negative count is strictly larger and neutral
    on a tie, so also for the empty text; and two texts that differ only in
    the case of their letters get the same answer. *)
Theorem analyze_sentiment_spec (text : string) :
  let p := lexicon_hits positive_list text in
  let n := lexicon_hits negative_list text in
  (n < p -> analyze_sentiment text = "positive") /\
  (p < n -> analyze_sentiment text = "negative") /\
  (p = n -> analyze_sentiment text = "neutral") /\
  (text = "" -> analyze_sentiment text = "neutral") /\
  (forall text', PyStr.lower text' = PyStr.lower text ->
                 analyze_sentiment text' = analyze_sentiment text).
Proof.
  intros p n. subst p n. rewrite analyze_sentiment_counts.
  repeat split.
  - intros H. apply Nat.ltb_lt in H. by rewrite H.
  - intros H. assert (H' := H). apply Nat.ltb_lt in H'. rewrite H'.
    destruct (Nat.ltb_spec (lexicon_hits negative_list text) (lexicon_hits positive_list text)); [lia|done].
  - intros H. rewrite H, Nat.ltb_irrefl. done.
  - intros ->. reflexivity.
  - intros text' H. rewrite analyze_sentiment_counts. unfold lexicon_hits. by rewrite H.
Qed.

(** ** Relevance *)

Lemma fold_add_matches (text_lower : string) (keywords : list string) (acc : Z) :
  fold_left (add_matches text_lower) keywords acc
  = (acc + foldr Z.add 0 (map (fun keyword => keyword_score text_lower (PyStr.lower keyword)) keywords))%Z.
Proof.
  revert acc. induction keywords as [|kw kws IH]; intros acc; simpl.
  - lia.
  - rewrite IH. unfold add_matches, keyword_score. lia.
Qed.

Lemma keyword_score_nonneg (text_lower keyword_lower : string) :
  (0 <= keyword_score text_lower keyword_lower)%Z.
Proof. unfold keyword_score. lia. Qed.

Lemma total_matches_nonneg (text : string) (keywords : list string) :
  (0 <= total_matches text keywords)%Z.
Proof.
  unfold total_matches. induction keywords as [|kw kws IH]; simpl; [lia|].
  pose proof (keyword_score_nonneg (PyStr.lower text) (PyStr.lower kw)). lia.
Qed.

Lemma relevance_formula_range (text : string) (keywords : list string) :
  keywords <> [] -> (0 <= relevance_formula text keywords <= 1)%Q.
Proof.
  intros Hk. unfold relevance_formula. split; [|apply Q.le_min_r].
  apply Q.min_glb; [|discriminate].
  apply Qle_shift_div_l.
  - change 0%Q with (inject_Z 0). rewrite <- Zlt_Qlt.
    destruct keywords; [done|]. simpl length. lia.
  - rewrite Qmult_0_l. change 0%Q with (inject_Z 0). rewrite <- Zle_Qle.
    apply total_matches_nonneg.
Qed.

Lemma calculate_keyword_relevance_formula (text : string) (keywords : list string) :
  PyStr.split text <> [] -> keywords <> [] ->
  calculate_keyword_relevance text keywords = relevance_formula text keywords.
Proof.
  intros Ht Hk. unfold calculate_keyword_relevance, relevance_formula.
  destruct text as [|c text]; [done|].
  destruct keywords as [|kw kws]; [done|].
  cbn [PyStr.truthy negb list_truthy some_list default orb].
  destruct (PyStr.split (String c text)) as [|w ws] eqn:Hs; [done|].
  cbn [length Nat.eqb orb].
  replace (Z.of_nat (S (length kws)) * 2 =? 0)%Z with false by (symmetry; apply Z.eqb_neq; lia).
  rewrite fold_add_matches, Z.add_0_l.
  unfold total_matches. cbn [length].
  by rewrite (Z.mul_comm 2).
Qed.

Lemma calculate_keyword_relevance_zero (text : string) (keywords : list string) :
  text = "" \/ keywords = [] \/ PyStr.split text = [] ->
  calculate_keyword_relevance text keywords = 0%Q.
Proof.
  unfold calculate_keyword_relevance.
  intros [-> | [-> | Hs]]; [reflexivity | by destruct text |].
  rewrite Hs. cbn [length Nat.eqb orb].
  by destruct (negb (PyStr.truthy text) || negb (list_truthy (Some keywords))).
Qed.

(** C6, amended. For a text with at least one whitespace-separated token and
    a non-empty keyword list, the score is
    [min(totalMatches / (2 * len(keywords)), 1)], where [totalMatches] adds,
    for every keyword, twice the word-boundary matches and once the remaining
    occurrences, on the lowercased text and keyword. The score is 0 when the
    text is empty, when the keyword list is empty, and when the text has no
    token (only whitespace). The score always lies in [0,1]. *)
Theorem calculate_keyword_relevance_spec (text : string) (keywords : list string) :
  (PyStr.split text <> [] -> keywords <> [] ->
     calculate_keyword_relevance text keywords = relevance_formula text keywords) /\
  (text = "" \/ keywords = [] \/ PyStr.split text = [] ->
     calculate_keyword_relevance text keywords = 0%Q) /\
  (0 <= calculate_keyword_relevance text keywords <= 1)%Q.
Proof.
  split; [apply calculate_keyword_relevance_formula|].
  split; [apply calculate_keyword_relevance_zero|].
  destruct keywords as [|kw kws].
  - rewrite calculate_keyword_relevance_zero by auto. done.
  - destruct (PyStr.split text) as [|w ws] eqn:Hs.
    + rewrite calculate_keyword_relevance_zero by auto. done.
    + rewrite calculate_keyword_relevance_formula by (rewrite ?Hs; done).
      by apply relevance_formula_range.
Qed.

(** C6 fails as stated: the text [" "] and the keyword list [[""]] are both
    non-empty, the formula gives 1, and the code returns 0. *)
Lemma calculate_keyword_relevance_counterexample :
  " " <> "" /\ [""] <> ([] : list string) /\
  ~ (calculate_keyword_relevance " " [""] == relevance_formula " " [""])%Q.
Proof. split; [done|]. split; [done|]. vm_compute. discriminate. Qed.

(** ** The loop of [filter_reviews] as a filter and a map *)

Lemma Qltb_negb_le (x y : Q) : Qltb x y = negb (Qle_bool y x).
Proof. unfold Qltb, Qle_bool. apply Z.ltb_antisym. Qed.

Lemma filter_step_spec (filter_config : ReviewFilter.t) (acc : list review) (d : review) :
  filter_step filter_config acc d =
    if survives filter_config d then acc ++ [annotate filter_config d] else acc.
Proof.
  unfold filter_step, survives, passes_rating, passes_sentiment, passes_keywords,
    annotate, relevance_of.
  rewrite !Qltb_negb_le.
  destruct (Qle_bool (ReviewFilter.min_rating filter_config) (get_rating d)); [|done].
  destruct (Qle_bool (get_rating d) (ReviewFilter.max_rating filter_config)); [|done].
  cbn [negb orb andb].
  assert (Hs : str_truthy (ReviewFilter.sentiment filter_config)
               && negb (String.eqb (analyze_sentiment (get_review_text d))
                          (default "" (ReviewFilter.sentiment filter_config)))
             = negb match ReviewFilter.sentiment filter_config with
                    | Some wanted =>
                        if PyStr.truthy wanted
                        then String.eqb (analyze_sentiment (get_review_text d)) wanted
                        else true
                    | None => true
                    end).
  { destruct (ReviewFilter.sentiment filter_config) as [w|]; [|done].
    cbn [str_truthy default]. by destruct (PyStr.truthy w). }
  rewrite Hs. clear Hs.
  destruct (match ReviewFilter.sentiment filter_config with
            | Some _ => _ | None => _ end); [|done].
  cbn [negb andb].
  destruct (list_truthy (ReviewFilter.keywords filter_config)).
  - destruct (negb _);
      (destruct (list_truthy (ReviewFilter.categories filter_config)); [|done]);
      by destruct (no_common_category _ _).
  - destruct (list_truthy (ReviewFilter.categories filter_config)); [|done].
    by destruct (no_common_category _ _).
Qed.

Lemma filter_loop_from (filter_config : ReviewFilter.t) (reviews acc : list review) :
  fold_left (filter_step filter_config) reviews acc
  = acc ++ map (annotate filter_config)
             (filter (fun d => survives filter_config d = true) reviews).
Proof.
  revert acc. induction reviews as [|d reviews IH]; intros acc; simpl.
  - by rewrite app_nil_r.
  - rewrite IH, filter_step_spec, filter_cons.
    destruct (survives filter_config d).
    + rewrite decide_True by done. simpl. by rewrite <- app_assoc.
    + by rewrite decide_False by done.
Qed.

Lemma filter_loop_spec (reviews : list review) (filter_config : ReviewFilter.t) :
  filter_loop reviews filter_config
  = map (annotate filter_config)
      (filter (fun d => survives filter_config d = true) reviews).
Proof. unfold filter_loop. by rewrite filter_loop_from. Qed.

Lemma get_rating_annotate (filter_config : ReviewFilter.t) (d : review) :
  get_rating (annotate filter_config d) = get_rating d.
Proof. unfold annotate. by destruct (list_truthy _). Qed.

Lemma get_review_text_annotate (filter_config : ReviewFilter.t) (d : review) :
  get_review_text (annotate filter_config d) = get_review_text d.
Proof. unfold annotate. by destruct (list_truthy _). Qed.

Lemma categories_annotate (filter_config : ReviewFilter.t) (d : review) :
  categories (annotate filter_config d) = Some (categorize_review (get_review_text d)).
Proof. unfold annotate. by destruct (list_truthy _). Qed.

Lemma slice_to_take {A : Type} (l : list A) (n : Z) : exists m, slice_to l n = take m l.
Proof. unfold slice_to. destruct (0 <=? n)%Z; eauto. Qed.

Lemma slice_to_length {A : Type} (l : list A) (n : Z) :
  (0 <= n)%Z -> (Z.of_nat (length (slice_to l n)) <= n)%Z.
Proof.
  intros Hn. unfold slice_to. rewrite (proj2 (Z.leb_le 0 n) Hn), length_take. lia.
Qed.

Lemma _sort_reviews_perm (reviews : list review) (sort_by : string) :
  _sort_reviews reviews sort_by ≡ₚ reviews.
Proof.
  unfold _sort_reviews.
  repeat (destruct (String.eqb sort_by _); [apply sorted_desc_perm|]). done.
Qed.

Lemma filter_reviews_unfold (reviews : list review) (filter_config : ReviewFilter.t) :
  filter_reviews reviews filter_config
  = slice_to (_sort_reviews (filter_loop reviews filter_config)
                (ReviewFilter.sort_by filter_config))
      (ReviewFilter.limit filter_config).
Proof.
  destruct reviews as [|d reviews]; [|done].
  assert (Hnil : _sort_reviews (filter_loop [] filter_config)
                   (ReviewFilter.sort_by filter_config) = []).
  { unfold _sort_reviews, filter_loop. simpl. by repeat case_match. }
  rewrite Hnil. destruct (slice_to_take (@nil review) (ReviewFilter.limit filter_config)) as [m ->].
  by rewrite take_nil.
Qed.

Lemma filter_reviews_elem (reviews : list review) (filter_config : ReviewFilter.t) (e : review) :
  e ∈ filter_reviews reviews filter_config ->
  exists d, d ∈ reviews /\ survives filter_config d = true /\ e = annotate filter_config d.
Proof.
  rewrite filter_reviews_unfold.
  destruct (slice_to_take (_sort_reviews (filter_loop reviews filter_config)
              (ReviewFilter.sort_by filter_config)) (ReviewFilter.limit filter_config)) as [m ->].
  intros He. apply subseteq_take in He.
  rewrite _sort_reviews_perm, filter_loop_spec in He.
  apply list_elem_of_fmap in He as (d & -> & Hd).
  apply list_elem_of_filter in Hd as [Hs Hd]. eauto.
Qed.

(** ** The order of the output *)

Lemma StronglySorted_mono {A : Type} (R S : A -> A -> Prop) (l : list A) :
  (forall x y, R x y -> S x y) -> StronglySorted R l -> StronglySorted S l.
Proof.
  intros HRS. induction 1 as [|x l Hl IH Hx]; constructor; [done|].
  eapply Forall_impl; [exact Hx|]. auto.
Qed.

Lemma StronglySorted_take {A : Type} (R : A -> A -> Prop) (n : nat) (l : list A) :
  StronglySorted R l -> StronglySorted R (take n l).
Proof.
  intros H. rewrite <- (take_drop n l) in H.
  by apply StronglySorted_app_1_l in H.
Qed.




Section Sorting.
Context {K : Type} (key_lt key_le : K -> K -> bool) (key : review -> K).
Hypothesis key_lt_asym : forall a b, key_lt a b = true -> key_lt b a = false.
Hypothesis key_lt_negtrans :
  forall a b c, key_lt a b = false -> key_lt b c = false -> key_lt a c = false.
Hypothesis key_lt_le : forall a b, key_lt a b = false <-> key_le b a = true.


End Sorting.


(** ** The filters *)

Lemma passes_keywords_threshold (filter_config : ReviewFilter.t) (d : review) :
  list_truthy (ReviewFilter.keywords filter_config) = true ->
  passes_keywords filter_config d = true <-> (1 # 10 < relevance_of filter_config d)%Q.
Proof. intros Hk. unfold passes_keywords. rewrite Hk. apply Qltb_lt. Qed.

(** C4. With a non-empty keyword list, the list built by the loop of
    [filter_reviews] (the result before sorting) holds, in input order, the
    annotated copies of exactly the reviews that pass the rating and
    sentiment filters and whose relevance is strictly greater than 1/10.
    With no keywords it holds the annotated copies of all the reviews that
    pass the rating and sentiment filters, each with relevance exactly 1. *)
Theorem filter_loop_keyword_threshold (reviews : list review) (filter_config : ReviewFilter.t) :
  (list_truthy (ReviewFilter.keywords filter_config) = true ->
   filter_loop reviews filter_config
   = map (fun d => with_relevance (relevance_of filter_config d)
                     (enhance (get_review_text d) d))
       (filter (fun d => passes_rating filter_config d = true
                         /\ passes_sentiment filter_config d = true
                         /\ (1 # 10 < relevance_of filter_config d)%Q) reviews))
  /\
  (list_truthy (ReviewFilter.keywords filter_config) = false ->
   filter_loop reviews filter_config
   = map (fun d => with_full_relevance (enhance (get_review_text d) d))
       (filter (fun d => passes_rating filter_config d = true
                         /\ passes_sentiment filter_config d = true) reviews)
   /\ Forall (fun e => keyword_relevance e = Some 1%Q)
        (filter_loop reviews filter_config)).
Proof.
  rewrite filter_loop_spec. split; intros Hk.
  - unfold annotate. rewrite Hk. f_equal. apply list_filter_iff. intros d.
    unfold survives. rewrite !andb_true_iff, passes_keywords_threshold by done. tauto.
  - assert (Heq : filter (fun d => survives filter_config d = true) reviews
                  = filter (fun d => passes_rating filter_config d = true
                                     /\ passes_sentiment filter_config d = true) reviews).
    { apply list_filter_iff. intros d. unfold survives, passes_keywords.
      rewrite Hk, andb_true_r, andb_true_iff. tauto. }
    unfold annotate. rewrite Hk, Heq. split; [done|].
    apply Forall_forall. intros e He. apply list_elem_of_In, in_map_iff in He as (d & <- & _). done.
Qed.



(** C1, at a failing input. The query asks for the category [quality]; the
    only review is about delivery, so its categories and those of the query
    have nothing in common, and yet [filter_reviews] returns it. *)
Theorem filter_reviews_category_leak :
  let filter_config := ReviewFilter.mk None (Some ["quality"]) 0 5 None "relevance" 50 in
  exists e, filter_reviews [five_star] filter_config = [e]
            /\ categories e = Some ["delivery"]
            /\ no_common_category ["delivery"] ["quality"] = true.
Proof. eexists. split; [vm_compute; reflexivity|]. split; [reflexivity|]. by vm_compute. Qed.

(** The categories of the query have no effect on the result. *)
Lemma filter_reviews_ignores_categories (reviews : list review)
      (filter_config : ReviewFilter.t) (cats : option (list string)) :
  filter_reviews reviews filter_config
  = filter_reviews reviews
      (ReviewFilter.mk (ReviewFilter.keywords filter_config) cats
         (ReviewFilter.min_rating filter_config) (ReviewFilter.max_rating filter_config)
         (ReviewFilter.sentiment filter_config) (ReviewFilter.sort_by filter_config)
         (ReviewFilter.limit filter_config)).
Proof. by rewrite !filter_reviews_unfold, !filter_loop_spec. Qed.

(** ** The store: the loop body in closed form *)

Lemma bind_run {A B : Type} (m : Store.M A) (f : A -> Store.M B) (h : gmap Store.loc Store.obj) :
  (m ≫= f) h = match m h with Some (a, h') => f a h' | None => None end.
Proof. reflexivity. Qed.

Lemma read_dict_run (h : gmap Store.loc Store.obj) (l : Store.loc) (d : review) :
  holds_dict h l d -> Store.read_dict l h = Some (d, h).
Proof. unfold holds_dict, Store.read_dict. by intros ->. Qed.

Lemma read_list_run (h : gmap Store.loc Store.obj) (l : Store.loc) (items : list Store.loc) :
  h !! l = Some (Store.OList items) -> Store.read_list l h = Some (items, h).
Proof. unfold Store.read_list. by intros ->. Qed.

Lemma setitem_run (h : gmap Store.loc Store.obj) (l : Store.loc) (d : review) (assign : review -> review) :
  holds_dict h l d -> Store.setitem l assign h = Some (tt, <[l := Store.ODict (assign d)]> h).
Proof. unfold holds_dict, Store.setitem. by intros ->. Qed.

Lemma append_run (h : gmap Store.loc Store.obj) (l x : Store.loc) (items : list Store.loc) :
  h !! l = Some (Store.OList items) -> Store.append l x h = Some (tt, <[l := Store.OList (items ++ [x])]> h).
Proof. unfold Store.append. by intros ->. Qed.

Lemma fresh_lookup (h : gmap Store.loc Store.obj) : h !! fresh (dom h) = None.
Proof. apply not_elem_of_dom, is_fresh. Qed.

Lemma copy_run (h : gmap Store.loc Store.obj) (l : Store.loc) (d : review) :
  holds_dict h l d -> Store.copy l h = Some (fresh (dom h), <[fresh (dom h) := Store.ODict d]> h).
Proof. intros H. unfold Store.copy. rewrite bind_run, (read_dict_run _ _ _ H). done. Qed.

Lemma setitem_fresh_run (h : gmap Store.loc Store.obj) (e : Store.loc) (d : review) (assign : review -> review) :
  Store.setitem e assign (<[e := Store.ODict d]> h) = Some (tt, <[e := Store.ODict (assign d)]> h).
Proof.
  rewrite (setitem_run _ e d); [|apply lookup_insert_eq].
  by rewrite insert_insert_eq.
Qed.

Lemma filter_body_run (filter_config : ReviewFilter.t) (filtered r : Store.loc)
      (fs : list Store.loc) (d : review) (h : gmap Store.loc Store.obj) :
  holds_dict h r d ->
  h !! filtered = Some (Store.OList fs) ->
  Store.filter_body filter_config filtered r h
  = Some (tt, after_body filter_config filtered fs d h).
Proof.
  intros Hd Hf. unfold Store.filter_body, after_body.
  rewrite bind_run, (read_dict_run _ _ _ Hd).
  unfold passes_rating, passes_sentiment, passes_keywords, annotate, relevance_of.
  rewrite !Qltb_negb_le.
  destruct (Qle_bool (ReviewFilter.min_rating filter_config) (get_rating d)); [|done].
  destruct (Qle_bool (get_rating d) (ReviewFilter.max_rating filter_config)); [|done].
  cbn [negb orb andb].
  assert (Hs : str_truthy (ReviewFilter.sentiment filter_config)
               && negb (String.eqb (analyze_sentiment (get_review_text d))
                          (default "" (ReviewFilter.sentiment filter_config)))
             = negb match ReviewFilter.sentiment filter_config with
                    | Some wanted =>
                        if PyStr.truthy wanted
                        then String.eqb (analyze_sentiment (get_review_text d)) wanted
                        else true
                    | None => true
                    end).
  { destruct (ReviewFilter.sentiment filter_config) as [w|]; [|done].
    cbn [str_truthy default]. by destruct (PyStr.truthy w). }
  rewrite Hs. clear Hs.
  destruct (match ReviewFilter.sentiment filter_config with
            | Some _ => _ | None => _ end); [|done].
  cbn [negb andb].
  set (e := fresh (dom h)).
  assert (Hfe : forall d', (<[e := Store.ODict d']> h) !! filtered = Some (Store.OList fs)).
  { intros d'. rewrite lookup_insert_ne; [done|].
    intros <-. subst e. by rewrite fresh_lookup in Hf. }
  rewrite bind_run, (copy_run _ _ _ Hd). fold e.
  rewrite bind_run, setitem_fresh_run, bind_run, setitem_fresh_run.
  rewrite bind_run.
  destruct (list_truthy (ReviewFilter.keywords filter_config)).
  - rewrite bind_run, setitem_fresh_run, bind_run, setitem_fresh_run.
    fold (relevance_of filter_config d).
    destruct (negb (Qle_bool _ (1 # 10))).
    + rewrite (append_run _ _ _ _ (Hfe _)).
      destruct (list_truthy (ReviewFilter.categories filter_config)); [|done].
      rewrite bind_run, (read_dict_run _ e (with_relevance (relevance_of filter_config d) (enhance (get_review_text d) d))).
      * by destruct (no_common_category _ _).
      * unfold holds_dict. rewrite lookup_insert_ne, lookup_insert_eq; [done|].
        intros <-. specialize (Hfe d). by rewrite lookup_insert_eq in Hfe.
    + cbn.
      destruct (list_truthy (ReviewFilter.categories filter_config)); [|done].
      rewrite bind_run, (read_dict_run _ e (with_relevance (relevance_of filter_config d) (enhance (get_review_text d) d))).
      * by destruct (no_common_category _ _).
      * unfold holds_dict. by rewrite lookup_insert_eq.
  - rewrite bind_run, setitem_fresh_run, bind_run, setitem_fresh_run.
    rewrite (append_run _ _ _ _ (Hfe _)).
    destruct (list_truthy (ReviewFilter.categories filter_config)); [|done].
    rewrite bind_run, (read_dict_run _ e (with_full_relevance (enhance (get_review_text d) d))).
    * by destruct (no_common_category _ _).
    * unfold holds_dict. rewrite lookup_insert_ne, lookup_insert_eq; [done|].
      intros <-. specialize (Hfe d). by rewrite lookup_insert_eq in Hfe.
Qed.

(** ** The store: the invariant of the loop *)

Lemma holds_dict_insert_ne (h : gmap Store.loc Store.obj) (l e : Store.loc) (o : Store.obj) (d : review) :
  h !! e = None -> holds_dict h l d -> holds_dict (<[e := o]> h) l d.
Proof.
  unfold holds_dict. intros He Hl. rewrite lookup_insert_ne; [done|].
  intros ->. by rewrite He in Hl.
Qed.

Lemma holds_dict_insert_list (h : gmap Store.loc Store.obj) (l f : Store.loc) (xs ys : list Store.loc) (d : review) :
  h !! f = Some (Store.OList xs) -> holds_dict h l d -> holds_dict (<[f := Store.OList ys]> h) l d.
Proof.
  unfold holds_dict. intros Hf Hl. rewrite lookup_insert_ne; [done|].
  intros ->. rewrite Hf in Hl. done.
Qed.

Lemma after_body_inv (filter_config : ReviewFilter.t) (h0 h : gmap Store.loc Store.obj)
      (filtered : Store.loc) (fs : list Store.loc) (acc : list review) (d : review) :
  loop_inv h0 filtered h fs acc ->
  exists fs', loop_inv h0 filtered (after_body filter_config filtered fs d h) fs'
                (filter_step filter_config acc d).
Proof.
  intros [Hsub Hfr Hl Hd]. rewrite filter_step_spec. unfold after_body, survives.
  destruct (passes_rating filter_config d && passes_sentiment filter_config d);
    [|exists fs; by constructor].
  cbn [andb].
  set (e := fresh (dom h)).
  assert (He : h !! e = None) by apply fresh_lookup.
  assert (He0 : h0 !! e = None) by (by eapply lookup_weaken_None).
  assert (Hef : e <> filtered) by (intros ->; by rewrite He in Hl).
  destruct (passes_keywords filter_config d).
  - exists (fs ++ [e]). constructor.
    + apply insert_subseteq_r; [done|]. by apply insert_subseteq_r.
    + done.
    + apply lookup_insert_eq.
    + apply Forall2_app.
      * eapply Forall2_impl; [exact Hd|]. intros l d' Hld.
        eapply holds_dict_insert_list; [by rewrite lookup_insert_ne|].
        by apply holds_dict_insert_ne.
      * constructor; [|constructor]. unfold holds_dict.
        rewrite lookup_insert_ne by done. apply lookup_insert_eq.
  - exists fs. constructor.
    + by apply insert_subseteq_r.
    + done.
    + by rewrite lookup_insert_ne.
    + eapply Forall2_impl; [exact Hd|]. intros l d' Hld.
      by apply holds_dict_insert_ne.
Qed.

Lemma for_each_filter_body (filter_config : ReviewFilter.t) (h0 : gmap Store.loc Store.obj)
      (filtered : Store.loc) (items : list Store.loc) (ds : list review) :
  Forall2 (holds_dict h0) items ds ->
  forall h fs acc,
    loop_inv h0 filtered h fs acc ->
    exists h' fs',
      Store.for_each (Store.filter_body filter_config filtered) items h = Some (tt, h')
      /\ loop_inv h0 filtered h' fs' (fold_left (filter_step filter_config) ds acc).
Proof.
  induction 1 as [|r d items ds Hr Hitems IH]; intros h fs acc Hinv.
  - exists h, fs. split; [done|]. exact Hinv.
  - cbn [Store.for_each fold_left].
    assert (Hrd : holds_dict h r d).
    { unfold holds_dict. eapply lookup_weaken; [exact Hr|]. apply Hinv. }
    destruct (after_body_inv filter_config h0 h filtered fs acc d Hinv) as [fs1 Hinv1].
    destruct (IH _ _ _ Hinv1) as (h' & fs' & Hrun & Hinv').
    exists h', fs'. split; [|done].
    change (Store.for_each _ _ h) with
      ((Store.filter_body filter_config filtered r ≫= fun _ => Store.for_each (Store.filter_body filter_config filtered) items) h).
    rewrite bind_run, (filter_body_run _ _ _ fs d); [done|done|apply Hinv].
Qed.

(** ** The store: sorting and slicing *)

Lemma read_dicts_run (h : gmap Store.loc Store.obj) (items : list Store.loc) (ds : list review) :
  Forall2 (holds_dict h) items ds -> Store.read_dicts items h = Some (ds, h).
Proof.
  induction 1 as [|r d items ds Hr _ IH]; [done|].
  cbn [Store.read_dicts]. rewrite bind_run, (read_dict_run _ _ _ Hr), bind_run, IH. done.
Qed.

Lemma insert_desc_map {A B K : Type} (key_lt : K -> K -> bool) (key : B -> K)
      (f : A -> B) (x : A) (l : list A) :
  map f (insert_desc key_lt (fun a => key (f a)) x l)
  = insert_desc key_lt key (f x) (map f l).
Proof.
  induction l as [|y l IH]; [done|]. simpl.
  destruct (key_lt (key (f x)) (key (f y))); simpl; by rewrite ?IH.
Qed.

Lemma sorted_desc_map {A B K : Type} (key_lt : K -> K -> bool) (key : B -> K)
      (f : A -> B) (l : list A) :
  map f (sorted_desc key_lt (fun a => key (f a)) l)
  = sorted_desc key_lt key (map f l).
Proof.
  induction l as [|x l IH]; [done|]. simpl.
  by rewrite insert_desc_map, IH.
Qed.

Lemma holds_pairs (h : gmap Store.loc Store.obj) (ps : list (Store.loc * review)) :
  Forall (fun p => holds_dict h p.1 p.2) ps ->
  Forall2 (holds_dict h) (map fst ps) (map snd ps).
Proof. induction 1; constructor; done. Qed.

Lemma zip_holds (h : gmap Store.loc Store.obj) (items : list Store.loc) (ds : list review) :
  Forall2 (holds_dict h) items ds ->
  Forall (fun p => holds_dict h p.1 p.2) (zip items ds) /\ map snd (zip items ds) = ds.
Proof.
  induction 1 as [|r d items ds Hr _ [IH1 IH2]]; [done|].
  simpl. split; [by constructor|by rewrite IH2].
Qed.

Lemma sorted_by_run {K : Type} (key_lt : K -> K -> bool) (key : review -> K)
      (h : gmap Store.loc Store.obj) (l : Store.loc) (items : list Store.loc) (ds : list review) :
  h !! l = Some (Store.OList items) ->
  Forall2 (holds_dict h) items ds ->
  exists sorted_items,
    Store.sorted_by key_lt key l h
    = Some (fresh (dom h), <[fresh (dom h) := Store.OList sorted_items]> h)
    /\ Forall2 (holds_dict h) sorted_items (sorted_desc key_lt key ds).
Proof.
  intros Hl Hd. unfold Store.sorted_by.
  rewrite bind_run, (read_list_run _ _ _ Hl), bind_run, (read_dicts_run _ _ _ Hd).
  eexists. split; [reflexivity|].
  destruct (zip_holds _ _ _ Hd) as [Hz Hs].
  rewrite <- Hs at 2.
  rewrite <- (sorted_desc_map key_lt key snd).
  apply holds_pairs.
  eapply Forall_forall. intros p Hp.
  rewrite sorted_desc_perm in Hp.
  by eapply Forall_forall in Hz.
Qed.

Lemma slice_to_Forall2 {A B : Type} (R : A -> B -> Prop) (l : list A) (k : list B) (n : Z) :
  Forall2 R l k -> Forall2 R (slice_to l n) (slice_to k n).
Proof.
  intros H. unfold slice_to. rewrite (Forall2_length _ _ _ H).
  destruct (0 <=? n)%Z; by apply Forall2_take.
Qed.

Lemma _sort_reviews_run (h : gmap Store.loc Store.obj) (l : Store.loc) (items : list Store.loc)
      (ds : list review) (sort_by : string) :
  h !! l = Some (Store.OList items) ->
  Forall2 (holds_dict h) items ds ->
  exists l' h' sorted_items,
    Store._sort_reviews l sort_by h = Some (l', h')
    /\ h ⊆ h'
    /\ h' !! l' = Some (Store.OList sorted_items)
    /\ Forall2 (holds_dict h') sorted_items (_sort_reviews ds sort_by).
Proof.
  intros Hl Hd. unfold Store._sort_reviews, _sort_reviews.
  assert (Hgen : forall (K : Type) (key_lt : K -> K -> bool) (key : review -> K),
    exists l' h' sorted_items,
      Store.sorted_by key_lt key l h = Some (l', h')
      /\ h ⊆ h'
      /\ h' !! l' = Some (Store.OList sorted_items)
      /\ Forall2 (holds_dict h') sorted_items (sorted_desc key_lt key ds)).
  { intros K key_lt key.
    destruct (sorted_by_run key_lt key h l items ds Hl Hd) as (si & Hrun & Hsi).
    eexists _, _, si. split; [exact Hrun|].
    split; [apply insert_subseteq, fresh_lookup|].
    split; [apply lookup_insert_eq|].
    eapply Forall2_impl; [exact Hsi|].
    intros x d Hx. apply holds_dict_insert_ne; [apply fresh_lookup|done]. }
  repeat (case_match; [apply Hgen|]).
  exists l, h, items. done.
Qed.

(** C10. [filter_reviews], run on a store in which [reviews] is a list of
    dictionaries, returns a list object and leaves every object of the
    initial store as it was: the input list still holds the same items and
    every input review still holds the same dictionary. The result lists
    dictionaries that hold the annotated reviews computed by the functional
    [filter_reviews]. *)
Theorem filter_reviews_leaves_input (h : gmap Store.loc Store.obj) (reviews : Store.loc)
        (items : list Store.loc) (ds : list review) (filter_config : ReviewFilter.t) :
  h !! reviews = Some (Store.OList items) ->
  Forall2 (holds_dict h) items ds ->
  exists out h' out_items,
    Store.filter_reviews reviews filter_config h = Some (out, h')
    /\ (forall l o, h !! l = Some o -> h' !! l = Some o)
    /\ h' !! reviews = Some (Store.OList items)
    /\ Forall2 (holds_dict h') items ds
    /\ h' !! out = Some (Store.OList out_items)
    /\ Forall2 (holds_dict h') out_items (filter_reviews ds filter_config).
Proof.
  intros Hl Hd. unfold Store.filter_reviews.
  rewrite bind_run, (read_list_run _ _ _ Hl).
  assert (Hkeep : forall h', h ⊆ h' ->
            (forall l o, h !! l = Some o -> h' !! l = Some o)
            /\ h' !! reviews = Some (Store.OList items)
            /\ Forall2 (holds_dict h') items ds).
  { intros h' Hsub. split; [intros l o Hlo; by eapply lookup_weaken|].
    split; [by eapply lookup_weaken|].
    eapply Forall2_impl; [exact Hd|]. intros l d Hld. by eapply lookup_weaken. }
  destruct items as [|r items].
  { apply Forall2_nil_inv_l in Hd as ->.
    eexists _, _, []. split; [reflexivity|].
    destruct (Hkeep (<[fresh (dom h) := Store.OList []]> h)) as (H1 & H2 & H3);
      [apply insert_subseteq, fresh_lookup|].
    repeat split; try done. apply lookup_insert_eq. }
  set (f := fresh (dom h)).
  assert (Hf : h !! f = None) by apply fresh_lookup.
  change (Store.alloc (Store.OList []) ≫= _) with
    (Store.alloc (Store.OList []) ≫= fun filtered_reviews =>
       Store.for_each (Store.filter_body filter_config filtered_reviews) (r :: items) ≫= fun _ =>
       Store._sort_reviews filtered_reviews (ReviewFilter.sort_by filter_config) ≫= fun filtered_reviews =>
       Store.read_list filtered_reviews ≫= fun sorted_items =>
       Store.alloc (Store.OList (slice_to sorted_items (ReviewFilter.limit filter_config)))).
  rewrite bind_run. unfold Store.alloc at 1. fold f.
  assert (Hinv0 : loop_inv h f (<[f := Store.OList []]> h) [] []).
  { constructor; [by apply insert_subseteq|done|apply lookup_insert_eq|constructor]. }
  destruct (for_each_filter_body filter_config h f (r :: items) ds Hd _ _ _ Hinv0)
    as (h1 & fs & Hrun & [Hsub1 _ Hl1 Hd1]).
  rewrite bind_run, Hrun.
  destruct (_sort_reviews_run h1 f fs _ (ReviewFilter.sort_by filter_config) Hl1 Hd1)
    as (l2 & h2 & si & Hrun2 & Hsub2 & Hl2 & Hd2).
  rewrite bind_run, Hrun2, bind_run, (read_list_run _ _ _ Hl2).
  unfold Store.alloc.
  set (out := fresh (dom h2)).
  assert (Hout : h2 !! out = None) by apply fresh_lookup.
  eexists out, _, _. split; [reflexivity|].
  destruct (Hkeep (<[out := Store.OList (slice_to si (ReviewFilter.limit filter_config))]> h2))
    as (H1 & H2 & H3).
  { etrans; [exact Hsub1|]. etrans; [exact Hsub2|]. by apply insert_subseteq. }
  repeat split; try done; [apply lookup_insert_eq|].
  assert (Hfr : filter_reviews ds filter_config
                = slice_to (_sort_reviews (fold_left (filter_step filter_config) ds [])
                              (ReviewFilter.sort_by filter_config))
                    (ReviewFilter.limit filter_config)).
  { apply filter_reviews_unfold. }
  rewrite Hfr. apply slice_to_Forall2.
  eapply Forall2_impl; [exact Hd2|].
  intros x d Hx. by apply holds_dict_insert_ne.
Qed.

(** ** Extraction and insights *)

Lemma truthy_false (s : string) : PyStr.truthy s = false <-> s = "".
Proof. by destruct s. Qed.

Lemma scrape_step_cases (config : ScrapeConfig.t) (url platform : string)
      (reviews : list review) (container : Dom.node) :
  (extract_review_text config container = ""
   /\ (extract_rating config container == 0)%Q
   /\ scrape_step config url platform reviews container = reviews)
  \/ exists r,
       scrape_step config url platform reviews container = reviews ++ [r]
       /\ meaningful r
       /\ review_text r = Some (extract_review_text config container)
       /\ rating r = Some (extract_rating config container)
       /\ date r = Some (extract_date config container).
Proof.
  unfold scrape_step.
  destruct (PyStr.truthy (extract_review_text config container)) eqn:Ht;
    [|destruct (Qeq_bool (extract_rating config container) 0) eqn:Hr]; cbn [negb andb].
  - right. eexists. split; [reflexivity|]. split; [|done].
    left. cbn. intros H. apply truthy_false in H. congruence.
  - left. split; [by apply truthy_false|]. split; [by apply Qeq_bool_iff|done].
  - right. eexists. split; [reflexivity|]. split; [|done].
    right. cbn. intros H. apply Qeq_bool_iff in H. congruence.
Qed.

Lemma scrape_loop_bounded (config : ScrapeConfig.t) (url platform : string)
      (containers : list Dom.node) (reviews : list review) :
  Forall meaningful reviews ->
  length (fold_left (scrape_step config url platform) containers reviews)
  <= length reviews + length containers
  /\ Forall meaningful (fold_left (scrape_step config url platform) containers reviews).
Proof.
  revert reviews. induction containers as [|c containers IH]; intros reviews Hm; simpl.
  - split; [lia|done].
  - destruct (scrape_step_cases config url platform reviews c)
      as [(_ & _ & ->) | (r & -> & Hr & _)].
    + destruct (IH reviews Hm). split; [lia|done].
    + destruct (IH (reviews ++ [r])) as [Hlen HF].
      { apply Forall_app. split; [done|by constructor]. }
      rewrite length_app in Hlen. simpl in Hlen. split; [lia|done].
Qed.

Lemma configs_get_In (platform : string) (config : ScrapeConfig.t)
      (table : list (string * ScrapeConfig.t)) :
  configs_get platform table = Some config -> (platform, config) ∈ table.
Proof.
  induction table as [|[k c] table IH]; [done|]. simpl.
  destruct (String.eqb_spec k platform) as [->|_].
  - intros [= ->]. left.
  - intros H. right. by apply IH.
Qed.

Lemma configs_defaults :
  Forall (fun pc => pc.1 <> "" /\ ScrapeConfig.max_reviews pc.2 = 10%Z) configs.
Proof. unfold configs, _load_site_configs. repeat constructor; discriminate. Qed.

Lemma configs_get_defaults (platform : string) (config : ScrapeConfig.t) :
  configs_get platform configs = Some config ->
  platform <> "" /\ ScrapeConfig.max_reviews config = 10%Z.
Proof.
  intros H. apply configs_get_In in H.
  by eapply Forall_forall in H; [|apply configs_defaults].
Qed.

Section ScraperFacts.
Variable urlparse_netloc : string -> option string.
Variable fetch : string -> outcome Dom.node.

Lemma scrape_reviews_Ok (url : string) (platform : option string) (reviews : list review) :
  scrape_reviews urlparse_netloc fetch url platform = Ok reviews ->
  exists p config soup,
    configs_get p configs = Some config
    /\ fetch url = Ok soup
    /\ reviews = fold_left (scrape_step config url p)
                   (slice_to (Dom.select soup (ScrapeConfig.review_container config))
                      (ScrapeConfig.max_reviews config)) [].
Proof.
  unfold scrape_reviews. cbv zeta.
  generalize (if negb (str_truthy platform)
              then detect_platform urlparse_netloc url else platform).
  intros [p|]; [|done]. cbn [str_truthy default from_option id].
  destruct (PyStr.truthy p); [|done]. cbv beta iota.
  destruct (configs_get p configs) as [config|] eqn:Hc; [|done].
  destruct (fetch url) as [soup|e] eqn:Hf; [|done].
  intros [= <-]. eauto 10.
Qed.

Lemma scrape_reviews_returns (url p : string) (config : ScrapeConfig.t) (soup : Dom.node) :
  configs_get p configs = Some config ->
  fetch url = Ok soup ->
  exists reviews, scrape_reviews urlparse_netloc fetch url (Some p) = Ok reviews.
Proof.
  intros Hc Hf. unfold scrape_reviews.
  destruct (configs_get_defaults _ _ Hc) as [Hp _].
  assert (Ht : PyStr.truthy p = true) by (by destruct p).
  cbn [str_truthy negb]. rewrite Ht. cbn [negb str_truthy default from_option id]. rewrite Ht, Hc, Hf.
  eauto.
Qed.

(** C5. When [scrape_reviews] returns, the reviews were extracted with a
    configuration of the table, their number is at most that
    configuration's [max_reviews], and every review has a text or a rating
    that is not zero. It does return for a platform of the table when the page is
    fetched. A container whose text is empty and whose rating is 0 adds
    nothing to the list. *)
Theorem scrape_reviews_bounded (url : string) (platform : option string) :
  (forall reviews,
     scrape_reviews urlparse_netloc fetch url platform = Ok reviews ->
     exists p config soup,
       configs_get p configs = Some config
       /\ fetch url = Ok soup
       /\ reviews = fold_left (scrape_step config url p)
                      (slice_to (Dom.select soup (ScrapeConfig.review_container config))
                         (ScrapeConfig.max_reviews config)) []
       /\ (Z.of_nat (length reviews) <= ScrapeConfig.max_reviews config)%Z
       /\ Forall meaningful reviews)
  /\ (forall p config soup,
        platform = Some p ->
        configs_get p configs = Some config ->
        fetch url = Ok soup ->
        exists reviews, scrape_reviews urlparse_netloc fetch url platform = Ok reviews)
  /\ (forall config p reviews container,
        extract_review_text config container = "" ->
        (extract_rating config container == 0)%Q ->
        scrape_step config url p reviews container = reviews).
Proof.
  split; [|split].
  - intros reviews H.
    apply scrape_reviews_Ok in H as (p & config & soup & Hc & Hf & ->).
    exists p, config, soup. split; [done|]. split; [done|]. split; [done|].
    destruct (configs_get_defaults _ _ Hc) as [_ Hmax].
    destruct (scrape_loop_bounded config url p
                (slice_to (Dom.select soup (ScrapeConfig.review_container config))
                   (ScrapeConfig.max_reviews config)) []) as [Hlen HF]; [done|].
    split; [|done].
    pose proof (slice_to_length
                  (Dom.select soup (ScrapeConfig.review_container config))
                  (ScrapeConfig.max_reviews config)) as Hs.
    simpl in Hlen. lia.
  - intros p config soup -> Hc Hf. by eapply scrape_reviews_returns.
  - intros config p reviews container Ht Hr. unfold scrape_step.
    rewrite Ht. apply Qeq_bool_iff in Hr. by rewrite Hr.
Qed.
End ScraperFacts.

(** C3, amended. For a container whose date element is present and whose
    review is kept, the date of the review is the stripped text of the
    element when that text is not empty, and the [datetime] attribute (the
    empty string when there is none) only when the stripped text is empty. *)
Theorem scrape_step_date (config : ScrapeConfig.t) (url platform : string)
        (reviews : list review) (container date_elem : Dom.node) (r : review) :
  Dom.select_one container (ScrapeConfig.date config) = Some date_elem ->
  scrape_step config url platform reviews container = reviews ++ [r] ->
  (Dom.get_text_strip date_elem <> "" -> date r = Some (Dom.get_text_strip date_elem))
  /\ (Dom.get_text_strip date_elem = "" ->
      date r = Some (Dom.get date_elem "datetime" "")).
Proof.
  intros Hsel Hstep.
  destruct (scrape_step_cases config url platform reviews container)
    as [(_ & _ & Heq) | (r' & Heq & _ & _ & _ & Hdate)].
  - rewrite Heq in Hstep. apply (f_equal length) in Hstep.
    rewrite length_app in Hstep. simpl in Hstep. lia.
  - rewrite Heq in Hstep. apply app_inj_tail in Hstep as [_ <-].
    rewrite Hdate. unfold extract_date. rewrite Hsel.
    split; intros H.
    + destruct (PyStr.truthy (Dom.get_text_strip date_elem)) eqn:Ht; [done|].
      by apply truthy_false in Ht.
    + by rewrite H.
Qed.

(** C3 fails as stated: the date element has a [datetime] attribute and a
    text, and the date of the review is the text. *)
Lemma scrape_step_date_counterexample :
  configs_get "gamestop" _load_site_configs = Some gamestop
  /\ Dom.select_one dated_container (ScrapeConfig.date gamestop) = Some dated_element
  /\ Dom.get dated_element "datetime" "" = "2024-03-03"
  /\ exists r,
       scrape_step gamestop "https://www.gamestop.com/p" "gamestop" [] dated_container = [r]
       /\ date r = Some "March 3, 2024"
       /\ date r <> Some (Dom.get dated_element "datetime" "").
Proof.
  split; [by vm_compute|]. split; [by vm_compute|]. split; [by vm_compute|].
  eexists. split; [by vm_compute|]. split; [reflexivity|]. discriminate.
Qed.

(** C2, amended. For the empty list [get_review_insights] returns the empty
    dictionary: no key is present, so neither a total nor a breakdown. A
    total is present for a non-empty list, and is its length. *)
Theorem get_review_insights_empty :
  get_review_insights [] = ∅
  /\ (forall key, get_review_insights [] !! key = None)
  /\ (forall d reviews,
        get_review_insights (d :: reviews) !! "total_reviews"
        = Some (IInt (Z.of_nat (S (length reviews))))).
Proof.
  split; [done|]. split; [intros key; apply lookup_empty|].
  intros d reviews. unfold get_review_insights. by rewrite lookup_insert_eq.
Qed.

(** C2 fails as stated: the result for the empty list has no total and no
    breakdowns. *)
Lemma get_review_insights_empty_counterexample :
  ~ (get_review_insights [] !! "total_reviews" = Some (IInt 0)
     /\ get_review_insights [] !! "category_breakdown" = Some (ICounts [])
     /\ get_review_insights [] !! "sentiment_breakdown" = Some (ICounts [])).
Proof. intros [H _]. unfold get_review_insights in H. by rewrite lookup_empty in H. Qed.

(** ** The theorems at sample inputs *)

Lemma analyze_sentiment_spec_witness :
  analyze_sentiment "Great, I love it" = "positive"
  /\ analyze_sentiment "Cheap and flimsy" = "negative"
  /\ analyze_sentiment "Great but flimsy" = "neutral"
  /\ analyze_sentiment "GREAT" = analyze_sentiment "great".
Proof.
  destruct (analyze_sentiment_spec "Great, I love it") as (Hpos & _).
  destruct (analyze_sentiment_spec "Cheap and flimsy") as (_ & Hneg & _).
  destruct (analyze_sentiment_spec "Great but flimsy") as (_ & _ & Htie & _).
  destruct (analyze_sentiment_spec "great") as (_ & _ & _ & _ & Hcase).
  split; [apply Hpos; vm_compute; lia|].
  split; [apply Hneg; vm_compute; lia|].
  split; [apply Htie; vm_compute; reflexivity|].
  apply Hcase. reflexivity.
Defined.

Lemma calculate_keyword_relevance_spec_witness :
  calculate_keyword_relevance "Great value, great price" ["great"; "cheap"]
  = relevance_formula "Great value, great price" ["great"; "cheap"]
  /\ calculate_keyword_relevance "   " ["great"] = 0%Q.
Proof.
  destruct (calculate_keyword_relevance_spec "Great value, great price" ["great"; "cheap"])
    as (Hformula & _).
  destruct (calculate_keyword_relevance_spec "   " ["great"]) as (_ & Hzero & _).
  split.
  - apply Hformula; vm_compute; discriminate.
  - apply Hzero. right. right. vm_compute. reflexivity.
Defined.

Lemma filter_loop_keyword_threshold_witness :
  filter_loop [four_star; five_star] by_keyword
  = map (fun d => with_relevance (relevance_of by_keyword d)
                    (enhance (get_review_text d) d))
      (filter (fun d => passes_rating by_keyword d = true
                        /\ passes_sentiment by_keyword d = true
                        /\ (1 # 10 < relevance_of by_keyword d)%Q)
         [four_star; five_star])
  /\ Forall (fun e => keyword_relevance e = Some 1%Q)
       (filter_loop [four_star; five_star] by_rating).
Proof.
  split.
  - apply (proj1 (filter_loop_keyword_threshold [four_star; five_star] by_keyword)).
    reflexivity.
  - apply (proj2 (filter_loop_keyword_threshold [four_star; five_star] by_rating)).
    reflexivity.
Defined.



Lemma filter_reviews_leaves_input_witness :
  exists out h' out_items,
    Store.filter_reviews 3%positive by_keyword sample_store = Some (out, h')
    /\ (forall l o, sample_store !! l = Some o -> h' !! l = Some o)
    /\ h' !! 3%positive = Some (Store.OList [1%positive; 2%positive; 1%positive])
    /\ Forall2 (holds_dict h') [1%positive; 2%positive; 1%positive]
         [two_star; four_star; two_star]
    /\ h' !! out = Some (Store.OList out_items)
    /\ Forall2 (holds_dict h') out_items
         (filter_reviews [two_star; four_star; two_star] by_keyword).
Proof.
  apply (filter_reviews_leaves_input sample_store 3%positive).
  - vm_compute. reflexivity.
  - repeat constructor; vm_compute; reflexivity.
Defined.

Lemma scrape_reviews_bounded_witness :
  (exists reviews config,
     scrape_reviews sample_netloc sample_fetch "https://www.gamestop.com/p" (Some "gamestop")
     = Ok reviews
     /\ (Z.of_nat (length reviews) <= ScrapeConfig.max_reviews config)%Z
     /\ Forall meaningful reviews)
  /\ scrape_step gamestop "https://www.gamestop.com/p" "gamestop" [] empty_container = [].
Proof.
  destruct (scrape_reviews_bounded sample_netloc sample_fetch
              "https://www.gamestop.com/p" (Some "gamestop")) as (Hsafe & Hret & Hdrop).
  split.
  - destruct (Hret "gamestop" gamestop sample_page) as [reviews Heq].
    + reflexivity.
    + vm_compute. reflexivity.
    + reflexivity.
    + destruct (Hsafe reviews Heq) as (p & config & soup & _ & _ & _ & Hlen & Hm).
      exists reviews, config. auto.
  - apply Hdrop.
    + vm_compute. reflexivity.
    + vm_compute. reflexivity.
Defined.

Lemma scrape_step_date_witness :
  date (mk_review (Some "Anonymous") (Some 0%Q) (Some "Great value")
          (Some "March 3, 2024") (Some "https://www.gamestop.com/p")
          (Some "gamestop_scraping") (Some "GameStop") None None None None)
  = Some (Dom.get_text_strip dated_element).
Proof.
  apply (proj1 (scrape_step_date gamestop "https://www.gamestop.com/p" "gamestop" []
                  dated_container dated_element _
                  ltac:(vm_compute; reflexivity) ltac:(vm_compute; reflexivity))).
  vm_compute. discriminate.
Defined.

(** * Properties of the further functions *)

(** ** Categories *)

Lemma categorize_fold (text_lower : string) (table : list (string * list string))
      (acc : list string) :
  fold_left
    (fun matching_categories '(category, keywords) =>
       if existsb (fun keyword => PyStr.contains (PyStr.lower keyword) text_lower)
                  keywords
       then matching_categories ++ [category]
       else matching_categories)
    table acc
  = acc ++ map fst (filter (fun entry => mentions text_lower entry.2 = true) table).
Proof.
  unfold mentions.
  revert acc. induction table as [|[c kws] table IH]; intros acc; simpl.
  - by rewrite app_nil_r.
  - rewrite IH, filter_cons. cbn [snd].
    destruct (existsb _ kws).
    + rewrite decide_True by done. simpl. by rewrite <- app_assoc.
    + by rewrite decide_False by done.
Qed.

Lemma categorize_review_filter (text : string) :
  categorize_review text
  = if PyStr.truthy text
    then map fst (filter (fun entry => mentions (PyStr.lower text) entry.2 = true)
                    criteria_keywords)
    else [].
Proof.
  unfold categorize_review. destruct (PyStr.truthy text); [|done].
  cbn [negb]. by rewrite categorize_fold.
Qed.

(** X1. A category is among the categories of a text exactly when the text is
    not empty and some keyword of that category's list in [criteria_keywords]
    occurs, both lowercased, as a substring of the text. *)
Theorem categorize_review_spec (text category : string) :
  category ∈ categorize_review text
  <-> text <> ""
      /\ exists keywords keyword,
           (category, keywords) ∈ criteria_keywords
           /\ keyword ∈ keywords
           /\ PyStr.contains (PyStr.lower keyword) (PyStr.lower text) = true.
Proof.
  rewrite categorize_review_filter. split.
  - destruct text as [|c text]; [by intros H; apply elem_of_nil in H|].
    cbn [PyStr.truthy]. intros H. split; [done|].
    apply list_elem_of_fmap in H as ([c' kws] & -> & H).
    apply list_elem_of_filter in H as [Hm Hin].
    unfold mentions in Hm. apply existsb_exists in Hm as (kw & Hkw & Hc).
    exists kws, kw. split; [done|]. split; [by apply list_elem_of_In|done].
  - intros (Hne & kws & kw & Hin & Hkw & Hc).
    destruct text as [|c text]; [done|]. cbn [PyStr.truthy].
    apply list_elem_of_fmap. exists (category, kws). split; [done|].
    apply list_elem_of_filter. split; [|done].
    unfold mentions. apply existsb_exists. exists kw.
    split; [by apply list_elem_of_In|done].
Qed.

Lemma category_names_NoDup : NoDup (map fst criteria_keywords).
Proof. apply (bool_decide_unpack _). by vm_compute. Qed.

Lemma categorize_review_sublist (text : string) :
  categorize_review text `sublist_of` map fst criteria_keywords.
Proof.
  rewrite categorize_review_filter. destruct (PyStr.truthy text).
  - apply (fmap_sublist fst), sublist_filter.
  - apply sublist_nil_l.
Qed.

Lemma categorize_review_NoDup (text : string) : NoDup (categorize_review text).
Proof.
  eapply sublist_NoDup; [apply category_names_NoDup|apply categorize_review_sublist].
Qed.

(** X2. The categories of a text are a subsequence of the category names in
    the order of the table [criteria_keywords]: no category is listed twice,
    and there are at most eight. *)
Theorem categorize_review_order (text : string) :
  categorize_review text `sublist_of` map fst criteria_keywords
  /\ NoDup (categorize_review text)
  /\ length (categorize_review text) <= 8.
Proof.
  split; [apply categorize_review_sublist|]. split; [apply categorize_review_NoDup|].
  exact (sublist_length _ _ (categorize_review_sublist text)).
Qed.

(** ** More on [filter_reviews] *)

Lemma analyze_sentiment_range (text : string) :
  analyze_sentiment text = "positive"
  \/ analyze_sentiment text = "negative"
  \/ analyze_sentiment text = "neutral".
Proof.
  unfold analyze_sentiment. destruct (negb (PyStr.truthy text)); [auto|].
  cbv zeta. repeat case_match; auto.
Qed.

Lemma filter_reviews_no_survivor (reviews : list review) (filter_config : ReviewFilter.t) :
  (forall d, d ∈ reviews -> survives filter_config d = false) ->
  filter_reviews reviews filter_config = [].
Proof.
  intros H. rewrite filter_reviews_unfold, filter_loop_spec.
  assert (Hnil : filter (fun d => survives filter_config d = true) reviews = []).
  { induction reviews as [|d reviews IH]; [done|].
    rewrite filter_cons, decide_False.
    - apply IH. intros d' Hd'. apply H. by right.
    - rewrite H; [done|left]. }
  rewrite Hnil. simpl.
  assert (Hs : _sort_reviews [] (ReviewFilter.sort_by filter_config) = []).
  { unfold _sort_reviews. by repeat case_match. }
  rewrite Hs. destruct (slice_to_take (@nil review) (ReviewFilter.limit filter_config)) as [m ->].
  by rewrite take_nil.
Qed.

(** X3. With a sentiment filter that is not empty and is none of positive,
    negative and neutral, [filter_reviews] returns the empty list for every
    input: an unknown value is not an error and matches no review. *)
Theorem filter_reviews_unknown_sentiment (reviews : list review)
        (filter_config : ReviewFilter.t) (wanted : string) :
  ReviewFilter.sentiment filter_config = Some wanted ->
  wanted <> "" ->
  wanted ∉ ["positive"; "negative"; "neutral"] ->
  filter_reviews reviews filter_config = [].
Proof.
  intros Hs Hne Hout. apply filter_reviews_no_survivor. intros d _.
  unfold survives, passes_sentiment. rewrite Hs.
  destruct wanted as [|c w]; [done|]. cbn [PyStr.truthy].
  destruct (String.eqb_spec (analyze_sentiment (get_review_text d)) (String c w)) as [Heq|_].
  - exfalso. apply Hout. rewrite <- Heq.
    destruct (analyze_sentiment_range (get_review_text d)) as [-> | [-> | ->]]; set_solver.
  - by rewrite andb_false_r.
Qed.

Lemma calculate_keyword_relevance_range (text : string) (keywords : list string) :
  (0 <= calculate_keyword_relevance text keywords <= 1)%Q.
Proof.
  destruct keywords as [|kw kws].
  - rewrite calculate_keyword_relevance_zero by auto. done.
  - destruct (PyStr.split text) as [|w ws] eqn:Hs.
    + rewrite calculate_keyword_relevance_zero by auto. done.
    + rewrite calculate_keyword_relevance_formula by (rewrite ?Hs; done).
      by apply relevance_formula_range.
Qed.

Lemma scraped_keys_annotate (filter_config : ReviewFilter.t) (d : review) :
  scraped_keys (annotate filter_config d) = scraped_keys d.
Proof. unfold annotate. by destruct (list_truthy _). Qed.

Lemma sentiment_annotate (filter_config : ReviewFilter.t) (d : review) :
  sentiment (annotate filter_config d) = Some (analyze_sentiment (get_review_text d)).
Proof. unfold annotate. by destruct (list_truthy _). Qed.

(** X4. Every review of the output of [filter_reviews] is an input review
    whose seven scraped keys are unchanged and which carries the sentiment and
    the categories of its text and a relevance in [0,1]: above 1/10 when the
    query has keywords, and 1 with the percentage 100% when it has none. With
    a non-empty sentiment filter every review of the output has that
    sentiment. *)
Theorem filter_reviews_annotations (reviews : list review)
        (filter_config : ReviewFilter.t) (e : review) :
  e ∈ filter_reviews reviews filter_config ->
  exists d,
    d ∈ reviews
    /\ scraped_keys e = scraped_keys d
    /\ sentiment e = Some (analyze_sentiment (get_review_text d))
    /\ categories e = Some (categorize_review (get_review_text d))
    /\ (exists r, keyword_relevance e = Some r
                  /\ (0 <= r <= 1)%Q
                  /\ (list_truthy (ReviewFilter.keywords filter_config) = true ->
                      (1 # 10 < r)%Q)
                  /\ (list_truthy (ReviewFilter.keywords filter_config) = false ->
                      r = 1%Q /\ relevance_percentage e = Some "100%"))
    /\ (forall wanted,
          ReviewFilter.sentiment filter_config = Some wanted -> wanted <> "" ->
          sentiment e = Some wanted).
Proof.
  intros He. apply filter_reviews_elem in He as (d & Hd & Hs & ->).
  exists d. split; [done|]. split; [apply scraped_keys_annotate|].
  split; [apply sentiment_annotate|]. split; [apply categories_annotate|].
  unfold survives in Hs. rewrite !andb_true_iff in Hs. destruct Hs as [[_ Hsent] Hkw].
  split.
  - unfold annotate, passes_keywords in *.
    destruct (list_truthy (ReviewFilter.keywords filter_config)).
    + exists (relevance_of filter_config d). split; [done|].
      split; [apply calculate_keyword_relevance_range|].
      split; [intros _; by apply Qltb_lt|done].
    + exists 1%Q. split; [done|]. split; [done|]. split; [done|]. done.
  - intros wanted Hw Hne. rewrite sentiment_annotate.
    unfold passes_sentiment in Hsent. rewrite Hw in Hsent.
    destruct wanted as [|c w]; [done|]. cbn [PyStr.truthy] in Hsent.
    apply String.eqb_eq in Hsent. by rewrite Hsent.
Qed.

(** *** Applying the filter to its own result *)

Lemma sorted_desc_sorted_id {A K : Type} (key_lt : K -> K -> bool) (key : A -> K)
      (l : list A) :
  StronglySorted (key_ge key_lt key) l -> sorted_desc key_lt key l = l.
Proof.
  induction 1 as [|x l Hl IH Hx]; [done|].
  simpl. rewrite IH. destruct l as [|y l]; [done|].
  simpl. apply Forall_cons in Hx as [Hxy _]. unfold key_ge in Hxy. by rewrite Hxy.
Qed.

Lemma _sort_reviews_take_id (reviews : list review) (sort_by : string) (m : nat) :
  _sort_reviews (take m (_sort_reviews reviews sort_by)) sort_by
  = take m (_sort_reviews reviews sort_by).
Proof.
  unfold _sort_reviews.
  repeat (case_match;
          [apply sorted_desc_sorted_id, StronglySorted_take, sorted_desc_sorted;
           eauto using Qltb_asym, Qltb_negtrans, string_ltb_asym, string_ltb_negtrans,
             nat_ltb_asym, nat_ltb_negtrans|]).
  done.
Qed.

Lemma survives_annotate (filter_config : ReviewFilter.t) (d : review) :
  survives filter_config (annotate filter_config d) = survives filter_config d.
Proof.
  unfold survives, passes_rating, passes_sentiment, passes_keywords, relevance_of.
  by rewrite get_rating_annotate, get_review_text_annotate.
Qed.

Lemma annotate_annotate (filter_config : ReviewFilter.t) (d : review) :
  annotate filter_config (annotate filter_config d) = annotate filter_config d.
Proof.
  unfold annotate at 1. unfold relevance_of. rewrite get_review_text_annotate.
  unfold annotate. by destruct (list_truthy _).
Qed.

Lemma filter_loop_fixed (l : list review) (filter_config : ReviewFilter.t) :
  Forall (fun e => exists d, survives filter_config d = true
                             /\ e = annotate filter_config d) l ->
  filter_loop l filter_config = l.
Proof.
  intros H. rewrite filter_loop_spec.
  induction H as [|e l (d & Hs & ->) _ IH]; [done|].
  rewrite filter_cons, decide_True by (by rewrite survives_annotate).
  simpl. by rewrite annotate_annotate, IH.
Qed.

(** X5. With a limit that is not negative, filtering the output of
    [filter_reviews] again with the same query gives the same list: every
    review survives again with the same annotations, the list is already in
    order, and it is within the limit. *)
Theorem filter_reviews_idempotent (reviews : list review) (filter_config : ReviewFilter.t) :
  (0 <= ReviewFilter.limit filter_config)%Z ->
  filter_reviews (filter_reviews reviews filter_config) filter_config
  = filter_reviews reviews filter_config.
Proof.
  intros Hl.
  assert (Hfix : filter_loop (filter_reviews reviews filter_config) filter_config
                 = filter_reviews reviews filter_config).
  { apply filter_loop_fixed, Forall_forall. intros e He.
    apply filter_reviews_elem in He as (d & _ & Hs & ->). eauto. }
  rewrite (filter_reviews_unfold (filter_reviews _ _)), Hfix.
  pose proof (slice_to_length
                (_sort_reviews (filter_loop reviews filter_config)
                   (ReviewFilter.sort_by filter_config)) _ Hl) as Hlen.
  rewrite <- filter_reviews_unfold in Hlen.
  rewrite (filter_reviews_unfold reviews) at 1.
  destruct (slice_to_take (_sort_reviews (filter_loop reviews filter_config)
              (ReviewFilter.sort_by filter_config)) (ReviewFilter.limit filter_config))
    as [m Hm].
  rewrite Hm, _sort_reviews_take_id, <- Hm, <- filter_reviews_unfold.
  unfold slice_to. rewrite (proj2 (Z.leb_le 0 _) Hl).
  apply take_ge. lia.
Qed.

(** *** The limit *)

(** X6. For two limits 0 <= n <= m and an otherwise equal query, the output
    with limit n is a prefix of the output with limit m; and the output is
    never longer than the input. *)
Theorem filter_reviews_limit_prefix (reviews : list review)
        (filter_config : ReviewFilter.t) (n m : Z) :
  (0 <= n <= m)%Z ->
  filter_reviews reviews (with_limit n filter_config)
  `prefix_of` filter_reviews reviews (with_limit m filter_config)
  /\ length (filter_reviews reviews (with_limit m filter_config)) <= length reviews.
Proof.
  intros [Hn Hm]. rewrite !filter_reviews_unfold. cbn [with_limit ReviewFilter.limit ReviewFilter.sort_by].
  assert (Hloop : forall k, filter_loop reviews (with_limit k filter_config)
                            = filter_loop reviews filter_config).
  { intros k. by rewrite !filter_loop_spec. }
  rewrite !Hloop. unfold slice_to.
  rewrite (proj2 (Z.leb_le 0 n) Hn), (proj2 (Z.leb_le 0 m)) by lia.
  split.
  - replace (Z.to_nat n) with (Z.to_nat n `min` Z.to_nat m) by lia.
    rewrite <- take_take. apply prefix_take.
  - rewrite length_take, (Permutation_length (_sort_reviews_perm _ _)), filter_loop_spec.
    rewrite length_map. pose proof (length_filter (fun d => survives filter_config d = true) reviews).
    lia.
Qed.

(** ** Counters *)

Lemma counter_add_total (x : string) (c : list (string * nat)) :
  counts_total (counter_add x c) = S (counts_total c).
Proof.
  unfold counts_total. induction c as [|[k n] c IH]; [done|].
  simpl. destruct (String.eqb k x); simpl; [done|]. rewrite IH. lia.
Qed.

Lemma Counter_from (l : list string) (c : list (string * nat)) :
  counts_total (fold_left (fun c x => counter_add x c) l c)
  = counts_total c + length l.
Proof.
  revert c. induction l as [|x l IH]; intros c; simpl; [lia|].
  rewrite IH, counter_add_total. lia.
Qed.

Lemma Counter_total (l : list string) : counts_total (Counter l) = length l.
Proof. unfold Counter. by rewrite Counter_from. Qed.

Lemma counter_add_get (x y : string) (c : list (string * nat)) :
  counter_get x (counter_add y c)
  = counter_get x c + (if String.eqb y x then 1 else 0).
Proof.
  induction c as [|[k n] c IH]; simpl.
  - destruct (String.eqb y x); lia.
  - destruct (String.eqb_spec k y) as [->|Hky]; simpl.
    + destruct (String.eqb y x); lia.
    + destruct (String.eqb_spec k x) as [->|Hkx].
      * destruct (String.eqb_spec y x) as [->|_]; [done|lia].
      * apply IH.
Qed.

Lemma counter_add_keys (y : string) (c : list (string * nat)) :
  map fst (counter_add y c)
  = if bool_decide (y ∈ map fst c) then map fst c else map fst c ++ [y].
Proof.
  induction c as [|[k n] c IH]; [done|]. simpl.
  destruct (String.eqb_spec k y) as [->|Hky]; simpl.
  - rewrite bool_decide_true; [done|left].
  - rewrite IH. destruct (bool_decide (y ∈ map fst c)) eqn:Hb.
    + apply bool_decide_eq_true in Hb. rewrite bool_decide_true; [done|by right].
    + apply bool_decide_eq_false in Hb. rewrite bool_decide_false; [done|].
      intros [?|?]%elem_of_cons; congruence.
Qed.

Lemma counter_add_NoDup (y : string) (c : list (string * nat)) :
  NoDup (map fst c) -> NoDup (map fst (counter_add y c)).
Proof.
  intros H. rewrite counter_add_keys. case_bool_decide as Hy; [done|].
  apply NoDup_app. split; [done|]. split; [|apply NoDup_singleton].
  intros x Hx ?%list_elem_of_singleton. congruence.
Qed.

Lemma counter_add_positive (y : string) (c : list (string * nat)) :
  Forall (fun entry => 0 < entry.2) c ->
  Forall (fun entry => 0 < entry.2) (counter_add y c).
Proof.
  induction 1 as [|[k n] c Hn Hc IH]; simpl; [repeat constructor|].
  simpl in Hn. destruct (String.eqb k y); constructor; simpl; try done; lia.
Qed.

Lemma Counter_invariant (l : list string) (c : list (string * nat)) :
  NoDup (map fst c) -> Forall (fun entry => 0 < entry.2) c ->
  let c' := fold_left (fun c x => counter_add x c) l c in
  NoDup (map fst c') /\ Forall (fun entry => 0 < entry.2) c'
  /\ forall x, counter_get x c' = counter_get x c + occurrences x l.
Proof.
  revert c. induction l as [|y l IH]; intros c Hnd Hpos; simpl.
  - split; [done|]. split; [done|]. intros x. unfold occurrences. simpl. lia.
  - destruct (IH (counter_add y c)) as (H1 & H2 & H3);
      [by apply counter_add_NoDup|by apply counter_add_positive|].
    split; [done|]. split; [done|]. intros x.
    rewrite H3, counter_add_get. unfold occurrences. rewrite filter_cons.
    destruct (String.eqb_spec y x) as [->|Hyx].
    + rewrite decide_True by done. simpl. lia.
    + rewrite decide_False by done. lia.
Qed.

Lemma counter_get_elem (x : string) (n : nat) (c : list (string * nat)) :
  NoDup (map fst c) -> (x, n) ∈ c -> counter_get x c = n.
Proof.
  induction c as [|[k m] c IH]; [by intros _ ?%elem_of_nil|].
  simpl. intros Hnd Hin. apply NoDup_cons in Hnd as [Hk Hnd].
  apply elem_of_cons in Hin as [[= -> ->]|Hin].
  - by rewrite String.eqb_refl.
  - destruct (String.eqb_spec k x) as [->|_]; [|by apply IH].
    exfalso. apply Hk. apply list_elem_of_fmap. by exists (x, n).
Qed.

Lemma counter_get_zero (x : string) (c : list (string * nat)) :
  x ∉ map fst c -> counter_get x c = 0.
Proof.
  induction c as [|[k m] c IH]; [done|]. simpl. intros Hx.
  apply not_elem_of_cons in Hx as [Hk Hx].
  destruct (String.eqb_spec k x) as [->|_]; [done|by apply IH].
Qed.

Lemma Counter_spec (l : list string) :
  NoDup (map fst (Counter l))
  /\ (forall x n, (x, n) ∈ Counter l <-> n = occurrences x l /\ 0 < n).
Proof.
  destruct (Counter_invariant l []) as (Hnd & Hpos & Hget0);
    [constructor|constructor|].
  fold (Counter l) in Hnd, Hpos, Hget0.
  assert (Hget : forall x, counter_get x (Counter l) = occurrences x l).
  { intros x. by rewrite Hget0. }
  split; [done|]. intros x n. split.
  - intros Hin. rewrite <- (Hget x), (counter_get_elem x n _ Hnd Hin).
    split; [done|]. by eapply Forall_forall in Hpos; [|exact Hin].
  - intros [-> Hn].
    destruct (decide (x ∈ map fst (Counter l))) as [Hx|Hx].
    + apply list_elem_of_fmap in Hx as ([k m] & -> & Hkm). simpl.
      by rewrite <- (Hget k), (counter_get_elem k m _ Hnd Hkm).
    + apply counter_get_zero in Hx. rewrite Hget in Hx. lia.
Qed.

(** ** Insights *)

Lemma get_review_insights_fields (d : review) (reviews : list review) :
  let rs := d :: reviews in
  get_review_insights rs !! "total_reviews" = Some (IInt (Z.of_nat (length rs)))
  /\ get_review_insights rs !! "average_rating"
     = Some (IFloat (Qsum (map get_rating rs) / inject_Z (Z.of_nat (length rs)))%Q)
  /\ get_review_insights rs !! "category_breakdown"
     = Some (ICounts (most_common (Counter (all_categories_of rs))))
  /\ get_review_insights rs !! "sentiment_breakdown"
     = Some (ICounts (Counter (map sentiment_of rs)))
  /\ get_review_insights rs !! "top_categories"
     = Some (INames (map fst (take 5 (most_common (Counter (all_categories_of rs))))))
  /\ get_review_insights rs !! "rating_distribution"
     = Some (ICounts (rating_distribution (map get_rating rs))).
Proof.
  intros rs. subst rs. unfold get_review_insights. cbv beta iota zeta.
  cbn [map].
  split; [by rewrite lookup_insert_eq|].
  split; [rewrite lookup_insert_ne, lookup_insert_eq by done;
          cbn [length]; by rewrite length_map|].
  split; [by rewrite !lookup_insert_ne, lookup_insert_eq by done|].
  split; [by rewrite !lookup_insert_ne, lookup_insert_eq by done|].
  split; [by rewrite !lookup_insert_ne, lookup_insert_eq by done|].
  by rewrite !lookup_insert_ne, lookup_insert_eq by done.
Qed.

Lemma rating_buckets_one (r : Q) :
  (if Qle_bool (45 # 10) r then 1 else 0)
  + (if Qle_bool (35 # 10) r && Qltb r (45 # 10) then 1 else 0)
  + (if Qle_bool (25 # 10) r && Qltb r (35 # 10) then 1 else 0)
  + (if Qle_bool (15 # 10) r && Qltb r (25 # 10) then 1 else 0)
  + (if Qltb r (15 # 10) then 1 else 0) = 1.
Proof.
  rewrite !Qltb_negb_le.
  destruct (Qle_bool (45 # 10) r) eqn:H45, (Qle_bool (35 # 10) r) eqn:H35,
    (Qle_bool (25 # 10) r) eqn:H25, (Qle_bool (15 # 10) r) eqn:H15;
    try reflexivity; exfalso;
    repeat match goal with
    | H : Qle_bool _ _ = true |- _ => apply Qle_bool_iff in H
    | H : Qle_bool _ _ = false |- _ =>
        apply not_true_iff_false in H; rewrite Qle_bool_iff in H
    end;
    repeat match goal with
    | H : ~ (_ <= _)%Q |- _ => apply Qnot_le_lt in H
    end; lra.
Qed.

Lemma count_if_cons (p : Q -> bool) (r : Q) (l : list Q) :
  count_if p (r :: l) = (if p r then 1 else 0) + count_if p l.
Proof.
  unfold count_if. rewrite filter_cons. destruct (p r).
  - by rewrite decide_True by done.
  - by rewrite decide_False by done.
Qed.

Lemma rating_distribution_total (ratings : list Q) :
  counts_total (rating_distribution ratings) = length ratings.
Proof.
  unfold counts_total, rating_distribution. cbn [map snd sum_list sum_list_with].
  induction ratings as [|r ratings IH]; [done|].
  rewrite !count_if_cons. cbv beta. cbn [length].
  pose proof (rating_buckets_one r). unfold id in *. lia.
Qed.

(** X7. For a non-empty list, [total_reviews] is the number of reviews, the
    rating distribution has the five buckets from 5_star down to 1_star whose
    counts add up to the number of reviews (every rating falls in exactly one
    bucket), and the counts of the sentiment breakdown add up to the number of
    reviews. *)
Theorem get_review_insights_totals (reviews : list review) :
  reviews <> [] ->
  exists distribution sentiments,
    get_review_insights reviews !! "total_reviews"
    = Some (IInt (Z.of_nat (length reviews)))
    /\ get_review_insights reviews !! "rating_distribution" = Some (ICounts distribution)
    /\ map fst distribution = ["5_star"; "4_star"; "3_star"; "2_star"; "1_star"]
    /\ counts_total distribution = length reviews
    /\ get_review_insights reviews !! "sentiment_breakdown" = Some (ICounts sentiments)
    /\ counts_total sentiments = length reviews.
Proof.
  intros Hne. destruct reviews as [|d reviews]; [done|].
  destruct (get_review_insights_fields d reviews) as (Ht & _ & _ & Hs & _ & Hr).
  eexists _, _. split; [exact Ht|]. split; [exact Hr|]. split; [done|].
  split; [by rewrite rating_distribution_total, length_map|].
  split; [exact Hs|]. by rewrite Counter_total, length_map.
Qed.

Lemma occurrences_map {A : Type} (f : A -> string) (x : string) (l : list A) :
  occurrences x (map f l) = length (filter (fun a => f a = x) l).
Proof.
  unfold occurrences. induction l as [|a l IH]; [done|].
  simpl. rewrite !filter_cons. destruct (decide (f a = x)); simpl; by rewrite IH.
Qed.

(** X8. For a non-empty list, the sentiment breakdown has one entry for each
    sentiment that occurs (a review without the key counts as neutral), with
    the number of reviews of that sentiment, and no entry with count zero. *)
Theorem get_review_insights_sentiments (reviews : list review) :
  reviews <> [] ->
  exists sentiments,
    get_review_insights reviews !! "sentiment_breakdown" = Some (ICounts sentiments)
    /\ NoDup (map fst sentiments)
    /\ forall s n,
         (s, n) ∈ sentiments
         <-> n = length (filter (fun d => sentiment_of d = s) reviews) /\ 0 < n.
Proof.
  intros Hne. destruct reviews as [|d reviews]; [done|].
  destruct (get_review_insights_fields d reviews) as (_ & _ & _ & Hs & _).
  eexists. split; [exact Hs|].
  destruct (Counter_spec (map sentiment_of (d :: reviews))) as [Hnd Hin].
  split; [done|]. intros s n. by rewrite Hin, occurrences_map.
Qed.

(** X9. For a non-empty list, the category breakdown lists each category that
    occurs, once, with its number of occurrences over all reviews, in
    descending order of the counts; and [top_categories] are the names of its
    first five entries. *)
Theorem get_review_insights_categories (reviews : list review) :
  reviews <> [] ->
  exists breakdown,
    get_review_insights reviews !! "category_breakdown" = Some (ICounts breakdown)
    /\ StronglySorted (fun a b => b.2 <= a.2) breakdown
    /\ NoDup (map fst breakdown)
    /\ (forall c n, (c, n) ∈ breakdown
                    <-> n = occurrences c (all_categories_of reviews) /\ 0 < n)
    /\ get_review_insights reviews !! "top_categories"
       = Some (INames (map fst (take 5 breakdown))).
Proof.
  intros Hne. destruct reviews as [|d reviews]; [done|].
  destruct (get_review_insights_fields d reviews) as (_ & _ & Hc & _ & Ht & _).
  eexists. split; [exact Hc|].
  destruct (Counter_spec (all_categories_of (d :: reviews))) as [Hnd Hin].
  assert (Hperm : most_common (Counter (all_categories_of (d :: reviews)))
                  ≡ₚ Counter (all_categories_of (d :: reviews))).
  { apply sorted_desc_perm. }
  split.
  - eapply StronglySorted_mono; [|apply (sorted_desc_sorted Nat.ltb snd);
      eauto using nat_ltb_asym, nat_ltb_negtrans].
    intros a b Hab. unfold key_ge in Hab. by apply Nat.ltb_ge in Hab.
  - split; [by rewrite Hperm|]. split; [|exact Ht].
    intros c n. by rewrite Hperm.
Qed.




(** ** Insights of a filtered list *)






(** ** The store: the result is made of new objects *)

Lemma after_body_list (filter_config : ReviewFilter.t) (filtered : Store.loc)
      (fs : list Store.loc) (d : review) (h : gmap Store.loc Store.obj) :
  h !! filtered = Some (Store.OList fs) ->
  after_body filter_config filtered fs d h !! filtered
  = Some (Store.OList (if survives filter_config d then fs ++ [fresh (dom h)] else fs)).
Proof.
  intros Hl. unfold after_body, survives.
  assert (Hne : fresh (dom h) <> filtered).
  { intros Heq. pose proof (fresh_lookup h) as Hf. rewrite Heq in Hf. congruence. }
  destruct (passes_rating filter_config d && passes_sentiment filter_config d); [|done].
  cbn [andb]. destruct (passes_keywords filter_config d).
  - apply lookup_insert_eq.
  - by rewrite lookup_insert_ne.
Qed.

Lemma insert_keeps_Some (h : gmap Store.loc Store.obj) (k l : Store.loc) (o : Store.obj) :
  is_Some (h !! l) -> is_Some (<[k := o]> h !! l).
Proof.
  intros Hl. destruct (decide (k = l)) as [->|Hne].
  - rewrite lookup_insert_eq. by eexists.
  - by rewrite lookup_insert_ne.
Qed.

Lemma after_body_dom (filter_config : ReviewFilter.t) (filtered : Store.loc)
      (fs : list Store.loc) (d : review) (h : gmap Store.loc Store.obj) (l : Store.loc) :
  is_Some (h !! l) -> is_Some (after_body filter_config filtered fs d h !! l).
Proof.
  intros Hl. unfold after_body.
  destruct (passes_rating filter_config d && passes_sentiment filter_config d); [|done].
  cbv zeta. destruct (passes_keywords filter_config d);
    repeat apply insert_keeps_Some; done.
Qed.

Lemma after_body_new (filter_config : ReviewFilter.t) (h0 h : gmap Store.loc Store.obj)
      (filtered : Store.loc) (fs : list Store.loc) (acc : list review) (d : review) :
  loop_inv h0 filtered h fs acc ->
  new_objects h0 h fs ->
  exists fs',
    loop_inv h0 filtered (after_body filter_config filtered fs d h) fs'
      (filter_step filter_config acc d)
    /\ new_objects h0 (after_body filter_config filtered fs d h) fs'.
Proof.
  intros Hinv [Hnd Hnew].
  destruct (after_body_inv filter_config h0 h filtered fs acc d Hinv) as [fs' Hinv'].
  exists fs'. split; [done|].
  pose proof (after_body_list filter_config filtered fs d h (inv_list _ _ _ _ _ Hinv)) as Hl.
  rewrite (inv_list _ _ _ _ _ Hinv') in Hl. injection Hl as Hfs'.
  assert (Hold : Forall (fun l => h0 !! l = None
                          /\ is_Some (after_body filter_config filtered fs d h !! l)) fs).
  { eapply Forall_impl; [exact Hnew|]. intros l [H1 H2]. split; [done|].
    by apply after_body_dom. }
  rewrite Hfs'. destruct (survives filter_config d); [|by split].
  pose proof (fresh_lookup h) as Hf.
  split.
  - apply NoDup_app. split; [done|]. split; [|apply NoDup_singleton].
    intros l Hl ->%list_elem_of_singleton.
    eapply Forall_forall in Hnew as [_ [o Ho]]; [|exact Hl]. congruence.
  - apply Forall_app. split; [done|]. constructor; [|constructor].
    split; [eapply lookup_weaken_None; [exact Hf|apply Hinv]|].
    assert (He : fresh (dom h) ∈ fs ++ [fresh (dom h)]) by set_solver.
    rewrite <- Hfs' in He.
    pose proof (inv_dicts _ _ _ _ _ Hinv') as Hd.
    apply list_elem_of_lookup in He as [i Hi].
    destruct (Forall2_lookup_l _ _ _ _ _ Hd Hi) as (d' & _ & Hd'). by eexists.
Qed.

Lemma for_each_filter_body_new (filter_config : ReviewFilter.t)
      (h0 : gmap Store.loc Store.obj) (filtered : Store.loc)
      (items : list Store.loc) (ds : list review) :
  Forall2 (holds_dict h0) items ds ->
  forall h fs acc,
    loop_inv h0 filtered h fs acc ->
    new_objects h0 h fs ->
    exists h' fs',
      Store.for_each (Store.filter_body filter_config filtered) items h = Some (tt, h')
      /\ loop_inv h0 filtered h' fs' (fold_left (filter_step filter_config) ds acc)
      /\ new_objects h0 h' fs'.
Proof.
  induction 1 as [|r d items ds Hr Hitems IH]; intros h fs acc Hinv Hnew.
  - exists h, fs. done.
  - cbn [Store.for_each fold_left].
    assert (Hrd : holds_dict h r d).
    { unfold holds_dict. eapply lookup_weaken; [exact Hr|]. apply Hinv. }
    destruct (after_body_new filter_config h0 h filtered fs acc d Hinv Hnew)
      as (fs1 & Hinv1 & Hnew1).
    destruct (IH _ _ _ Hinv1 Hnew1) as (h' & fs' & Hrun & Hinv' & Hnew').
    exists h', fs'. split; [|done].
    change (Store.for_each _ _ h) with
      ((Store.filter_body filter_config filtered r
        ≫= fun _ => Store.for_each (Store.filter_body filter_config filtered) items) h).
    rewrite bind_run, (filter_body_run _ _ _ fs d); [done|done|apply Hinv].
Qed.

Lemma sorted_by_items {K : Type} (key_lt : K -> K -> bool) (key : review -> K)
      (h : gmap Store.loc Store.obj) (l : Store.loc) (items : list Store.loc)
      (ds : list review) :
  h !! l = Some (Store.OList items) ->
  Forall2 (holds_dict h) items ds ->
  exists sorted_items,
    Store.sorted_by key_lt key l h
    = Some (fresh (dom h), <[fresh (dom h) := Store.OList sorted_items]> h)
    /\ sorted_items ≡ₚ items.
Proof.
  intros Hl Hd. unfold Store.sorted_by.
  rewrite bind_run, (read_list_run _ _ _ Hl), bind_run, (read_dicts_run _ _ _ Hd).
  eexists. split; [reflexivity|].
  rewrite sorted_desc_perm. change (map fst (zip items ds)) with (fst <$> zip items ds).
  rewrite fst_zip; [done|]. by rewrite (Forall2_length _ _ _ Hd).
Qed.

Lemma _sort_reviews_items (h : gmap Store.loc Store.obj) (l : Store.loc)
      (items : list Store.loc) (ds : list review) (sort_by : string) :
  h !! l = Some (Store.OList items) ->
  Forall2 (holds_dict h) items ds ->
  exists l' h' sorted_items,
    Store._sort_reviews l sort_by h = Some (l', h')
    /\ h ⊆ h'
    /\ h' !! l' = Some (Store.OList sorted_items)
    /\ sorted_items ≡ₚ items.
Proof.
  intros Hl Hd. unfold Store._sort_reviews.
  assert (Hgen : forall (K : Type) (key_lt : K -> K -> bool) (key : review -> K),
    exists l' h' sorted_items,
      Store.sorted_by key_lt key l h = Some (l', h')
      /\ h ⊆ h'
      /\ h' !! l' = Some (Store.OList sorted_items)
      /\ sorted_items ≡ₚ items).
  { intros K key_lt key.
    destruct (sorted_by_items key_lt key h l items ds Hl Hd) as (si & Hrun & Hsi).
    eexists _, _, si. split; [exact Hrun|].
    split; [apply insert_subseteq, fresh_lookup|].
    split; [apply lookup_insert_eq|done]. }
  repeat (case_match; [apply Hgen|]).
  exists l, h, items. done.
Qed.

Lemma slice_to_sublist {A : Type} (l : list A) (n : Z) : slice_to l n `sublist_of` l.
Proof. destruct (slice_to_take l n) as [m ->]. apply sublist_take. Qed.

(** X12. On a store whose list [reviews] holds dictionaries, [filter_reviews]
    returns a list object that did not exist before the call, and the items of
    that list are pairwise distinct dictionary objects none of which existed
    before the call: the output shares no object with the input, also when the
    input lists one dictionary twice. *)
Theorem filter_reviews_new_objects (h : gmap Store.loc Store.obj) (reviews : Store.loc)
        (items : list Store.loc) (ds : list review) (filter_config : ReviewFilter.t) :
  h !! reviews = Some (Store.OList items) ->
  Forall2 (holds_dict h) items ds ->
  exists out h' out_items,
    Store.filter_reviews reviews filter_config h = Some (out, h')
    /\ h !! out = None
    /\ h' !! out = Some (Store.OList out_items)
    /\ NoDup out_items
    /\ Forall (fun l => h !! l = None) out_items.
Proof.
  intros Hl Hd. unfold Store.filter_reviews.
  rewrite bind_run, (read_list_run _ _ _ Hl).
  destruct items as [|r items].
  { eexists _, _, []. split; [reflexivity|]. split; [apply fresh_lookup|].
    split; [apply lookup_insert_eq|]. split; constructor. }
  set (f := fresh (dom h)).
  assert (Hf : h !! f = None) by apply fresh_lookup.
  change (Store.alloc (Store.OList []) ≫= _) with
    (Store.alloc (Store.OList []) ≫= fun filtered_reviews =>
       Store.for_each (Store.filter_body filter_config filtered_reviews) (r :: items) ≫= fun _ =>
       Store._sort_reviews filtered_reviews (ReviewFilter.sort_by filter_config) ≫= fun filtered_reviews =>
       Store.read_list filtered_reviews ≫= fun sorted_items =>
       Store.alloc (Store.OList (slice_to sorted_items (ReviewFilter.limit filter_config)))).
  rewrite bind_run. unfold Store.alloc at 1. fold f.
  assert (Hinv0 : loop_inv h f (<[f := Store.OList []]> h) [] []).
  { constructor; [by apply insert_subseteq|done|apply lookup_insert_eq|constructor]. }
  assert (Hnew0 : new_objects h (<[f := Store.OList []]> h) []).
  { split; constructor. }
  destruct (for_each_filter_body_new filter_config h f (r :: items) ds Hd _ _ _ Hinv0 Hnew0)
    as (h1 & fs & Hrun & [Hsub1 _ Hl1 Hd1] & [Hnd Hnew]).
  rewrite bind_run, Hrun.
  destruct (_sort_reviews_items h1 f fs _ (ReviewFilter.sort_by filter_config) Hl1 Hd1)
    as (l2 & h2 & si & Hrun2 & Hsub2 & Hl2 & Hperm).
  rewrite bind_run, Hrun2, bind_run, (read_list_run _ _ _ Hl2).
  unfold Store.alloc.
  set (out := fresh (dom h2)).
  assert (Hout : h2 !! out = None) by apply fresh_lookup.
  eexists out, _, _. split; [reflexivity|].
  split.
  { eapply lookup_weaken_None; [exact Hout|]. by etrans. }
  split; [apply lookup_insert_eq|].
  pose proof (slice_to_sublist si (ReviewFilter.limit filter_config)) as Hss.
  split.
  - eapply sublist_NoDup; [|exact Hss]. by rewrite Hperm.
  - apply Forall_forall. intros l Hin.
    eapply sublist_subseteq in Hss. apply Hss in Hin. rewrite Hperm in Hin.
    by eapply Forall_forall in Hnew as [H0 _]; [|exact Hin].
Qed.

(** ** Platform detection *)

Lemma find_first {A : Type} (f : A -> bool) (l : list A) (x : A) :
  List.find f l = Some x
  <-> exists before after,
        l = before ++ x :: after /\ f x = true
        /\ Forall (fun y => f y = false) before.
Proof.
  induction l as [|y l IH]; simpl.
  - split; [done|]. intros (b & a & H & _). by destruct b.
  - destruct (f y) eqn:Hy.
    + split.
      * intros [= ->]. exists [], l. done.
      * intros (b & a & H & Hx & Hb). destruct b as [|z b].
        -- by injection H as ->.
        -- injection H as -> _. apply Forall_cons in Hb as [Hz _]. congruence.
    + rewrite IH. split.
      * intros (b & a & -> & Hx & Hb). exists (y :: b), a. split; [done|].
        split; [done|]. by constructor.
      * intros (b & a & H & Hx & Hb). destruct b as [|z b].
        -- injection H as -> _. congruence.
        -- injection H as -> ->. apply Forall_cons in Hb as [_ Hb]. eauto.
Qed.

Lemma find_none {A : Type} (f : A -> bool) (l : list A) :
  List.find f l = None <-> Forall (fun y => f y = false) l.
Proof.
  induction l as [|y l IH]; simpl; [split; [constructor|done]|].
  destruct (f y) eqn:Hy.
  - split; [done|]. intros [H _]%Forall_cons. congruence.
  - rewrite IH. split; [by constructor|by intros [_ H]%Forall_cons].
Qed.

Lemma configs_keys_NoDup : NoDup (map fst configs).
Proof. apply (bool_decide_unpack _). by vm_compute. Qed.

Lemma keys_inj {A : Type} (l : list (string * A)) (k : string) (v1 v2 : A) :
  NoDup (map fst l) -> (k, v1) ∈ l -> (k, v2) ∈ l -> v1 = v2.
Proof.
  induction l as [|[k' v] l IH]; [by intros _ ?%elem_of_nil|].
  simpl. intros [Hk Hnd]%NoDup_cons H1 H2.
  apply elem_of_cons in H1 as [[= -> ->]|H1]; apply elem_of_cons in H2 as [[= ->]|H2].
  - done.
  - exfalso. apply Hk. apply list_elem_of_fmap. by exists (k', v2).
  - subst. exfalso. apply Hk. apply list_elem_of_fmap. by exists (k', v1).
  - by apply IH.
Qed.

Lemma configs_keys_inj (k : string) (c1 c2 : ScrapeConfig.t) :
  (k, c1) ∈ configs -> (k, c2) ∈ configs -> c1 = c2.
Proof. apply keys_inj, configs_keys_NoDup. Qed.

Section DetectFacts.
Variable urlparse_netloc : string -> option string.
Variable fetch : string -> outcome Dom.node.

Lemma detect_platform_find (url : string) :
  detect_platform urlparse_netloc url
  = match urlparse_netloc url with
    | Some netloc => fst <$> List.find (domain_in (PyStr.lower netloc)) configs
    | None => None
    end.
Proof.
  unfold detect_platform. destruct (urlparse_netloc url) as [netloc|]; [|done].
  cbv zeta. generalize configs. intros l.
  assert (Hfind : List.find
            (fun '(platform, config) =>
               PyStr.contains (ScrapeConfig.domain config) (PyStr.lower netloc)) l
          = List.find (domain_in (PyStr.lower netloc)) l).
  { induction l as [|[p c] l IH]; [done|]. simpl.
    unfold domain_in at 1. simpl. by destruct (PyStr.contains _ _). }
  by rewrite Hfind.
Qed.

(** X13. [detect_platform] returns the key of the first entry of the table, in
    table order, whose domain occurs in the lowercased host of the URL; and it
    returns None exactly when the URL cannot be parsed or no domain of the
    table occurs in the host. *)
Theorem detect_platform_first_match (url : string) :
  (forall p,
     detect_platform urlparse_netloc url = Some p
     <-> exists netloc before config after,
           urlparse_netloc url = Some netloc
           /\ configs = before ++ (p, config) :: after
           /\ PyStr.contains (ScrapeConfig.domain config) (PyStr.lower netloc) = true
           /\ Forall (fun entry => PyStr.contains (ScrapeConfig.domain entry.2)
                                     (PyStr.lower netloc) = false) before)
  /\ (detect_platform urlparse_netloc url = None
      <-> urlparse_netloc url = None
          \/ exists netloc,
               urlparse_netloc url = Some netloc
               /\ Forall (fun entry => PyStr.contains (ScrapeConfig.domain entry.2)
                                         (PyStr.lower netloc) = false) configs).
Proof.
  rewrite detect_platform_find. split.
  - intros p. destruct (urlparse_netloc url) as [netloc|].
    + split.
      * intros H. destruct (List.find _ configs) as [[p' c]|] eqn:Hf; [|done].
        injection H as ->. apply find_first in Hf as (b & a & Hc & Hx & Hb).
        exists netloc, b, c, a. done.
      * intros (netloc' & b & c & a & [= <-] & Hc & Hx & Hb).
        assert (Hf : List.find (domain_in (PyStr.lower netloc)) configs = Some (p, c)).
        { apply find_first. exists b, a. done. }
        by rewrite Hf.
    + split; [done|]. by intros (? & ? & ? & ? & ? & _).
  - destruct (urlparse_netloc url) as [netloc|].
    + split.
      * intros H. right. exists netloc. split; [done|].
        apply find_none. by destruct (List.find _ configs).
      * intros [?|(netloc' & [= <-] & H)]; [done|].
        apply find_none in H. unfold domain_in. by rewrite H.
    + split; [by left|done].
Qed.

Lemma configs_www :
  Forall (fun entry =>
            List.find (domain_in (ScrapeConfig.domain entry.2)) configs = Some entry
            /\ List.find (domain_in ("www." +:+ ScrapeConfig.domain entry.2)) configs
               = Some entry)
    configs.
Proof.
  apply Forall_forall. intros [k e] Hin.
  assert (Hb : forallb (fun entry =>
     match List.find (domain_in (ScrapeConfig.domain entry.2)) configs,
           List.find (domain_in ("www." +:+ ScrapeConfig.domain entry.2)) configs with
     | Some (p1, _), Some (p2, _) => String.eqb p1 entry.1 && String.eqb p2 entry.1
     | _, _ => false
     end) configs = true) by (vm_compute; reflexivity).
  rewrite forallb_forall in Hb. apply list_elem_of_In in Hin.
  specialize (Hb (k, e) Hin). apply list_elem_of_In in Hin. cbn [fst snd] in *.
  destruct (List.find (domain_in (ScrapeConfig.domain e)) configs)
    as [[p1 c1]|] eqn:H1; [|done].
  destruct (List.find (domain_in ("www." +:+ ScrapeConfig.domain e)) configs)
    as [[p2 c2]|] eqn:H2; [|done].
  apply andb_true_iff in Hb as [Hb1 Hb2].
  apply String.eqb_eq in Hb1, Hb2. subst p1 p2.
  split.
  - apply find_first in H1 as (b & a & Hc & _).
    assert (Hk : (k, c1) ∈ configs) by (rewrite Hc; apply elem_of_app; right; left).
    by rewrite (configs_keys_inj k c1 e Hk Hin).
  - apply find_first in H2 as (b & a & Hc & _).
    assert (Hk : (k, c2) ∈ configs) by (rewrite Hc; apply elem_of_app; right; left).
    by rewrite (configs_keys_inj k c2 e Hk Hin).
Qed.

(** X14. For every platform of the table, a URL whose host is, in any letter
    case, the platform's domain or www. followed by it is detected as that
    platform: no earlier entry of the table has a domain that occurs in such a
    host. *)
Theorem detect_platform_of_domain (url netloc p : string) (config : ScrapeConfig.t) :
  configs_get p configs = Some config ->
  urlparse_netloc url = Some netloc ->
  PyStr.lower netloc = ScrapeConfig.domain config
  \/ PyStr.lower netloc = "www." +:+ ScrapeConfig.domain config ->
  detect_platform urlparse_netloc url = Some p.
Proof.
  intros Hc Hu Hn. rewrite detect_platform_find, Hu.
  apply configs_get_In in Hc.
  pose proof configs_www as Hw. eapply Forall_forall in Hw as [H1 H2]; [|exact Hc].
  cbn [fst snd] in H1, H2. destruct Hn as [Hn | Hn]; rewrite Hn.
  - by rewrite H1.
  - by rewrite H2.
Qed.
End DetectFacts.

(** ** The extraction loop as a filter and a map *)






Section ScrapeFacts.
Variable urlparse_netloc : string -> option string.
Variable fetch : string -> outcome Dom.node.


(** X16. When the platform of the URL is detected, calling [scrape_reviews]
    without a platform, or with the empty string as platform, gives the same
    outcome as calling it with the detected platform. *)
Theorem scrape_reviews_detected (url p : string) :
  detect_platform urlparse_netloc url = Some p ->
  scrape_reviews urlparse_netloc fetch url None
  = scrape_reviews urlparse_netloc fetch url (Some p)
  /\ scrape_reviews urlparse_netloc fetch url (Some "")
     = scrape_reviews urlparse_netloc fetch url (Some p).
Proof.
  intros Hd.
  assert (Hp : exists config, configs_get p configs = Some config).
  { rewrite detect_platform_find in Hd.
    destruct (urlparse_netloc url) as [netloc|]; [|done].
    destruct (List.find _ configs) as [[p' c]|] eqn:Hf; [|done].
    injection Hd as ->. apply find_first in Hf as (b & a & Hc & _).
    assert (Hnd := configs_keys_NoDup). rewrite Hc in Hnd |- *. clear Hc.
    exists c. induction b as [|[k v] b IH]; simpl.
    - by rewrite String.eqb_refl.
    - simpl in Hnd. apply NoDup_cons in Hnd as [Hk Hnd].
      destruct (String.eqb_spec k p) as [->|_]; [|by apply IH].
      exfalso. apply Hk. rewrite map_app. apply elem_of_app. right. left. }
  destruct Hp as [config Hc].
  destruct (configs_get_defaults _ _ Hc) as [Hne _].
  assert (Ht : PyStr.truthy p = true) by (by destruct p).
  unfold scrape_reviews. cbn [str_truthy PyStr.truthy negb]. rewrite Hd, Ht.
  cbn [negb str_truthy default from_option id]. rewrite Ht, Hc.
  done.
Qed.

End ScrapeFacts.

(** ** The supported platforms *)

Lemma configs_get_elem (p : string) (config : ScrapeConfig.t) :
  configs_get p configs = Some config <-> (p, config) ∈ configs.
Proof.
  split; [apply configs_get_In|].
  assert (Hnd := configs_keys_NoDup). revert Hnd. generalize configs. intros l.
  induction l as [|[k v] l IH]; [by intros _ ?%elem_of_nil|].
  simpl. intros [Hk Hnd]%NoDup_cons [[= -> ->]|Hin]%elem_of_cons.
  - by rewrite String.eqb_refl.
  - destruct (String.eqb_spec k p) as [->|_]; [|by apply IH].
    exfalso. apply Hk. apply list_elem_of_fmap. by exists (p, config).
Qed.

(** X18. [get_supported_platforms] lists exactly the entries of the table: an
    entry is listed exactly when its platform key is in the table with that
    name and that domain; the platform keys of the list are distinct, and the
    list is as long as the table. *)
Theorem get_supported_platforms_spec (entry : PlatformInfo.t) :
  (entry ∈ get_supported_platforms
   <-> exists config,
         configs_get (PlatformInfo.platform entry) configs = Some config
         /\ PlatformInfo.name entry = ScrapeConfig.name config
         /\ PlatformInfo.domain entry = ScrapeConfig.domain config)
  /\ NoDup (map PlatformInfo.platform get_supported_platforms)
  /\ length get_supported_platforms = length configs.
Proof.
  split; [|split].
  - unfold get_supported_platforms. rewrite list_elem_of_fmap. split.
    + intros ([p c] & -> & Hin). exists c. by rewrite configs_get_elem.
    + intros (c & Hc & Hn & Hd). exists (PlatformInfo.platform entry, c).
      rewrite <- configs_get_elem. split; [|done].
      destruct entry. simpl in *. by subst.
  - unfold get_supported_platforms. rewrite map_map.
    assert (Heq : map (fun x => PlatformInfo.platform
                     (let '(key, config) := x in
                      PlatformInfo.mk key (ScrapeConfig.name config)
                        (ScrapeConfig.domain config))) configs
                  = map fst configs).
    { apply map_ext. by intros [k c]. }
    rewrite Heq. apply configs_keys_NoDup.
  - unfold get_supported_platforms. apply length_map.
Qed.

(** ** Strings as lists of characters *)

Lemma chars_inj (s t : string) : chars s = chars t -> s = t.
Proof.
  intros H. rewrite <- (string_of_list_ascii_of_string s),
    <- (string_of_list_ascii_of_string t). unfold chars in H. by rewrite H.
Qed.

Lemma chars_app (s t : string) : chars (s +:+ t) = chars s ++ chars t.
Proof. induction s as [|c s IH]; [done|]. simpl. by rewrite IH. Qed.

Lemma chars_length (s : string) : length (chars s) = String.length s.
Proof. induction s as [|c s IH]; [done|]. simpl. by rewrite IH. Qed.

Lemma chars_rev_app (s t : string) :
  chars (String.rev_app s t) = rev (chars s) ++ chars t.
Proof.
  revert t. induction s as [|c s IH]; intros t; [done|].
  simpl. rewrite IH. simpl. by rewrite <- app_assoc.
Qed.

Lemma chars_rev (s : string) : chars (String.rev s) = rev (chars s).
Proof. unfold String.rev. rewrite chars_rev_app. simpl. by rewrite app_nil_r. Qed.

Lemma chars_lstrip (s : string) : chars (PyStr.lstrip s) = lstrip_chars (chars s).
Proof.
  induction s as [|c s IH]; [done|]. simpl. by destruct (PyStr.is_space c).
Qed.

Lemma chars_strip (s : string) : chars (PyStr.strip s) = strip_chars (chars s).
Proof.
  unfold PyStr.strip, strip_chars.
  by rewrite chars_rev, chars_lstrip, chars_rev, chars_lstrip.
Qed.

Lemma lstrip_chars_suffix (l : list ascii) :
  exists spaces, l = spaces ++ lstrip_chars l
                 /\ Forall (fun c => PyStr.is_space c = true) spaces.
Proof.
  induction l as [|c l (sp & IH1 & IH2)]; [by exists []|]. simpl.
  destruct (PyStr.is_space c) eqn:Hc.
  - exists (c :: sp). split; [simpl; by f_equal|by constructor].
  - by exists [].
Qed.

Lemma lstrip_chars_head (l : list ascii) : clean_head (lstrip_chars l).
Proof.
  induction l as [|c l IH]; [done|]. simpl.
  destruct (PyStr.is_space c) eqn:Hc; [done|]. simpl. done.
Qed.

Lemma lstrip_chars_id (l : list ascii) : clean_head l -> lstrip_chars l = l.
Proof. destruct l as [|c l]; [done|]. simpl. by intros ->. Qed.

Lemma strip_chars_ends (l : list ascii) :
  clean_head (strip_chars l) /\ clean_head (rev (strip_chars l)).
Proof.
  unfold strip_chars. set (u := lstrip_chars l). set (w := lstrip_chars (rev u)).
  rewrite rev_involutive. split; [|apply lstrip_chars_head].
  destruct (lstrip_chars_suffix (rev u)) as (sp & Hsp & _). fold w in Hsp.
  assert (Hu : u = rev w ++ rev sp).
  { rewrite <- (rev_involutive u), Hsp. apply rev_app_distr. }
  pose proof (lstrip_chars_head l) as Hh. fold u in Hh. rewrite Hu in Hh.
  destruct (rev w) as [|c r]; [done|]. exact Hh.
Qed.

Lemma strip_chars_id (l : list ascii) :
  clean_head l -> clean_head (rev l) -> strip_chars l = l.
Proof.
  intros H1 H2. unfold strip_chars.
  by rewrite (lstrip_chars_id l H1), (lstrip_chars_id _ H2), rev_involutive.
Qed.

Lemma strip_strip (s : string) : PyStr.strip (PyStr.strip s) = PyStr.strip s.
Proof.
  apply chars_inj. rewrite !chars_strip.
  destruct (strip_chars_ends (chars s)). by apply strip_chars_id.
Qed.

Lemma lstrip_chars_sublist (l : list ascii) : lstrip_chars l `sublist_of` l.
Proof.
  induction l as [|c l IH]; [done|]. simpl.
  destruct (PyStr.is_space c); [by apply sublist_cons|done].
Qed.

Lemma sublist_rev {A : Type} (l k : list A) :
  l `sublist_of` k -> rev l `sublist_of` rev k.
Proof.
  induction 1 as [|x l k _ IH|x l k _ IH]; simpl; [done| |].
  - by apply sublist_app.
  - rewrite <- (app_nil_r (rev l)). by apply sublist_app, sublist_nil_l.
Qed.

Lemma strip_chars_sublist (l : list ascii) : strip_chars l `sublist_of` l.
Proof.
  unfold strip_chars. rewrite <- (rev_involutive l) at 2.
  apply sublist_rev. etrans; [apply lstrip_chars_sublist|].
  apply sublist_rev, lstrip_chars_sublist.
Qed.

(** ** [create_filter_from_params] *)

Lemma split_on_length (sep : ascii) (cur s : string) :
  length (PyStrMore.split_on sep cur s) = S (count_char sep s).
Proof.
  unfold count_char. revert cur. induction s as [|c s IH]; intros cur; [done|].
  simpl. rewrite filter_cons. destruct (Ascii.eqb_spec c sep) as [->|Hne].
  - rewrite decide_True by done. simpl. by rewrite IH.
  - rewrite decide_False by done. apply IH.
Qed.

Lemma comma_list_spec (param : option string) :
  Forall (fun piece => PyStr.strip piece = piece) (comma_list param)
  /\ (forall s, param = Some s -> s <> "" ->
                length (comma_list param) = S (count_char "," s))
  /\ (param = None \/ param = Some "" -> comma_list param = []).
Proof.
  unfold comma_list. split; [|split].
  - destruct (str_truthy param); [|constructor].
    apply Forall_forall. intros piece Hp.
    apply list_elem_of_fmap in Hp as (raw & -> & _). apply strip_strip.
  - intros s -> Hne. destruct s as [|c s]; [done|].
    cbn [str_truthy PyStr.truthy default from_option id].
    by rewrite length_map, split_on_length.
  - by intros [-> | ->].
Qed.

Section CreateFilterFacts.
Variable float_of_str : string -> option Q.
Variable int_of_str : string -> option Z.

(** X19. The keywords and the categories of the filter built from the request
    are the comma-separated pieces of the parameters: every piece is stripped,
    a non-empty parameter with k commas gives k + 1 pieces (empty pieces are
    kept), and an absent or empty parameter gives the empty list. *)
Theorem create_filter_from_params_lists (request_args : gmap string string)
        (filter_config : ReviewFilter.t) :
  create_filter_from_params float_of_str int_of_str request_args = Some filter_config ->
  ReviewFilter.keywords filter_config = Some (comma_list (request_args !! "keywords"))
  /\ ReviewFilter.categories filter_config
     = Some (comma_list (request_args !! "categories"))
  /\ forall param,
       Forall (fun piece => PyStr.strip piece = piece) (comma_list param)
       /\ (forall s, param = Some s -> s <> "" ->
                     length (comma_list param) = S (count_char "," s))
       /\ (param = None \/ param = Some "" -> comma_list param = []).
Proof.
  unfold create_filter_from_params. intros H.
  destruct (match request_args !! "min_rating" with Some _ => _ | None => _ end); [|done].
  destruct (match request_args !! "max_rating" with Some _ => _ | None => _ end); [|done].
  destruct (match request_args !! "limit" with Some _ => _ | None => _ end); [|done].
  cbn in H. injection H as <-. split; [done|]. split; [done|].
  apply comma_list_spec.
Qed.

(** X20. [create_filter_from_params] fails exactly when min_rating or
    max_rating is present and is not a float literal, or limit is present and
    is not an integer literal; otherwise the numbers of the filter are the
    parsed parameters, with the defaults 0, 5 and 50 for absent ones, the
    sentiment is the parameter or None, and sort_by defaults to relevance. *)
Theorem create_filter_from_params_numbers (request_args : gmap string string) :
  (create_filter_from_params float_of_str int_of_str request_args = None
   <-> (exists s, request_args !! "min_rating" = Some s /\ float_of_str s = None)
       \/ (exists s, request_args !! "max_rating" = Some s /\ float_of_str s = None)
       \/ (exists s, request_args !! "limit" = Some s /\ int_of_str s = None))
  /\ forall filter_config,
       create_filter_from_params float_of_str int_of_str request_args = Some filter_config ->
       Some (ReviewFilter.min_rating filter_config)
       = match request_args !! "min_rating" with
         | Some s => float_of_str s | None => Some 0%Q end
       /\ Some (ReviewFilter.max_rating filter_config)
          = match request_args !! "max_rating" with
            | Some s => float_of_str s | None => Some 5%Q end
       /\ Some (ReviewFilter.limit filter_config)
          = match request_args !! "limit" with
            | Some s => int_of_str s | None => Some 50%Z end
       /\ ReviewFilter.sentiment filter_config = request_args !! "sentiment"
       /\ ReviewFilter.sort_by filter_config
          = default "relevance" (request_args !! "sort_by").
Proof.
  unfold create_filter_from_params. split.
  - destruct (request_args !! "min_rating") as [s1|];
      [destruct (float_of_str s1) eqn:H1|];
      (destruct (request_args !! "max_rating") as [s2|];
       [destruct (float_of_str s2) eqn:H2|]);
      (destruct (request_args !! "limit") as [s3|];
       [destruct (int_of_str s3) eqn:H3|]); cbn;
      (split; [try done; intros _; eauto 10
              |try done; intros [(s & [= <-] & Hs)|[(s & [= <-] & Hs)|(s & [= <-] & Hs)]];
               congruence]).
  - intros f H.
    destruct (match request_args !! "min_rating" with Some _ => _ | None => _ end); [|done].
    destruct (match request_args !! "max_rating" with Some _ => _ | None => _ end); [|done].
    destruct (match request_args !! "limit" with Some _ => _ | None => _ end); [|done].
    cbn in H. by injection H as <-.
Qed.
End CreateFilterFacts.

(** ** A request without filter parameters *)

Lemma sorted_desc_constant {A K : Type} (key_lt : K -> K -> bool) (key : A -> K)
      (k : K) (l : list A) :
  key_lt k k = false -> Forall (fun x => key x = k) l -> sorted_desc key_lt key l = l.
Proof.
  intros Hk H. apply sorted_desc_sorted_id.
  induction H as [|x l Hx Hl IH]; constructor; [done|].
  eapply Forall_impl; [exact Hl|]. intros y Hy. unfold key_ge. by rewrite Hx, Hy.
Qed.

Section DefaultQuery.
Variable float_of_str : string -> option Q.
Variable int_of_str : string -> option Z.

(** X21. For a request with none of the seven filter parameters, the filter is
    built, and [filter_reviews] with it returns the first 50, in input order,
    of the reviews whose rating lies between 0 and 5, each annotated with the
    relevance 1: the default sort by relevance does not reorder, and a review
    with a rating above 5 is dropped. *)
Theorem create_filter_from_params_default (request_args : gmap string string)
        (reviews : list review) :
  (forall param, param ∈ filter_params -> request_args !! param = None) ->
  exists filter_config,
    create_filter_from_params float_of_str int_of_str request_args = Some filter_config
    /\ filter_reviews reviews filter_config
       = take 50
           (map (fun d => with_full_relevance (enhance (get_review_text d) d))
              (filter (fun d => (0 <= get_rating d)%Q /\ (get_rating d <= 5)%Q) reviews)).
Proof.
  intros Hnone.
  exists (ReviewFilter.mk (Some []) (Some []) 0 5 None "relevance" 50). split.
  - unfold create_filter_from_params.
    by rewrite !Hnone by (apply (bool_decide_unpack _); by vm_compute).
  - rewrite filter_reviews_unfold, filter_loop_spec.
    cbn [ReviewFilter.sort_by ReviewFilter.limit].
    unfold _sort_reviews. cbn [String.eqb Ascii.eqb Bool.eqb].
    change (String.eqb "relevance" "relevance") with true. cbv iota.
    rewrite (sorted_desc_constant Qltb key_relevance 1%Q); [| done |].
    + unfold slice_to. cbn [Z.leb Z.compare Z.to_nat Pos.to_nat].
      change (Z.to_nat 50) with 50. f_equal. unfold annotate. cbn [ReviewFilter.keywords list_truthy some_list default from_option id].
      f_equal. apply list_filter_iff. intros d.
      unfold survives, passes_rating, passes_sentiment, passes_keywords.
      cbn. rewrite !andb_true_r, andb_true_iff, !Qle_bool_iff. done.
    + apply Forall_forall. intros e He. apply list_elem_of_fmap in He as (d & -> & _).
      unfold annotate. by cbn.
Qed.
End DefaultQuery.

(** ** [sanitize_text] *)

Lemma chars_remove_char (c : ascii) (s : string) :
  chars (PyStrMore.remove_char c s) = filter (fun x => x <> c) (chars s).
Proof.
  induction s as [|x s IH]; [done|]. simpl. rewrite filter_cons.
  destruct (Ascii.eqb_spec x c) as [->|Hne].
  - by rewrite decide_False by (intros H; by apply H).
  - rewrite decide_True by done. simpl. by rewrite IH.
Qed.

Lemma chars_take (n : nat) (s : string) : chars (PyStrMore.take n s) = take n (chars s).
Proof.
  revert n. induction s as [|c s IH]; intros [|n]; try done. simpl. by rewrite IH.
Qed.

Lemma remove_dangerous_chars (text : string) :
  chars (fold_left (fun t char => PyStrMore.remove_char char t) dangerous_chars text)
  = filter (fun x => x ∉ dangerous_chars) (chars text).
Proof.
  unfold dangerous_chars. cbn [fold_left]. rewrite !chars_remove_char.
  rewrite !list_filter_filter. apply list_filter_iff. intros x.
  rewrite !not_elem_of_cons. split; [|tauto]. intros H. repeat split; try tauto.
  apply not_elem_of_nil.
Qed.

(** the text after the three steps before the final [strip] *)
Lemma sanitize_text_chars (text : string) :
  exists body,
    chars (sanitize_text text) = strip_chars body
    /\ (Z.of_nat (length body) <= 5003)%Z
    /\ Forall (fun x => x ∉ dangerous_chars) body.
Proof.
  unfold sanitize_text. cbv zeta.
  set (joined := PyStrMore.join_with " " (PyStr.split text)).
  set (safe := fold_left _ dangerous_chars joined).
  assert (Hsafe : Forall (fun x => x ∉ dangerous_chars) (chars safe)).
  { subst safe. rewrite remove_dangerous_chars. apply Forall_forall.
    intros x Hx. by apply list_elem_of_filter in Hx as [Hx _]. }
  destruct (5000 <? Z.of_nat (String.length safe))%Z eqn:Hlen.
  - exists (chars (PyStrMore.take (Z.to_nat 5000) safe +:+ "...")).
    split; [apply chars_strip|]. rewrite chars_app, chars_take. split.
    + rewrite length_app, length_take. change (length (chars "...")) with 3. lia.
    + apply Forall_app. split.
      * by apply Forall_take.
      * apply (bool_decide_unpack _). by vm_compute.
  - exists (chars safe). split; [apply chars_strip|]. split; [|done].
    apply Z.ltb_ge in Hlen. rewrite chars_length. lia.
Qed.

Lemma sanitize_text_safe_chars (text : string) :
  Forall (fun x => x ∉ dangerous_chars) (chars (sanitize_text text)).
Proof.
  destruct (sanitize_text_chars text) as (body & Hc & Hlen & Hsafe).
  pose proof (strip_chars_sublist body) as Hsub.
  rewrite Hc. apply Forall_forall. intros x Hx.
  eapply Forall_forall in Hsafe; [exact Hsafe|].
  eapply sublist_subseteq; [exact Hsub|exact Hx].
Qed.

(** X22. The result of [sanitize_text] contains none of the characters of
    [dangerous_chars], and has at most 5003 characters. *)
Theorem sanitize_text_safe (text : string) :
  Forall (fun x => x ∉ dangerous_chars) (chars (sanitize_text text))
  /\ (Z.of_nat (String.length (sanitize_text text)) <= 5003)%Z.
Proof.
  destruct (sanitize_text_chars text) as (body & Hc & Hlen & Hsafe).
  pose proof (strip_chars_sublist body) as Hsub. split.
  - rewrite Hc. apply Forall_forall. intros x Hx.
    eapply Forall_forall in Hsafe; [exact Hsafe|].
    eapply sublist_subseteq; [exact Hsub|exact Hx].
  - rewrite <- chars_length, Hc. apply sublist_length in Hsub. lia.
Qed.

(** X23. The result of [sanitize_text] has no whitespace at its start or at
    its end: stripping it again changes nothing. *)
Theorem sanitize_text_stripped (text : string) :
  PyStr.strip (sanitize_text text) = sanitize_text text
  /\ clean_head (chars (sanitize_text text))
  /\ clean_head (rev (chars (sanitize_text text))).
Proof.
  split.
  - unfold sanitize_text. cbv zeta. apply strip_strip.
  - destruct (sanitize_text_chars text) as (body & -> & _). apply strip_chars_ends.
Qed.

(** ** [clean_review_data] *)

Lemma clamp_rating_value (x : Q) :
  (0 <= num_value (clamp_rating x) <= 5)%Q
  /\ ((0 <= x <= 5)%Q -> (num_value (clamp_rating x) == x)%Q)
  /\ ((5 <= x)%Q -> clamp_rating x = PInt 5)
  /\ ((x <= 0)%Q -> clamp_rating x = PInt 0).
Proof.
  unfold clamp_rating.
  destruct (Qltb x 5) eqn:H5; cbn [num_value].
  - apply Qltb_lt in H5. destruct (Qltb 0 x) eqn:H0; cbn [num_value].
    + apply Qltb_lt in H0. repeat split; try lra; intros; try reflexivity; lra.
    + apply Qltb_ge in H0. change (inject_Z 0) with 0%Q.
      repeat split; try lra; intros; try reflexivity; lra.
  - apply Qltb_ge in H5. change (inject_Z 5) with 5%Q.
    change (Qltb 0 5) with true. cbn [num_value]. change (inject_Z 5) with 5%Q.
    repeat split; try lra; intros; try reflexivity; lra.
Qed.

Lemma clamp_rating_stars (x : Q) : (0 <= num_int (clamp_rating x) <= 5)%Z.
Proof.
  unfold clamp_rating.
  destruct (Qltb x 5) eqn:H5; cbn [num_value].
  - destruct (Qltb 0 x) eqn:H0; cbn [num_value num_int]; [|lia].
    apply Qltb_lt in H5, H0. unfold Qlt in H5, H0. simpl in H5, H0.
    destruct x as [n d]. simpl in *.
    assert (Hn : (0 < n)%Z) by lia.
    split.
    + apply Z.quot_pos; lia.
    + assert (n ÷ Z.pos d < 5)%Z; [|lia].
      apply Z.quot_lt_upper_bound; lia.
  - change (Qltb 0 (inject_Z 5)) with true. cbn. lia.
Qed.

Section CleanFacts.
Variable link_mark : string.
Variable star_full : string.
Variable star_empty : string.
Variable float_str : Q -> string.

Lemma clean_step_spec (cleaned_reviews : list Cleaned.t) (d : review) :
  clean_step link_mark star_full star_empty float_str cleaned_reviews d
  = if clean_kept d
    then cleaned_reviews ++ [clean_one link_mark star_full star_empty float_str d]
    else cleaned_reviews.
Proof. reflexivity. Qed.

Lemma clean_review_data_spec (reviews : list review) :
  clean_review_data link_mark star_full star_empty float_str reviews
  = map (clean_one link_mark star_full star_empty float_str)
      (filter (fun d => clean_kept d = true) reviews).
Proof.
  unfold clean_review_data.
  assert (Hgen : forall acc,
    fold_left (clean_step link_mark star_full star_empty float_str) reviews acc
    = acc ++ map (clean_one link_mark star_full star_empty float_str)
               (filter (fun d => clean_kept d = true) reviews)).
  { induction reviews as [|d reviews IH]; intros acc; simpl.
    - by rewrite app_nil_r.
    - rewrite IH, clean_step_spec, filter_cons. destruct (clean_kept d).
      + rewrite decide_True by done. simpl. by rewrite <- app_assoc.
      + by rewrite decide_False by done. }
  by rewrite Hgen.
Qed.

(** X24. Every entry of the output of [clean_review_data] comes from a review
    of the input: its text is the sanitized text, its URL is the URL
    unchanged, its rating lies between 0 and 5 and equals the review's rating
    when that lies between 0 and 5, the number of full stars lies between 0
    and 5, the entry has a text that is not empty or a rating above 0, and its
    name, text and date contain no dangerous character. *)
Theorem clean_review_data_entries (reviews : list review) (c : Cleaned.t) :
  c ∈ clean_review_data link_mark star_full star_empty float_str reviews ->
  exists d,
    d ∈ reviews
    /\ Cleaned.review_text c = sanitize_text (get_review_text d)
    /\ Cleaned.review_url c = default "" (review_url d)
    /\ (0 <= num_value (Cleaned.rating c) <= 5)%Q
    /\ ((0 <= get_rating d <= 5)%Q -> (num_value (Cleaned.rating c) == get_rating d)%Q)
    /\ (0 <= num_int (Cleaned.rating c) <= 5)%Z
    /\ (Cleaned.review_text c <> "" \/ (0 < num_value (Cleaned.rating c))%Q)
    /\ Forall (fun x => x ∉ dangerous_chars)
         (chars (Cleaned.reviewer_name c) ++ chars (Cleaned.review_text c)
          ++ chars (Cleaned.date c)).
Proof.
  rewrite clean_review_data_spec. intros Hc.
  apply list_elem_of_fmap in Hc as (d & -> & Hd).
  apply list_elem_of_filter in Hd as [Hk Hd].
  exists d. split; [done|]. cbn [clean_one Cleaned.review_text Cleaned.review_url
    Cleaned.rating Cleaned.reviewer_name Cleaned.date].
  destruct (clamp_rating_value (get_rating d)) as (Hr & Hid & _).
  split; [done|]. split; [done|]. split; [done|]. split; [done|].
  split; [apply clamp_rating_stars|]. split.
  - unfold clean_kept in Hk. apply orb_true_iff in Hk as [Hk|Hk].
    + left. intros He. by rewrite He in Hk.
    + right. by apply Qltb_lt.
  - rewrite !Forall_app. repeat split; apply sanitize_text_safe_chars.
Qed.

(** X25. [clean_review_data] returns at most as many entries as it is given
    reviews, and exactly as many when every review has a rating above 0. *)
Theorem clean_review_data_count (reviews : list review) :
  length (clean_review_data link_mark star_full star_empty float_str reviews)
  <= length reviews
  /\ (Forall (fun d => (0 < get_rating d)%Q) reviews ->
      length (clean_review_data link_mark star_full star_empty float_str reviews)
      = length reviews).
Proof.
  rewrite clean_review_data_spec, length_map. split; [apply length_filter|].
  intros Hpos. f_equal. induction Hpos as [|d reviews Hd _ IH]; [done|].
  rewrite filter_cons, decide_True; [by rewrite IH|].
  unfold clean_kept. apply orb_true_iff. right. apply Qltb_lt.
  destruct (clamp_rating_value (get_rating d)) as (_ & Hid & H5 & _).
  destruct (Qlt_le_dec (get_rating d) 5) as [Hlt|Hge].
  - rewrite Hid; lra.
  - by rewrite H5.
Qed.

(** X26. The counts of a search request: the cleaned reviews are at most as
    many as the filtered reviews, which are at most as many as the scraped
    reviews; with a limit that is not negative the cleaned reviews are at most
    limit many; when a review survives the filter, total_reviews of the
    insights is the number of filtered reviews; and the two numbers agree when
    the minimum rating of the query is above 0. *)
Theorem search_counts (reviews : list review) (filter_config : ReviewFilter.t) :
  let filtered_reviews := filter_reviews reviews filter_config in
  let cleaned_reviews :=
    clean_review_data link_mark star_full star_empty float_str filtered_reviews in
  length cleaned_reviews <= length filtered_reviews
  /\ length filtered_reviews <= length reviews
  /\ ((0 <= ReviewFilter.limit filter_config)%Z ->
      (Z.of_nat (length cleaned_reviews) <= ReviewFilter.limit filter_config)%Z)
  /\ (filtered_reviews <> [] ->
      get_review_insights filtered_reviews !! "total_reviews"
      = Some (IInt (Z.of_nat (length filtered_reviews))))
  /\ ((0 < ReviewFilter.min_rating filter_config)%Q ->
      length cleaned_reviews = length filtered_reviews).
Proof.
  intros filtered cleaned. subst cleaned.
  assert (Hc : length (clean_review_data link_mark star_full star_empty float_str filtered)
               <= length filtered).
  { rewrite clean_review_data_spec, length_map. apply length_filter. }
  split; [done|]. split.
  { subst filtered. rewrite filter_reviews_unfold.
    destruct (slice_to_take (_sort_reviews (filter_loop reviews filter_config)
                (ReviewFilter.sort_by filter_config)) (ReviewFilter.limit filter_config))
      as [m ->].
    rewrite length_take, (Permutation_length (_sort_reviews_perm _ _)), filter_loop_spec,
      length_map.
    pose proof (length_filter (fun d => survives filter_config d = true) reviews). lia. }
  split.
  { intros Hl. pose proof (slice_to_length
      (_sort_reviews (filter_loop reviews filter_config) (ReviewFilter.sort_by filter_config))
      _ Hl) as Hs.
    rewrite <- filter_reviews_unfold in Hs. fold filtered in Hs. lia. }
  split.
  { intros Hne. destruct filtered as [|e l]; [done|].
    apply get_review_insights_fields. }
  intros Hmin. rewrite clean_review_data_spec, length_map. f_equal.
  assert (Hall : Forall (fun e => clean_kept e = true) filtered).
  { apply Forall_forall. intros e He. subst filtered.
    apply filter_reviews_elem in He as (d & _ & Hs & ->).
    unfold clean_kept. apply orb_true_iff. right. apply Qltb_lt.
    rewrite get_rating_annotate.
    unfold survives, passes_rating in Hs. rewrite !andb_true_iff, !Qle_bool_iff in Hs.
    destruct (clamp_rating_value (get_rating d)) as (_ & Hid & H5 & _).
    destruct (Qlt_le_dec (get_rating d) 5) as [Hlt|Hge].
    - rewrite Hid; lra.
    - by rewrite H5. }
  clear -Hall. induction Hall as [|e l He _ IH]; [done|].
  by rewrite filter_cons, decide_True, IH.
Qed.
End CleanFacts.

(** ** The further theorems at sample inputs *)

Lemma filter_reviews_unknown_sentiment_witness :
  filter_reviews [two_star; five_star; four_star] by_mixed = [].
Proof.
  apply (filter_reviews_unknown_sentiment [two_star; five_star; four_star] by_mixed "mixed").
  - reflexivity.
  - discriminate.
  - intros H. repeat (apply elem_of_cons in H as [H|H]; [discriminate|]).
    by apply elem_of_nil in H.
Defined.

Lemma filter_reviews_annotations_witness :
  exists d,
    d ∈ [four_star; five_star]
    /\ scraped_keys (annotate by_keyword four_star) = scraped_keys d
    /\ sentiment (annotate by_keyword four_star)
       = Some (analyze_sentiment (get_review_text d))
    /\ categories (annotate by_keyword four_star)
       = Some (categorize_review (get_review_text d))
    /\ (exists r, keyword_relevance (annotate by_keyword four_star) = Some r
                  /\ (0 <= r <= 1)%Q
                  /\ (list_truthy (ReviewFilter.keywords by_keyword) = true ->
                      (1 # 10 < r)%Q)
                  /\ (list_truthy (ReviewFilter.keywords by_keyword) = false ->
                      r = 1%Q
                      /\ relevance_percentage (annotate by_keyword four_star)
                         = Some "100%"))
    /\ (forall wanted,
          ReviewFilter.sentiment by_keyword = Some wanted -> wanted <> "" ->
          sentiment (annotate by_keyword four_star) = Some wanted).
Proof.
  apply (filter_reviews_annotations [four_star; five_star] by_keyword).
  vm_compute. left.
Defined.

Lemma filter_reviews_idempotent_witness :
  filter_reviews (filter_reviews [two_star; five_star; four_star] by_rating) by_rating
  = filter_reviews [two_star; five_star; four_star] by_rating.
Proof.
  apply (filter_reviews_idempotent [two_star; five_star; four_star] by_rating).
  vm_compute. discriminate.
Defined.

Lemma filter_reviews_limit_prefix_witness :
  filter_reviews [two_star; five_star; four_star] (with_limit 1 by_rating)
  `prefix_of` filter_reviews [two_star; five_star; four_star] (with_limit 2 by_rating)
  /\ length (filter_reviews [two_star; five_star; four_star] (with_limit 2 by_rating))
     <= length [two_star; five_star; four_star].
Proof.
  apply (filter_reviews_limit_prefix [two_star; five_star; four_star] by_rating 1 2).
  lia.
Defined.

Lemma get_review_insights_totals_witness :
  exists distribution sentiments,
    get_review_insights [two_star; five_star; four_star] !! "total_reviews"
    = Some (IInt (Z.of_nat (length [two_star; five_star; four_star])))
    /\ get_review_insights [two_star; five_star; four_star] !! "rating_distribution"
       = Some (ICounts distribution)
    /\ map fst distribution = ["5_star"; "4_star"; "3_star"; "2_star"; "1_star"]
    /\ counts_total distribution = length [two_star; five_star; four_star]
    /\ get_review_insights [two_star; five_star; four_star] !! "sentiment_breakdown"
       = Some (ICounts sentiments)
    /\ counts_total sentiments = length [two_star; five_star; four_star].
Proof.
  apply (get_review_insights_totals [two_star; five_star; four_star]). discriminate.
Defined.

Lemma get_review_insights_sentiments_witness :
  exists sentiments,
    get_review_insights (filter_reviews [two_star; five_star; four_star] unsorted)
      !! "sentiment_breakdown" = Some (ICounts sentiments)
    /\ NoDup (map fst sentiments)
    /\ forall s n,
         (s, n) ∈ sentiments
         <-> n = length (filter (fun d => sentiment_of d = s)
                           (filter_reviews [two_star; five_star; four_star] unsorted))
             /\ 0 < n.
Proof.
  apply (get_review_insights_sentiments
           (filter_reviews [two_star; five_star; four_star] unsorted)).
  vm_compute. discriminate.
Defined.

Lemma get_review_insights_categories_witness :
  exists breakdown,
    get_review_insights (filter_reviews [two_star; five_star; four_star] unsorted)
      !! "category_breakdown" = Some (ICounts breakdown)
    /\ StronglySorted (fun a b => b.2 <= a.2) breakdown
    /\ NoDup (map fst breakdown)
    /\ (forall c n,
          (c, n) ∈ breakdown
          <-> n = occurrences c
                    (all_categories_of
                       (filter_reviews [two_star; five_star; four_star] unsorted))
              /\ 0 < n)
    /\ get_review_insights (filter_reviews [two_star; five_star; four_star] unsorted)
         !! "top_categories" = Some (INames (map fst (take 5 breakdown))).
Proof.
  apply (get_review_insights_categories
           (filter_reviews [two_star; five_star; four_star] unsorted)).
  vm_compute. discriminate.
Defined.


Lemma filter_reviews_new_objects_witness :
  exists out h' out_items,
    Store.filter_reviews 3%positive by_keyword sample_store = Some (out, h')
    /\ sample_store !! out = None
    /\ h' !! out = Some (Store.OList out_items)
    /\ NoDup out_items
    /\ Forall (fun l => sample_store !! l = None) out_items.
Proof.
  apply (filter_reviews_new_objects sample_store 3%positive
           [1%positive; 2%positive; 1%positive] [two_star; four_star; two_star]).
  - vm_compute. reflexivity.
  - repeat constructor; vm_compute; reflexivity.
Defined.

Lemma detect_platform_of_domain_witness :
  detect_platform sample_netloc sample_url = Some "gamestop".
Proof.
  apply (detect_platform_of_domain sample_netloc sample_url "www.gamestop.com"
           "gamestop" gamestop).
  - vm_compute. reflexivity.
  - reflexivity.
  - right. vm_compute. reflexivity.
Defined.


Lemma scrape_reviews_detected_witness :
  scrape_reviews sample_netloc sample_fetch sample_url None
  = scrape_reviews sample_netloc sample_fetch sample_url (Some "gamestop")
  /\ scrape_reviews sample_netloc sample_fetch sample_url (Some "")
     = scrape_reviews sample_netloc sample_fetch sample_url (Some "gamestop").
Proof.
  apply (scrape_reviews_detected sample_netloc sample_fetch sample_url "gamestop").
  vm_compute. reflexivity.
Defined.

Lemma create_filter_from_params_lists_witness :
  ReviewFilter.keywords by_keyword_args = Some (comma_list (keyword_args !! "keywords"))
  /\ ReviewFilter.categories by_keyword_args
     = Some (comma_list (keyword_args !! "categories"))
  /\ forall param,
       Forall (fun piece => PyStr.strip piece = piece) (comma_list param)
       /\ (forall s, param = Some s -> s <> "" ->
                     length (comma_list param) = S (count_char "," s))
       /\ (param = None \/ param = Some "" -> comma_list param = []).
Proof.
  apply (create_filter_from_params_lists sample_float_of_str sample_int_of_str
           keyword_args).
  vm_compute. reflexivity.
Defined.

Lemma create_filter_from_params_default_witness :
  exists filter_config,
    create_filter_from_params sample_float_of_str sample_int_of_str url_args
    = Some filter_config
    /\ filter_reviews [two_star; five_star; four_star] filter_config
       = take 50
           (map (fun d => with_full_relevance (enhance (get_review_text d) d))
              (filter (fun d => (0 <= get_rating d)%Q /\ (get_rating d <= 5)%Q)
                 [two_star; five_star; four_star])).
Proof.
  apply (create_filter_from_params_default sample_float_of_str sample_int_of_str
           url_args).
  intros param H.
  repeat (apply elem_of_cons in H as [->|H]; [vm_compute; reflexivity|]).
  by apply elem_of_nil in H.
Defined.

Lemma clean_review_data_entries_witness :
  exists d,
    d ∈ [four_star; five_star]
    /\ Cleaned.review_text (clean_one "[link]" "*" "-" format_1f four_star)
       = sanitize_text (get_review_text d)
    /\ Cleaned.review_url (clean_one "[link]" "*" "-" format_1f four_star)
       = default "" (review_url d)
    /\ (0 <= num_value (Cleaned.rating (clean_one "[link]" "*" "-" format_1f four_star))
        <= 5)%Q
    /\ ((0 <= get_rating d <= 5)%Q ->
        (num_value (Cleaned.rating (clean_one "[link]" "*" "-" format_1f four_star))
         == get_rating d)%Q)
    /\ (0 <= num_int (Cleaned.rating (clean_one "[link]" "*" "-" format_1f four_star))
        <= 5)%Z
    /\ (Cleaned.review_text (clean_one "[link]" "*" "-" format_1f four_star) <> ""
        \/ (0 < num_value
                  (Cleaned.rating (clean_one "[link]" "*" "-" format_1f four_star)))%Q)
    /\ Forall (fun x => x ∉ dangerous_chars)
         (chars (Cleaned.reviewer_name (clean_one "[link]" "*" "-" format_1f four_star))
          ++ chars (Cleaned.review_text (clean_one "[link]" "*" "-" format_1f four_star))
          ++ chars (Cleaned.date (clean_one "[link]" "*" "-" format_1f four_star))).
Proof.
  apply (clean_review_data_entries "[link]" "*" "-" format_1f [four_star; five_star]).
  vm_compute. left.
Defined.



Lemma search_counts_witness :
  (Z.of_nat (length (clean_review_data "[link]" "*" "-" format_1f
                       (filter_reviews [two_star; five_star; four_star] by_rating)))
   <= ReviewFilter.limit by_rating)%Z.
Proof.
  apply (search_counts "[link]" "*" "-" format_1f [two_star; five_star; four_star]
           by_rating).
  vm_compute. discriminate.
Defined.

Lemma clean_review_data_count_witness :
  length (clean_review_data "[link]" "*" "-" format_1f [two_star; five_star; four_star])
  = length [two_star; five_star; four_star].
Proof.
  apply (proj2 (clean_review_data_count "[link]" "*" "-" format_1f
                  [two_star; five_star; four_star])).
  repeat constructor; vm_compute; reflexivity.
Defined.

Lemma create_filter_from_params_numbers_witness :
  create_filter_from_params sample_float_of_str sample_int_of_str limit_args = None.
Proof.
  apply (proj2 (proj1 (create_filter_from_params_numbers sample_float_of_str
                         sample_int_of_str limit_args))).
  right. right. exists "many". split; vm_compute; reflexivity.
Defined.
